(* ===== verification/_CoqProject ===== *)
-Q . S2P
Prelude.v
Json.v
Models.v
Http.v
Skeleton.v
Store.v
Service.v
Abstract.v
Cors.v
Suite.v
Cost.v
Conformance.v
Legacy.v
Generator.v
Summary.v
Liveness.v
