(* ===== verification/Prelude.v ===== *)
(** * A verification development of the ReDI mini-project to-do API

    The repository (erjadi/ReDI-MiniProject-3) holds
    - [src/Reference_API/api_skeleton.py] (and the near-identical
      [src/reference_API/api_skeleton.py]): a FastAPI application whose
      pydantic models ([Recurrence], [TaskBase], [TaskCreate],
      [TaskUpdate], [TaskOut], [ListModel]) validate the JSON bodies and
      whose eight route handlers all raise [HTTPException(501)];
    - [src/testing/test_todo_api.py]: the main HTTP test suite, which
      encodes the behaviour an implementation of the API must have;
    - [src/Testing/test_todo_api.py]: an older test suite with different
      expectations (auto-created lists, renaming, cascading deletion);
    - [src/testing/create_tasks.py] and its older copy
      [src/Testing/create_tasks.py]: a command-line generator that asks
      a language model for tasks and posts them, and manages lists.

    The parts interact only through HTTP requests and JSON responses: the
    suites and the generator are clients of any server that offers the
    API.  The development models each part and that interface.

    ** Files

    - [Prelude] (this file): the scope, hint database [todo], the Python
      string operations the code uses ([str.strip], [str.split],
      [str.startswith], [sep.join]) and an insertion-ordered Python
      [dict] ([PyDict]: [dict_get], [dict_set], [dict_del]) with its
      lemmas.
    - [Json]: JSON values as Python's [json] module returns them, Python's
      [==] (with [True == 1], order-insensitive dicts) and [in].
    - [Models]: the pydantic models of [api_skeleton.py] lines 20-54,
      their lax-mode validation from JSON with every failing field
      reported ([validate_TaskCreate], [validate_TaskUpdate] with its
      [model_fields_set], [validate_ListModel]), and their serialisation.
    - [Http]: requests, responses, the [Server] typeclass (the interface
      every implementation offers its clients), and the [client] monad of
      the Python clients: server state threaded through [send], Python
      exceptions ([AssertionError], [KeyError], [TypeError], [NameError],
      [SystemExit], ...) ending the computation.
    - [Skeleton]: the application of [api_skeleton.py] lines 56-95 over
      the [Handlers] typeclass (the handler bodies and the [status_code]
      of their decorators): Starlette routing (404, 405, and the 307
      redirect of a trailing slash), validation of
      path, query and body before any handler (422), then the handler,
      whose returned value FastAPI sends under the decorator's status
      and whose [HTTPException] it sends as is ([finish]).
      [stub_handlers] are the handlers and 501 decorators of
      [src/Reference_API]; [lower_stub_handlers] the same handlers under
      the 201/200/204 decorators of [src/reference_API].
    - [Store] (from the spec: no implementation exists in the
      repository): the task/list store, its eight operations with their
      error kinds, the invariant [store_wf], the step relation and the
      reachable states.
    - [Service] (error statuses from the spec's table): [store_handlers],
      the handlers of [src/reference_API/api_skeleton.py] written over
      the store under that file's decorators, behind the source's own
      routing and validation: a second [Server].
    - [Abstract] (from the spec's domain model): the contract of the
      API's state, tasks as a finite map ([gmap]) and lists as a finite
      set ([gset]), its five abstract steps [astep] (any fresh id for a
      new task) and invariant [a_wf]; [abs] maps a store to it.
    - [Cors]: Starlette's [CORSMiddleware] (a library, modelled from its
      source) as a transformer of an application, with the configuration
      both files give it (lines 11-17 and 9-15): [reference_app] and
      [lower_reference_app] are the two applications as built;
      [cors_server] the middleware over any handlers; the suite's
      [test_cors_headers], which [main] does not run.
    - [Suite]: the nineteen tests [main] of [src/testing/test_todo_api.py]
      runs, [cleanup], [run_test] and [main], as client programs over any
      [Server].
    - [Cost]: a program logic for the number of requests a client
      program sends ([sends], [always_raises], [returns]), the server
      that counts them, and the bound of the suite's [main]; the bound of
      the generator is in [Generator].
    - [Conformance]: [main] run on the skeleton and on the service,
      [cleanup] on the service from any well-formed state, and the type
      checks of [test_api_interface_consistency] on any [TaskOut].
    - [Legacy]: the ten tests of [src/Testing/test_todo_api.py] with the
      module globals they share ([LegacySuite]), and its [__main__].
    - [Generator]: both [create_tasks.py] scripts ([CreateTasks]) over any
      [Server], the printed lines as [event]s, the language model as a
      section variable.
    - [Summary]: [summary()] of both suites; the categories dict, the
      printed lines as [summary_line]s and the percentage computed with
      Rocq's primitive binary64 floats ([PrimFloat]), Python's [float].
    - [Liveness]: sequences of requests ([run_requests]) and the reset
      of the service to its start-up state.

    ** What the theorems show (claims C1-C39)

    - The service: every state reachable by HTTP requests satisfies the
      store invariant (C1); a request answered with an error changes
      nothing (C2); the spec's behaviours through the real routing
      (C8-C10, C14-C16: the protected [Personal] list, creation
      defaults, create then read back, unknown lists refused, clearing
      an end date, the end-to-end projects scenario).
    - Liveness: from every well-formed state whose list names are
      non-empty and slash-free, requests a client can send bring the
      service back, abstractly, to its start-up state (C11); with a
      slash in a list name no such request can (C30).
    - Termination and the work a run asks of the server: whatever the
      server answers, the suite's [main] ends after at most [75 + 2k]
      requests when no answer lists more than [k] items, [cleanup]
      deleting each listed item once and the nineteen tests sending at
      most 73 requests (C12); [create_tasks.py] ends after at most
      [k + 2] requests when no reply of the language model has more than
      [k] items, none retried (C13).  On the service from start-up the
      suite sends 75 requests, all 73 its tests may send
      ([Conformance.suite_requests_service_run]), and the generator
      reaches its bound ([Generator.main_requests_witness_run]).
    - Refinement: every request the service answers is no change or one
      step of the abstract specification (C33); every reachable service
      state is, abstracted, reachable in the specification and satisfies
      its invariant (C34); the CORS middleware reaches no state the bare
      application does not ([Cors.cors_reachable_refines]: it changes
      state only through the application), so C1 and C34 hold of the
      application as configured; [GET /tasks/{id}] answers from the
      abstract map ([Abstract.get_task_refines]).
    - The skeleton: it never answers with success (C3); whatever the
      handlers, pydantic rejects a missing title or an unknown recurrence
      with 422 before any handler runs (C4, C5); the two skeleton files
      answer alike (C35); handlers filled in under the decorators of
      [src/Reference_API] would still answer every success with 501
      (C36).
    - CORS (C21): a request without [Origin] reaches the application
      untouched; a preflight never reaches it (its answer and the kept
      state are the same for every application); any other request with
      [Origin] keeps the application's status, body, next state and
      other headers, and gains [access-control-allow-origin] ([*], or
      the origin when a cookie is sent) and
      [access-control-allow-credentials: true].  A preflight is answered
      200 by the middleware alone, echoing the origin because
      credentials are allowed ([Cors.cors_preflight]); so
      the suite's [test_cors_headers], which expects ["*"], fails on
      every implementation (C20).
    - The suites: [main] fails all nineteen tests on the skeleton for
      every choice of dates and uuids (C6) and passes all nineteen on the
      service from start-up, for every start-up time, all dates and any
      two uuid texts with a non-digit (C7); from any well-formed state whose list
      names have no [?] or [#], [cleanup] deletes every task and every
      list but [Personal], [Work] and names with a slash (C31), and
      re-creates nothing, so after [Work] was deleted the default-lists
      test fails (C32); whatever the handlers,
      [test_create_task_validation] passes exactly when [create_task]
      answers the task in an unknown list with 400, its 422 checks
      being pydantic's (C37); a [TaskOut] passes the interface test's
      type checks exactly when its optional text fields are set (C19).
      The older suite's [test_get_all_lists] fails on every server whose
      [/lists] follows [ListModel] (C22), its [test_create_tasks] fails
      on the service (C23); its [__main__] passes exactly three tests on
      the service (C24).
    - The summaries: the percentage [int((passed / total) * 100)] is the
      exact one rounded down or one below it, never raises, and is 100
      exactly when all passed (C38); [summary()] of any results prints
      each category once with its own counts and the right totals (C39).
    - The generator: posting acceptable tasks posts them all and reports
      [n/n] (C25); with [--list] naming a new list it creates the list,
      then posts everything (C26); a dry run sends no request (C27); a
      list name with a slash can never be deleted, by the script (C28) or
      by any request (C30); a name with a [?] or [#] makes the script
      delete another list, the prefix before it (C29), as it makes
      [cleanup] delete [Work] ([Conformance.cleanup_query_name_deletes_work]).
    - Models and store: the JSON of a [TaskOut] validates back to its
      fields (C17); [GET /tasks] with any query FastAPI accepts answers
      the stored tasks, in order, that meet the parsed [completed], the
      [list] and the stripped comma-separated [tags] filters (C18).
      Lemmas that are not
      claims cover [update_task], the tags filter, [split]/[join] round
      trips, [strip], [create_list] and the printed reports of the runs
      ([Summary.summary_main_runs]).

    ** Bounds, fuel, concrete runs

    Every definition is structurally recursive: no fuel is needed, every
    function is total.  Every loop of the code is a [for] over a finite
    list (the JSON a response carried, the tests of [main], the tasks
    the model returned), so every run ends; what the termination claims
    C12 and C13 bound is the number of requests a run sends, in the
    program logic of [Cost] ([sends cnt m b]: the program [m] adds at
    most [b] to a counter, whatever the server answers), over a server
    that counts the requests it handles ([counting_server]).  The bounds
    are parameters: [k], the most items an answer of the server (C12) or
    a reply of the language model (C13) has.  C6 is evaluated by
    [vm_compute] for every environment (the skeleton ignores the dates
    and uuids).  C7 holds for every environment whose two uuids contain
    a non-digit, as [str(uuid4())] does: [Conformance.run_steps] steps
    each test bind by bind over the symbolic dates and uuids, and needs
    only that a text equals itself, starts with its own date part, and
    is no task id (task ids are digit strings) when it has a non-digit.
    C24 is evaluated by [vm_compute] for every start-up clock (the older
    suite sends no date or uuid of its own).  The percentage
    bounds (C39, C40) are checked by evaluation for every count up to
    250 tests ([Summary.pct_table]), far above the nineteen and ten tests
    of the two suites; the conversion of a count to a float is exact
    below [2^53].

    ** Not modelled

    The percent-encoding [httpx] applies to the other characters of a
    URL (a URL's path is cut at a [?] or [#] and split at the slashes of
    the texts interpolated into it: [Http.url_path]; a [%] in a name is
    left to the server's decoding); pydantic's parsing
    of datetimes (dates are carried as their ISO text); the exception
    messages [run_test] records and [summary()] prints under a failed
    test; plain-text bodies and the [content-length] and [content-type]
    headers (a non-JSON body is [None]); timings; the OpenAI client (its
    parsed reply is an input) and [argparse] (its result is the [args]
    record).  Task ids are decimal strings from a counter (the spec asks
    only for unique strings).

    ** Plan left

    [main] of the suite passing from every well-formed state that has
    both default lists (C31 reduces it to a store with no tasks and an
    arbitrary id counter; what is left is that the tests only compare
    ids with each other); the suite's tests against the abstract
    specification instead of the store. *)

From stdpp Require Export base strings list pretty sets relations.
From Stdlib Require Export String Ascii.

Declare Scope todo_scope.
Delimit Scope todo_scope with todo.
Open Scope string_scope.

Create HintDb todo discriminated.


(** ** Python [str] operations *)

(** [str.isspace] on one ASCII character: tab, line feed, vertical tab,
    form feed, carriage return, the four separators [\x1c]..[\x1f] and
    space (CPython's [_Py_ascii_whitespace]). *)
Definition is_py_space (c : ascii) : bool :=
  let n := nat_of_ascii c in
  ((9 <=? n) && (n <=? 13) || (28 <=? n) && (n <=? 32))%nat.

(** [s.lstrip()] *)
Fixpoint lstrip (s : string) : string :=
  match s with
  | EmptyString => EmptyString
  | String c r => if is_py_space c then lstrip r else s
  end.

(** [s.rstrip()] *)
Fixpoint rstrip (s : string) : string :=
  match s with
  | EmptyString => EmptyString
  | String c r =>
      let r' := rstrip r in
      match r' with
      | EmptyString => if is_py_space c then EmptyString else String c EmptyString
      | _ => String c r'
      end
  end.

(** [s.strip()] *)
Definition strip (s : string) : string := rstrip (lstrip s).

(** Every character of [s] is whitespace. *)
Fixpoint all_space (s : string) : bool :=
  match s with
  | EmptyString => true
  | String c r => is_py_space c && all_space r
  end.

(** [s.split(sep)] for a one-character separator: Python returns [[""]]
    on the empty string and an empty field between adjacent separators. *)
Fixpoint py_split (sep : ascii) (s : string) : list string :=
  match s with
  | EmptyString => [EmptyString]
  | String c r =>
      let parts := py_split sep r in
      if ascii_dec c sep then EmptyString :: parts
      else match parts with
           | p :: ps => String c p :: ps
           | [] => [String c EmptyString]
           end
  end.

(** [sep.join(xs)] *)
Fixpoint py_join (sep : string) (xs : list string) : string :=
  match xs with
  | [] => EmptyString
  | [x] => x
  | x :: xs' => x ++ sep ++ py_join sep xs'
  end.

(** [s.startswith(p)] *)
Definition startswith (s p : string) : bool := String.prefix p s.

(** Characters of a string, as a Stdlib list. *)
Fixpoint chars (s : string) : list ascii :=
  match s with
  | EmptyString => []
  | String c r => c :: chars r
  end.

(** ** Python [dict]: an insertion-ordered association list

    A Python [dict] keeps its keys in insertion order; assigning to an
    existing key keeps its position, [del] removes it.  The store's task
    table is such a dict, and the spec asks [list_tasks] to answer in
    insertion order, so the dict is modelled as the list of its items. *)
Section PyDict.
Context {K V : Type} `{EqDecision K}.

(** [d.get(k)] *)
Fixpoint dict_get (k : K) (d : list (K * V)) : option V :=
  match d with
  | [] => None
  | (k', v) :: d' => if decide (k = k') then Some v else dict_get k d'
  end.

(** [d[k] = v] *)
Fixpoint dict_set (k : K) (v : V) (d : list (K * V)) : list (K * V) :=
  match d with
  | [] => [(k, v)]
  | (k', v') :: d' =>
      if decide (k = k') then (k, v) :: d' else (k', v') :: dict_set k v d'
  end.

(** [del d[k]] (callers check [k in d] first, as the store does) *)
Fixpoint dict_del (k : K) (d : list (K * V)) : list (K * V) :=
  match d with
  | [] => []
  | (k', v') :: d' => if decide (k = k') then d' else (k', v') :: dict_del k d'
  end.

Definition dict_keys (d : list (K * V)) : list K := map fst d.
Definition dict_values (d : list (K * V)) : list V := map snd d.

End PyDict.

(** ** Facts on strings *)

Lemma all_space_lstrip s : all_space (lstrip s) = all_space s.
Proof. induction s as [|c r IH]; simpl; [done|]. destruct (is_py_space c) eqn:E; simpl; rewrite ?E; done. Qed.

Lemma rstrip_empty_iff s : rstrip s = "" ↔ all_space s = true.
Proof.
  induction s as [|c r IH]; simpl; [done|].
  destruct (rstrip r) eqn:E; destruct (is_py_space c); simpl; rewrite <- ?IH; split; try done.
  all: intros H; try discriminate; apply andb_prop in H as [_ H]; apply IH in H; discriminate.
Qed.

(** [s.strip() == ""] exactly when [s] is empty or whitespace only. *)
Lemma strip_empty_iff s : strip s = "" ↔ all_space s = true.
Proof. unfold strip. by rewrite rstrip_empty_iff, all_space_lstrip. Qed.

Lemma py_split_not_nil sep s : py_split sep s ≠ [].
Proof.
  destruct s as [|c r]; simpl; [done|].
  destruct (ascii_dec c sep); [done|]. by destruct (py_split sep r).
Qed.

Lemma py_join_cons_char sep c p ps : py_join sep (String c p :: ps) = String c (py_join sep (p :: ps)).
Proof. by destruct ps. Qed.

(** [sep.join(s.split(sep)) == s] *)
Lemma py_join_split sep s : py_join (String sep EmptyString) (py_split sep s) = s.
Proof.
  induction s as [|c r IH]; simpl; [done|].
  pose proof (py_split_not_nil sep r) as Hne.
  destruct (py_split sep r) as [|p ps] eqn:E; [done|].
  destruct (ascii_dec c sep) as [->|]; [by rewrite <- IH|].
  by rewrite py_join_cons_char, IH.
Qed.

Lemma chars_length s : List.length (chars s) = String.length s.
Proof. induction s; simpl; auto. Qed.

Lemma py_split_no_sep sep x : sep ∉ chars x → py_split sep x = [x].
Proof.
  induction x as [|c r IH]; simpl; [done|]. rewrite elem_of_cons. intros Hn.
  destruct (ascii_dec c sep); [naive_solver|]. rewrite IH; naive_solver.
Qed.

(** A text with a separator splits into at least two path segments. *)
Lemma py_split_two sep n : sep ∈ chars n → ∃ a b rest, py_split sep n = a :: b :: rest.
Proof.
  induction n as [|c r IH]; simpl; [set_solver|]. intros Hin.
  destruct (ascii_dec c sep) as [->|Hc].
  - destruct (py_split sep r) as [|p ps] eqn:E; [by destruct (py_split_not_nil sep r)|]. eauto.
  - apply elem_of_cons in Hin as [Heq|Hin]; [by destruct Hc|].
    destruct (IH Hin) as (a & b & rest & ->). eauto.
Qed.

(** A text that does not end with the separator has a non-empty last field. *)
Lemma py_split_last sep n :
  n ≠ "" → last (chars n) ≠ Some sep → last (py_split sep n) ≠ Some "".
Proof.
  induction n as [|c r IH]; [done|]. intros _ Hl.
  destruct (decide (r = "")) as [->|Hr].
  { simpl in *. destruct (ascii_dec c sep) as [->|Hc]; [done|]. simpl. congruence. }
  assert (chars r ≠ []) as Hcr by (destruct r; [done|discriminate]).
  assert (last (chars r) ≠ Some sep) as Hl'.
  { intros H. apply Hl. simpl. by rewrite last_cons, H. }
  specialize (IH Hr Hl'). simpl.
  pose proof (py_split_not_nil sep r) as Hnn.
  destruct (ascii_dec c sep); [destruct (py_split sep r) as [|p ps]; [done|exact IH]|].
  destruct (py_split sep r) as [|p [|p' ps]]; [done|simpl; congruence|exact IH].
Qed.

Lemma py_split_app_sep sep x s :
  sep ∉ chars x → py_split sep (x ++ String sep s) = x :: py_split sep s.
Proof.
  induction x as [|c r IH]; simpl; intros Hn.
  - by destruct (ascii_dec sep sep).
  - rewrite elem_of_cons in Hn. rewrite IH by naive_solver.
    destruct (ascii_dec c sep); naive_solver.
Qed.

(** [sep.join(xs).split(sep) == xs] when no field contains [sep]. *)
Lemma py_split_join sep xs :
  xs ≠ [] → Forall (λ x, sep ∉ chars x) xs → py_split sep (py_join (String sep EmptyString) xs) = xs.
Proof.
  induction xs as [|x xs IH]; [done|]. intros _ Hall%Forall_cons.
  destruct xs as [|x' xs'].
  - apply py_split_no_sep; naive_solver.
  - change (py_join _ (x :: x' :: xs')) with (x ++ String sep (py_join (String sep EmptyString) (x' :: xs'))).
    rewrite py_split_app_sep by naive_solver. rewrite IH; naive_solver.
Qed.

(** ** Facts on lists *)

(** A [forallb] over a range of naturals, as a statement on each. *)
Lemma forallb_seq (f : nat → bool) a n :
  forallb f (seq a n) = true → ∀ i, (a ≤ i < a + n)%nat → f i = true.
Proof. rewrite forallb_forall. intros H i Hi. apply H, in_seq. lia. Qed.

(** [mapM] succeeds when [f] does on every element. *)
Lemma mapM_Some_intro {A B} (f : A → option B) (Q : A → B → Prop) (l : list A) :
  (∀ x, x ∈ l → ∃ y, f x = Some y ∧ Q x y) → ∃ ys, mapM f l = Some ys ∧ Forall2 Q l ys.
Proof.
  induction l as [|x l IH]; intros H; [by exists []|].
  destruct (H x) as (y & Hy & Hq); [set_solver|]. destruct IH as (ys & Hys & Hf); [set_solver|].
  exists (y :: ys). simpl. rewrite Hy, Hys. split; [done|by constructor].
Qed.

(** ** Facts on dicts *)

Section PyDictFacts.
Context {K V : Type} `{EqDecision K}.
Implicit Types (d : list (K * V)) (k : K) (v : V).

Lemma dict_get_set_eq k v d : dict_get k (dict_set k v d) = Some v.
Proof. induction d as [|[k' v'] d IH]; simpl; repeat (case_decide; simpl); congruence. Qed.

Lemma dict_get_set_ne k k' v d : k' ≠ k → dict_get k' (dict_set k v d) = dict_get k' d.
Proof.
  intros Hne. induction d as [|[k0 v0] d IH]; simpl;
    repeat (case_decide; simpl); subst; congruence.
Qed.

Lemma dict_get_del_ne k k' d : k' ≠ k → dict_get k' (dict_del k d) = dict_get k' d.
Proof.
  intros Hne. induction d as [|[k0 v0] d IH]; simpl;
    repeat (case_decide; simpl); subst; congruence.
Qed.

Lemma dict_get_None_keys k d : dict_get k d = None ↔ k ∉ dict_keys d.
Proof.
  induction d as [|[k0 v0] d IH]; simpl; [set_solver|].
  case_decide; subst; rewrite ?elem_of_cons; [split; [done|]; tauto|].
  rewrite IH. naive_solver.
Qed.

Lemma dict_get_del_eq k d : NoDup (dict_keys d) → dict_get k (dict_del k d) = None.
Proof.
  induction d as [|[k0 v0] d IH]; simpl; [done|]. intros Hnd%NoDup_cons.
  case_decide; subst; simpl.
  - apply dict_get_None_keys. naive_solver.
  - case_decide; [congruence|]. naive_solver.
Qed.

Lemma dict_keys_set k v d :
  dict_keys (dict_set k v d) =
    if decide (k ∈ dict_keys d) then dict_keys d else (dict_keys d ++ [k])%list.
Proof.
  unfold dict_keys. induction d as [|[k0 v0] d IH]; simpl; [done|].
  destruct (decide (k = k0)) as [->|Hne]; simpl.
  - rewrite decide_True by set_solver. done.
  - rewrite IH. destruct (decide (k ∈ map fst d)).
    + rewrite decide_True by set_solver. done.
    + rewrite decide_False by set_solver. done.
Qed.

Lemma dict_set_NoDup k v d : NoDup (dict_keys d) → NoDup (dict_keys (dict_set k v d)).
Proof.
  rewrite dict_keys_set. case_decide; [done|]. intros Hnd.
  apply NoDup_app. split; [done|split; [set_solver|apply NoDup_singleton]].
Qed.

Lemma dict_keys_del_sub k d x : x ∈ dict_keys (dict_del k d) → x ∈ dict_keys d.
Proof.
  induction d as [|[k0 v0] d IH]; simpl; [done|].
  case_decide; simpl; rewrite !elem_of_cons; naive_solver.
Qed.

Lemma dict_del_NoDup k d : NoDup (dict_keys d) → NoDup (dict_keys (dict_del k d)).
Proof.
  induction d as [|[k0 v0] d IH]; simpl; [done|]. intros Hnd%NoDup_cons.
  case_decide; simpl; [naive_solver|].
  constructor; [|naive_solver]. intros Hin%dict_keys_del_sub. naive_solver.
Qed.

Lemma dict_get_Some_elem k v d : dict_get k d = Some v → (k, v) ∈ d.
Proof.
  induction d as [|[k0 v0] d IH]; simpl; [done|].
  case_decide; intros; simplify_eq; rewrite elem_of_cons; naive_solver.
Qed.

Lemma dict_elem_get k v d : NoDup (dict_keys d) → (k, v) ∈ d → dict_get k d = Some v.
Proof.
  induction d as [|[k0 v0] d IH]; simpl; [set_solver|]. intros Hnd%NoDup_cons.
  rewrite elem_of_cons. destruct Hnd as [Hn Hnd].
  case_decide; subst; intros [Heq|Hin]; simplify_eq; try done; [|naive_solver].
  destruct Hn. apply (list_elem_of_fmap_2 fst _ (k0, v)), Hin.
Qed.
Lemma dict_set_fresh k v d : dict_get k d = None → dict_set k v d = (d ++ [(k, v)])%list.
Proof.
  induction d as [|[k0 v0] d IH]; simpl; [done|].
  case_decide; [done|]. intros Hg. by rewrite IH.
Qed.

Lemma elem_of_dict_set k v d k' v' :
  (k', v') ∈ dict_set k v d → (k' = k ∧ v' = v) ∨ (k', v') ∈ d.
Proof.
  induction d as [|[k0 v0] d IH]; simpl; [set_solver|].
  case_decide; subst; rewrite !elem_of_cons; naive_solver.
Qed.

Lemma elem_of_dict_del k d x : x ∈ dict_del k d → x ∈ d.
Proof.
  induction d as [|[k0 v0] d IH]; simpl; [done|].
  case_decide; rewrite ?elem_of_cons; naive_solver.
Qed.

Lemma elem_of_dict_values d v : v ∈ dict_values d ↔ ∃ k, (k, v) ∈ d.
Proof.
  unfold dict_values. rewrite list_elem_of_fmap. split.
  - intros ([k v'] & -> & Hin). eauto.
  - intros [k Hin]. exists (k, v). done.
Qed.
Lemma dict_del_fresh_app k v d : dict_get k d = None → dict_del k (d ++ [(k, v)])%list = d.
Proof.
    induction d as [|[k0 v0] d IH]; simpl; [by rewrite decide_True|].
    case_decide; [done|]. intros Hg. by rewrite IH.
Qed.

Lemma dict_get_app_last k v d : dict_get k d = None → dict_get k (d ++ [(k, v)])%list = Some v.
Proof.
    induction d as [|[k0 v0] d IH]; simpl; [by rewrite decide_True|].
    case_decide; [done|]. apply IH.
Qed.
End PyDictFacts.

#[export] Hint Rewrite @dict_get_set_eq : todo.
#[export] Hint Resolve dict_set_NoDup dict_del_NoDup dict_get_Some_elem : todo.

(** ** Witnesses *)

Lemma py_split_join_witness :
  ["project"; " important"] ≠ [] ∧ Forall (λ x, ","%char ∉ chars x) ["project"; " important"] ∧
  py_split "," (py_join "," ["project"; " important"]) = ["project"; " important"].
Proof.
  assert (["project"; " important"] ≠ []) as H1 by done.
  assert (Forall (λ x, ","%char ∉ chars x) ["project"; " important"]) as H2
    by (repeat constructor; simpl; set_solver).
  split_and!; [exact H1|exact H2|exact (py_split_join "," _ H1 H2)].
Defined.
