(* ===== verification/Json.v ===== *)
(** * JSON values as the Python code sees them

    The test suites read responses with [r.json()] and inspect them with
    subscripting ([data["title"]]), membership ([x in data]), equality
    ([==]), identity against [True]/[False]/[None] ([is]) and
    [isinstance].  This file gives those operations on a JSON value type
    whose objects are Python dicts ([PyDict] of the prelude). *)

From S2P Require Import Prelude.
From Stdlib Require Import ZArith.

Inductive json : Type :=
| JNull
| JBool (b : bool)
| JNum (z : Z)
| JStr (s : string)
| JArr (xs : list json)
| JObj (fields : list (string * json)).

(** Python's [==] on values loaded by [json.loads]: [True == 1] and
    [False == 0] hold, lists compare element by element, dicts compare
    as sets of items regardless of key order. *)
Fixpoint py_eq (a b : json) : bool :=
  match a, b with
  | JNull, JNull => true
  | JBool x, JBool y => Bool.eqb x y
  | JBool x, JNum z | JNum z, JBool x => Z.eqb z (if x then 1 else 0)%Z
  | JNum x, JNum y => Z.eqb x y
  | JStr x, JStr y => String.eqb x y
  | JArr xs, JArr ys =>
      (fix go (xs ys : list json) : bool :=
         match xs, ys with
         | [], [] => true
         | x :: xs', y :: ys' => py_eq x y && go xs' ys'
         | _, _ => false
         end) xs ys
  | JObj fs, JObj gs =>
      Nat.eqb (List.length fs) (List.length gs) &&
      (fix go (fs : list (string * json)) : bool :=
         match fs with
         | [] => true
         | (k, v) :: fs' =>
             match dict_get k gs with
             | Some w => py_eq v w && go fs'
             | None => false
             end
         end) fs
  | _, _ => false
  end.

(** [d[k]] on a dict; [None] is Python's [KeyError] (or [TypeError] when
    [d] is not a dict). *)
Definition jget (k : string) (d : json) : option json :=
  match d with
  | JObj fs => dict_get k fs
  | _ => None
  end.

(** [xs[i]] on a list; [None] is [IndexError]/[TypeError]. *)
Definition jnth (i : nat) (d : json) : option json :=
  match d with
  | JArr xs => xs !! i
  | _ => None
  end.

(** [x in c]: list membership by [==], key membership in a dict,
    substring in a string; [None] is [TypeError]. *)
Fixpoint substring_of (sub s : string) : bool :=
  String.prefix sub s ||
  match s with
  | EmptyString => false
  | String _ r => substring_of sub r
  end.

Definition py_in (x c : json) : option bool :=
  match c, x with
  | JArr xs, _ => Some (existsb (py_eq x) xs)
  | JObj fs, JStr k => Some (bool_decide (k ∈ dict_keys fs))
  | JStr s, JStr sub => Some (substring_of sub s)
  | _, _ => None
  end.

(** [x is True], [x is False], [x is None] *)
Definition is_true (x : json) : bool := match x with JBool true => true | _ => false end.
Definition is_false (x : json) : bool := match x with JBool false => true | _ => false end.
Definition is_none (x : json) : bool := match x with JNull => true | _ => false end.

(** [isinstance(x, str)], [isinstance(x, list)], [isinstance(x, dict)],
    [isinstance(x, bool)] *)
Definition is_str (x : json) : bool := match x with JStr _ => true | _ => false end.
Definition is_list (x : json) : bool := match x with JArr _ => true | _ => false end.
Definition is_dict (x : json) : bool := match x with JObj _ => true | _ => false end.
Definition is_bool (x : json) : bool := match x with JBool _ => true | _ => false end.

(** A JSON value of an optional string: [None] is [null]. *)
Definition jopt_str (o : option string) : json :=
  match o with Some s => JStr s | None => JNull end.

Lemma py_eq_str s t : py_eq (JStr s) (JStr t) = bool_decide (s = t).
Proof. simpl. destruct (String.eqb_spec s t); case_bool_decide; congruence. Qed.

(** [s in tags] on a list of strings is list membership. *)
Lemma py_in_strs s ts : py_in (JStr s) (JArr (map JStr ts)) = Some (bool_decide (s ∈ ts)).
Proof.
  cbn [py_in]. f_equal. induction ts as [|t ts IH]; [done|].
  cbn [map existsb]. rewrite py_eq_str, IH.
  repeat case_bool_decide; rewrite ?elem_of_cons in *; naive_solver.
Qed.
