(* ===== verification/Models.v ===== *)
(** * The pydantic models of [api_skeleton.py]

    [src/Reference_API/api_skeleton.py] lines 19-54 declare the enum
    [Recurrence] and the models [TaskBase], [TaskCreate], [TaskUpdate],
    [TaskOut] and [ListModel].  FastAPI validates every request body
    against them before a handler runs, answering 422 with the list of
    failing fields, and serialises responses from them.  This file models
    the models as records, the validation as a function from JSON to a
    value or the list of failing fields, and the serialisation; it proves
    that validation inverts serialisation. *)

From S2P Require Import Prelude Json.
From Stdlib Require Import ZArith.

(** ** Data *)

(** [class Recurrence(str, Enum)] (lines 20-23) *)
Inductive Recurrence : Type := daily | weekly | monthly.

#[export] Instance Recurrence_eq_dec : EqDecision Recurrence.
Proof. solve_decision. Defined.

(** The enum member's value. *)
Definition recurrence_value (r : Recurrence) : string :=
  match r with daily => "daily" | weekly => "weekly" | monthly => "monthly" end.

(** [Recurrence(s)]: lookup by value, [None] is pydantic's enum error. *)
Definition recurrence_of_string (s : string) : option Recurrence :=
  if decide (s = "daily") then Some daily
  else if decide (s = "weekly") then Some weekly
  else if decide (s = "monthly") then Some monthly
  else None.

(** [class TaskBase(BaseModel)] (lines 26-33).  [list] is the name of
    Rocq's list type, so that field is [task_list]; the datetime and date
    fields hold their ISO text. *)
Record TaskBase : Type := mkTaskBase {
  title : string;
  description : option string;
  tags : list string;
  due_date : option string;
  recurrence : option Recurrence;
  recurrence_end_date : option string;
  task_list : option string
}.

(** [class TaskCreate(TaskBase): pass] (lines 35-36) *)
Definition TaskCreate : Type := TaskBase.

(** [class TaskUpdate(BaseModel)] (lines 38-46): every field optional
    with default [None].  pydantic records which fields the request
    actually sent ([model_fields_set]); that set is what distinguishes a
    field left out from a field sent as [null]. *)
Record TaskUpdate : Type := mkTaskUpdate {
  upd_title : option string;
  upd_description : option string;
  upd_tags : option (list string);
  upd_completed : option bool;
  upd_due_date : option string;
  upd_recurrence : option Recurrence;
  upd_recurrence_end_date : option string;
  upd_list : option string;
  upd_fields_set : list string
}.

(** [class TaskOut(TaskBase)] (lines 48-51): the inherited fields, then
    [id], [completed], [created_at]. *)
Record TaskOut : Type := mkTaskOut {
  out_base : TaskBase;
  id : string;
  completed : bool;
  created_at : string
}.

(** [class ListModel(BaseModel)] (lines 53-54) *)
Record ListModel : Type := mkListModel { name : string }.

(** ** Validation (pydantic, lax mode) *)

(** The outcome of validating a model: the value, or the names of the
    failing fields in declaration order (the [loc]s of FastAPI's 422
    [detail]). *)
Inductive vresult (A : Type) : Type :=
| VOk (a : A)
| VErr (errs : list string).
Arguments VOk {A} a.
Arguments VErr {A} errs.

(** Field-by-field combination: pydantic reports every failing field,
    not only the first. *)
Definition vapp {A B} (f : vresult (A → B)) (x : vresult A) : vresult B :=
  match f, x with
  | VOk g, VOk a => VOk (g a)
  | VOk _, VErr e => VErr e
  | VErr e, VOk _ => VErr e
  | VErr e1, VErr e2 => VErr (e1 ++ e2)%list
  end.
Infix "<**>" := vapp (at level 61, left associativity) : todo_scope.
Local Open Scope todo_scope.

(** Lower-casing, for pydantic's case-insensitive boolean strings. *)
Definition ascii_lower (c : ascii) : ascii :=
  let n := nat_of_ascii c in
  if ((65 <=? n) && (n <=? 90))%nat then ascii_of_nat (n + 32) else c.
Fixpoint str_lower (s : string) : string :=
  match s with
  | EmptyString => EmptyString
  | String c r => String (ascii_lower c) (str_lower r)
  end.

(** The strings pydantic accepts for a [bool]. *)
Definition bool_of_string (s : string) : option bool :=
  let l := str_lower s in
  if decide (l ∈ ["1"; "on"; "t"; "true"; "y"; "yes"]) then Some true
  else if decide (l ∈ ["0"; "off"; "f"; "false"; "n"; "no"]) then Some false
  else None.

(** The type validators: [str], [bool], [List[str]], [datetime]/[date]
    (kept as text), [Recurrence]. *)
Definition v_str (j : json) : option string :=
  match j with JStr s => Some s | _ => None end.

Definition v_bool (j : json) : option bool :=
  match j with
  | JBool b => Some b
  | JNum 0 => Some false
  | JNum 1 => Some true
  | JStr s => bool_of_string s
  | _ => None
  end.

Fixpoint v_strs (xs : list json) : option (list string) :=
  match xs with
  | [] => Some []
  | x :: xs' => s ← v_str x; ss ← v_strs xs'; Some (s :: ss)
  end.

Definition v_list_str (j : json) : option (list string) :=
  match j with JArr xs => v_strs xs | _ => None end.

Definition v_datetime (j : json) : option string := v_str j.
Definition v_date (j : json) : option string := v_str j.

Definition v_recurrence (j : json) : option Recurrence :=
  match j with JStr s => recurrence_of_string s | _ => None end.

(** A required field ([title: str]). *)
Definition req_field {A} (fs : list (string * json)) (k : string)
    (v : json → option A) : vresult A :=
  match dict_get k fs with
  | Some j => match v j with Some a => VOk a | None => VErr [k] end
  | None => VErr [k]
  end.

(** A field with a default and no [Optional] ([tags: List[str] = []]):
    [null] is an error. *)
Definition dflt_field {A} (fs : list (string * json)) (k : string) (d : A)
    (v : json → option A) : vresult A :=
  match dict_get k fs with
  | Some j => match v j with Some a => VOk a | None => VErr [k] end
  | None => VOk d
  end.

(** An [Optional[...]] field with a default: [null] gives [None]. *)
Definition opt_field {A} (fs : list (string * json)) (k : string) (d : option A)
    (v : json → option A) : vresult (option A) :=
  match dict_get k fs with
  | Some JNull => VOk None
  | Some j => match v j with Some a => VOk (Some a) | None => VErr [k] end
  | None => VOk d
  end.

(** [TaskCreate] from a request body (lines 26-36); a body that is not
    an object fails as a whole. *)
Definition validate_TaskCreate (body : json) : vresult TaskCreate :=
  match body with
  | JObj fs =>
      VOk mkTaskBase
        <**> req_field fs "title" v_str
        <**> opt_field fs "description" (Some "") v_str
        <**> dflt_field fs "tags" [] v_list_str
        <**> opt_field fs "due_date" None v_datetime
        <**> opt_field fs "recurrence" None v_recurrence
        <**> opt_field fs "recurrence_end_date" None v_date
        <**> opt_field fs "list" (Some "Personal") v_str
  | _ => VErr ["body"]
  end.

(** The fields of [TaskUpdate], in declaration order. *)
Definition TaskUpdate_fields : list string :=
  ["title"; "description"; "tags"; "completed"; "due_date"; "recurrence";
   "recurrence_end_date"; "list"].

(** [TaskUpdate] from a request body (lines 38-46). *)
Definition validate_TaskUpdate (body : json) : vresult TaskUpdate :=
  match body with
  | JObj fs =>
      VOk mkTaskUpdate
        <**> opt_field fs "title" None v_str
        <**> opt_field fs "description" None v_str
        <**> opt_field fs "tags" None v_list_str
        <**> opt_field fs "completed" None v_bool
        <**> opt_field fs "due_date" None v_datetime
        <**> opt_field fs "recurrence" None v_recurrence
        <**> opt_field fs "recurrence_end_date" None v_date
        <**> opt_field fs "list" None v_str
        <**> VOk (filter (λ k, k ∈ dict_keys fs) TaskUpdate_fields)
  | _ => VErr ["body"]
  end.

(** [ListModel] from a request body (lines 53-54). *)
Definition validate_ListModel (body : json) : vresult ListModel :=
  match body with
  | JObj fs => VOk mkListModel <**> req_field fs "name" v_str
  | _ => VErr ["body"]
  end.

(** ** Serialisation (the response models) *)

Definition TaskBase_fields (b : TaskBase) : list (string * json) :=
  [("title", JStr (title b));
   ("description", jopt_str (description b));
   ("tags", JArr (map JStr (tags b)));
   ("due_date", jopt_str (due_date b));
   ("recurrence", jopt_str (recurrence_value <$> recurrence b));
   ("recurrence_end_date", jopt_str (recurrence_end_date b));
   ("list", jopt_str (task_list b))].

Definition TaskOut_to_json (o : TaskOut) : json :=
  JObj (TaskBase_fields (out_base o) ++
        [("id", JStr (id o)); ("completed", JBool (completed o));
         ("created_at", JStr (created_at o))])%list.

Definition ListModel_to_json (l : ListModel) : json := JObj [("name", JStr (name l))].

(** A validation outcome that reports field [k] as failing. *)
Definition verr_has {A} (k : string) (r : vresult A) : Prop :=
  match r with VErr e => k ∈ e | VOk _ => False end.

(** ** Facts *)

Lemma recurrence_of_value r : recurrence_of_string (recurrence_value r) = Some r.
Proof. by destruct r. Qed.

Lemma recurrence_value_of s r : recurrence_of_string s = Some r → recurrence_value r = s.
Proof. unfold recurrence_of_string. repeat case_decide; intros; simplify_eq; done. Qed.

Lemma v_strs_map ss : v_strs (map JStr ss) = Some ss.
Proof. induction ss as [|s ss IH]; simpl; [done|]. by rewrite IH. Qed.

Lemma vapp_ok {A B} (f : vresult (A → B)) x b :
  vapp f x = VOk b ↔ ∃ g a, f = VOk g ∧ x = VOk a ∧ b = g a.
Proof. destruct f, x; simpl; naive_solver. Qed.

Lemma verr_has_vapp_l {A B} k (f : vresult (A → B)) x : verr_has k f → verr_has k (vapp f x).
Proof. destruct f, x; simpl; set_solver. Qed.

Lemma verr_has_vapp_r {A B} k (f : vresult (A → B)) x : verr_has k x → verr_has k (vapp f x).
Proof. destruct f, x; simpl; set_solver. Qed.

Lemma verr_has_req_missing {A} fs k (v : json → option A) :
  dict_get k fs = None → verr_has k (req_field fs k v).
Proof. unfold req_field. intros ->. simpl. set_solver. Qed.

Lemma verr_has_opt_bad {A} fs k d (v : json → option A) j :
  dict_get k fs = Some j → j ≠ JNull → v j = None → verr_has k (opt_field fs k d v).
Proof. unfold opt_field. intros -> Hn Hv. destruct j; try congruence; rewrite Hv; simpl; set_solver. Qed.

#[export] Hint Resolve verr_has_vapp_l verr_has_vapp_r verr_has_req_missing
  verr_has_opt_bad : todo.

(** A body that validates as a [TaskCreate] has the task's title as its
    [title] entry. *)
Lemma validate_TaskCreate_title fs c :
  validate_TaskCreate (JObj fs) = VOk c → dict_get "title" fs = Some (JStr (title c)).
Proof.
  unfold validate_TaskCreate. intros H.
  repeat match goal with H : vapp _ _ = VOk _ |- _ => apply vapp_ok in H as (? & ? & H & ? & ?) end.
  simplify_eq. unfold req_field in *.
  destruct (dict_get "title" fs) as [[]|]; simpl in *; simplify_eq; done.
Qed.

(** C17. Round trip: the JSON a server returns for a task ([TaskOut]),
    posted back as a creation body, validates to the same task fields. *)
Lemma validate_TaskCreate_of_TaskOut o :
  validate_TaskCreate (TaskOut_to_json o) = VOk (out_base o).
Proof.
  destruct o as [[ti de ta du re ren li] i c cr].
  unfold validate_TaskCreate, TaskOut_to_json, req_field, opt_field, dflt_field; simpl.
  rewrite v_strs_map.
  destruct de, du, re as [r|], ren, li; simpl; rewrite ?recurrence_of_value; done.
Qed.
