(* ===== verification/Http.v ===== *)
(** * HTTP: the interface between the API and its clients

    The test suites and the generator reach the API only through
    [httpx] requests.  A server is anything that answers a request and
    moves to a next state: the typeclass [Server].  A client program (a
    test function) is a computation in the [client] monad: it threads the
    server's state through the requests it sends and stops at the first
    Python exception (a failed [assert], a [KeyError], ...). *)

From S2P Require Import Prelude Json.
From Stdlib Require Import ZArith.

Inductive method : Type := GET | POST | PUT | DELETE | OPTIONS.

#[export] Instance method_eq_dec : EqDecision method.
Proof. solve_decision. Defined.

(** A request: method, path segments ([/tasks/abc] is [["tasks"; "abc"]]),
    query parameters, headers and the JSON body if one is sent. *)
Record request : Type := mkRequest {
  req_method : method;
  req_path : list string;
  req_query : list (string * string);
  req_headers : list (string * string);
  req_body : option json
}.

(** A response: status code, headers, and the JSON body ([None] for an
    empty body, on which [r.json()] raises). *)
Record response : Type := mkResponse {
  status : Z;
  resp_headers : list (string * string);
  resp_body : option json
}.

(** The interface every implementation of the API offers its clients. *)
Class Server (S : Type) := handle : request → S → response * S.

(** Requests as [httpx] builds them. *)
Definition http_get (path : list string) (query : list (string * string)) : request :=
  mkRequest GET path query [] None.
Definition http_post (path : list string) (body : json) : request :=
  mkRequest POST path [] [] (Some body).
Definition http_put (path : list string) (body : json) : request :=
  mkRequest PUT path [] [] (Some body).
Definition http_delete (path : list string) : request :=
  mkRequest DELETE path [] [] None.

(** A character that ends the path of a URL: [?] starts the query,
    [#] the fragment. *)
Definition ends_path (c : ascii) : bool := bool_decide (c = "?"%char ∨ c = "#"%char).

(** The part of an interpolated text that stays in the path of the URL
    [httpx] parses. *)
Fixpoint url_cut (x : string) : string :=
  match x with
  | EmptyString => EmptyString
  | String c r => if ends_path c then EmptyString else String c (url_cut r)
  end.

(** The path of the URL [f"{BASE_URL}/{a}/{x}"]: the interpolated text
    [x] is not quoted, so its slashes separate path segments and a [?] or
    [#] in it ends the path (what follows is the query or the fragment,
    which the [DELETE], [GET] and [PUT] routes of an id or a name ignore). *)
Definition url_path (a x : string) : list string := a :: py_split "/" (url_cut x).

(** The URL keeps all of [x] in its path. *)
Definition url_whole (x : string) : Prop := Forall (λ c, ends_path c = false) (chars x).

(** A text the URL carries as one path segment, as it is. *)
Definition url_plain (x : string) : bool :=
  forallb (λ c, negb (ends_path c) && negb (bool_decide (c = "/"%char))) (chars x).

(** ** The client monad *)

(** The Python exceptions a test function can end with. *)
Inductive exc : Type :=
| AssertionError
| KeyError
| IndexError
| TypeError
| AttributeError
| NameError
| JSONDecodeError
| SystemExit (code : Z).

Inductive outcome (A : Type) : Type :=
| Done (a : A)
| Raised (e : exc).
Arguments Done {A} a.
Arguments Raised {A} e.

(** A client program over a server with state [S], returning [A]. *)
Definition client (S A : Type) : Type := S → outcome A * S.

Section Client.
Context {S : Type} `{!Server S}.
Local Abbreviation client := (client S).

Definition cret {A} (a : A) : client A := λ s, (Done a, s).

Definition cbind {A B} (m : client A) (k : A → client B) : client B :=
  λ s, match m s with
       | (Done a, s') => k a s'
       | (Raised e, s') => (Raised e, s')
       end.

Definition raise {A} (e : exc) : client A := λ s, (Raised e, s).

(** [httpx.<method>(...)] *)
Definition send (r : request) : client response :=
  λ s, let '(resp, s') := handle r s in (Done resp, s').

(** [assert b] *)
Definition assert (b : bool) : client unit :=
  if b then cret tt else raise AssertionError.

(** Lift a partial Python operation: [None] raises [e]. *)
Definition lift {A} (e : exc) (o : option A) : client A :=
  match o with Some a => cret a | None => raise e end.

(** [r.json()] *)
Definition rjson (r : response) : client json := lift JSONDecodeError (resp_body r).

(** [d[k]]: [KeyError] on a dict without [k], [TypeError] on any
    other value (a list or a string needs an integer index). *)
Definition sub (k : string) (d : json) : client json :=
  match d with
  | JObj fs => lift KeyError (dict_get k fs)
  | _ => raise TypeError
  end.

(** [xs[i]] *)
Definition nth (i : nat) (d : json) : client json := lift IndexError (jnth i d).

(** [x in c] *)
Definition cin (x c : json) : client bool := lift TypeError (py_in x c).
(** Stepping over a request. *)
Lemma send_then {B} (r : request) (k : response → client B) (s : S) :
  cbind (send r) k s = k (fst (handle r s)) (snd (handle r s)).
Proof. unfold cbind, send. by destruct (handle r s). Qed.

End Client.

Declare Scope client_scope.
Delimit Scope client_scope with client.
Notation "x <- m ;; k" := (cbind m (λ x, k))
  (at level 100, m at next level, right associativity) : client_scope.
Notation "m ;; k" := (cbind m (λ _, k))
  (at level 100, right associativity) : client_scope.
Notation "' pat <- m ;; k" := (cbind m (λ x, match x with pat => k end))
  (at level 100, pat pattern, m at next level, right associativity) : client_scope.

Section ClientCombinators.
Context {S : Type}.
Local Abbreviation client := (client S).
Local Open Scope client_scope.

(** [all(f(x) for x in xs)]: stops at the first [False]; an exception
    raised by [f] propagates. *)
Fixpoint call (f : json → client bool) (xs : list json) : client bool :=
  match xs with
  | [] => cret true
  | x :: xs' => b <- f x ;; if b then call f xs' else cret false
  end.

(** [any(f(x) for x in xs)]: stops at the first [True]. *)
Fixpoint cany (f : json → client bool) (xs : list json) : client bool :=
  match xs with
  | [] => cret false
  | x :: xs' => b <- f x ;; if b then cret true else cany f xs'
  end.

(** [for x in j]: a list yields its elements, a dict its keys, a string
    its characters; a number, a boolean or [None] is not iterable. *)
Definition elems (j : json) : client (list json) :=
  match j with
  | JArr xs => cret xs
  | JObj fs => cret (map (λ kv, JStr kv.1) fs)
  | JStr s => cret (map (λ c, JStr (String c EmptyString)) (chars s))
  | _ => raise TypeError
  end.
(** [len(x)]: the number of items [for x in j] yields. *)
Definition py_len (x : json) : option nat :=
  match x with
  | JArr xs => Some (List.length xs)
  | JObj fs => Some (List.length fs)
  | JStr s => Some (String.length s)
  | _ => None
  end.

(** Monad laws used to step through client programs. *)
Lemma cbind_ret {A B} (a : A) (k : A → client B) : cbind (cret a) k = k a.
Proof. reflexivity. Qed.

Lemma cbind_Done {A B} (m : client A) (k : A → client B) σ a σ' :
  m σ = (Done a, σ') → cbind m k σ = k a σ'.
Proof. unfold cbind. by intros ->. Qed.
End ClientCombinators.

(** ** Facts on URLs *)

Lemma url_cut_id x : url_whole x → url_cut x = x.
Proof.
  unfold url_whole. induction x as [|c r IH]; [done|]. intros [Hc Hr]%Forall_cons. simpl. by rewrite Hc, IH.
Qed.

Lemma url_plain_spec x :
  url_plain x = true ↔ url_whole x ∧ "/"%char ∉ chars x.
Proof.
  unfold url_plain, url_whole. rewrite forallb_forall, Forall_forall.
  setoid_rewrite andb_true_iff. setoid_rewrite negb_true_iff. setoid_rewrite bool_decide_eq_false.
  setoid_rewrite <- list_elem_of_In. split.
  - intros H. split; [intros c Hc; apply H, Hc|intros Hin; by apply (H _ Hin)].
  - intros [H1 H2] c Hc. split; [by apply H1|intros ->; done].
Qed.

(** A plain text is one segment. *)
Lemma url_path_plain a x : url_plain x = true → url_path a x = [a; x].
Proof.
  intros [Hc Hs]%url_plain_spec. unfold url_path. by rewrite url_cut_id, py_split_no_sep.
Qed.

(** The path ends at the first [?] or [#]. *)
Lemma url_cut_app x c r : url_whole x → ends_path c = true → url_cut (x ++ String c r) = x.
Proof.
  unfold url_whole. intros Hx Hc. induction x as [|c' x IH]; simpl; [by rewrite Hc|].
  apply Forall_cons in Hx as [Hc' Hx]. by rewrite Hc', IH.
Qed.
