(* ===== verification/Skeleton.v ===== *)
(** * The FastAPI application of [api_skeleton.py]

    [src/Reference_API/api_skeleton.py] lines 56-95 declare eight routes.
    FastAPI dispatches a request to the first route whose path and method
    match (404 when no path matches, 405 when a path matches with another
    method, and, by Starlette's [redirect_slashes], 307 to the same path
    without its trailing slash when that one matches), validates the path, query and body parameters against the
    handler's signature (422 on failure, before the handler runs), and
    only then calls the handler.  The routing and validation are the same
    whatever the handlers do, so they are written here once, over the
    typeclass [Handlers] of the eight handlers and the [status_code]s of
    their decorators.  A handler returns a value, which FastAPI sends
    under the decorator's status (without a body for 204), or raises
    [HTTPException], which FastAPI sends as its status and [detail].
    The handlers of [src/Reference_API/api_skeleton.py] all raise
    [HTTPException(status_code=501)] and its decorators all declare
    [status_code=501]: the instance [stub_handlers].
    [src/reference_API/api_skeleton.py] has the same handlers under the
    success codes 201/200/204 ([lower_stub_handlers]); its [ListCreate]
    and [ListOut] have the one field of [ListModel] and its [list_name]
    query parameter has the alias [list], so requests see the same
    models.  The response models are not re-validated: a handler returns
    the JSON of its response model. *)

From S2P Require Import Prelude Json Models Http.
From Stdlib Require Import ZArith.

(** What a handler does: [return v], or [raise HTTPException(code, detail)]. *)
Inductive hresult : Type :=
| HReturn (v : json)
| HRaise (code : Z) (detail : json).

(** The [status_code=] of the eight route decorators (200 when absent). *)
Record decorators : Type := mkDecorators {
  sc_create_task : Z;
  sc_list_tasks : Z;
  sc_get_task : Z;
  sc_update_task : Z;
  sc_delete_task : Z;
  sc_get_lists : Z;
  sc_create_list : Z;
  sc_delete_list : Z
}.

(** The eight handlers, each given its validated parameters, with the
    decorators of the file that declares them. *)
Class Handlers (S : Type) := {
  h_decorators : decorators;
  h_create_task : TaskCreate → S → hresult * S;
  h_list_tasks : option bool → option string → option string → S → hresult * S;
  h_get_task : string → S → hresult * S;
  h_update_task : string → TaskUpdate → S → hresult * S;
  h_delete_task : string → S → hresult * S;
  h_get_lists : S → hresult * S;
  h_create_list : ListModel → S → hresult * S;
  h_delete_list : string → S → hresult * S
}.

(** The routes, with their path parameters. *)
Inductive route : Type :=
| RCreateTask
| RListTasks
| RGetTask (task_id : string)
| RUpdateTask (task_id : string)
| RDeleteTask (task_id : string)
| RGetLists
| RCreateList
| RDeleteList (name : string).

Inductive dispatch : Type :=
| Matched (r : route)
| MethodNotAllowed
| NoRoute.

(** Starlette's router over the decorators of lines 58-94: a path
    parameter matches one non-empty segment. *)
Definition route_request (m : method) (path : list string) : dispatch :=
  match path with
  | ["tasks"] =>
      match m with POST => Matched RCreateTask | GET => Matched RListTasks | _ => MethodNotAllowed end
  | ["tasks"; tid] =>
      if decide (tid = "") then NoRoute else
      match m with
      | GET => Matched (RGetTask tid)
      | PUT => Matched (RUpdateTask tid)
      | DELETE => Matched (RDeleteTask tid)
      | _ => MethodNotAllowed
      end
  | ["lists"] =>
      match m with GET => Matched RGetLists | POST => Matched RCreateList | _ => MethodNotAllowed end
  | ["lists"; n] =>
      if decide (n = "") then NoRoute else
      match m with DELETE => Matched (RDeleteList n) | _ => MethodNotAllowed end
  | _ => NoRoute
  end.

(** [path.rstrip("/")] on the segments of a path: the trailing empty
    segments go. *)
Fixpoint drop_empty (l : list string) : list string :=
  match l with
  | EmptyString :: l' => drop_empty l'
  | _ => l
  end.

(** Starlette's [redirect_slashes]: the path the router tries when no
    route matches, without its trailing slashes if it has one, with one
    more otherwise. *)
Definition redirect_path (p : list string) : list string :=
  if bool_decide (last p = Some "") then reverse (drop_empty (reverse p)) else (p ++ [""])%list.

(** A path other than [/] that matches no route but whose [redirect_path]
    matches one, for any method, is redirected. *)
Definition redirects (m : method) (p : list string) : bool :=
  bool_decide (p ≠ [""]) &&
  match route_request m (redirect_path p) with NoRoute => false | _ => true end.

(** A response with a [{"detail": ...}] body. *)
Definition detail_response (code : Z) (detail : json) : response :=
  mkResponse code [] (Some (JObj [("detail", detail)])).

(** FastAPI's 422: one error entry per failing location. *)
Definition validation_error (where_ : string) (errs : list string) : response :=
  detail_response 422
    (JArr (map (λ k, JObj [("loc", JArr [JStr where_; JStr k]);
                           ("type", JStr "value_error")]) errs)).

(** Starlette's [QueryParams.get]: the last value given for a key. *)
Definition query_get (k : string) (q : list (string * string)) : option string :=
  dict_get k (reverse q).

(** The query parameters of [list_tasks] (lines 63-67): [completed] is
    an [Optional[bool]], [tags] and [list] are strings. *)
Definition list_tasks_query (q : list (string * string))
    : vresult (option bool * option string * option string) :=
  let completed :=
    match query_get "completed" q with
    | None => VOk None
    | Some v => match bool_of_string v with Some b => VOk (Some b) | None => VErr ["completed"] end
    end in
  match completed with
  | VOk c => VOk (c, query_get "tags" q, query_get "list" q)
  | VErr e => VErr e
  end.

(** FastAPI's answer to a handler's outcome: the returned value under
    the decorator's [code] (no body for 204), or the exception. *)
Definition finish {S} (code : Z) (o : hresult * S) : response * S :=
  match o with
  | (HReturn v, s') => (mkResponse code [] (if Z.eqb code 204 then None else Some v), s')
  | (HRaise c d, s') => (detail_response c d, s')
  end.

(** Validate a body, then call the handler. *)
Definition with_body {S A} (v : json → vresult A) (body : option json)
    (k : A → S → response * S) (s : S) : response * S :=
  match body with
  | None => (validation_error "body" ["body"], s)
  | Some j =>
      match v j with
      | VOk a => k a s
      | VErr e => (validation_error "body" e, s)
      end
  end.

(** The application: route, validate, call. *)
Definition fastapi_app {S} `{!Handlers S} (r : request) (s : S) : response * S :=
  match route_request (req_method r) (req_path r) with
  | NoRoute =>
      if redirects (req_method r) (req_path r)
      then (mkResponse 307 [("location", "/" ++ py_join "/" (redirect_path (req_path r)))] None, s)
      else (detail_response 404 (JStr "Not Found"), s)
  | MethodNotAllowed => (detail_response 405 (JStr "Method Not Allowed"), s)
  | Matched rt =>
      let d := h_decorators in
      match rt with
      | RCreateTask =>
          with_body validate_TaskCreate (req_body r) (λ c s, finish (sc_create_task d) (h_create_task c s)) s
      | RListTasks =>
          match list_tasks_query (req_query r) with
          | VOk (c, t, l) => finish (sc_list_tasks d) (h_list_tasks c t l s)
          | VErr e => (validation_error "query" e, s)
          end
      | RGetTask tid => finish (sc_get_task d) (h_get_task tid s)
      | RUpdateTask tid =>
          with_body validate_TaskUpdate (req_body r) (λ u s, finish (sc_update_task d) (h_update_task tid u s)) s
      | RDeleteTask tid => finish (sc_delete_task d) (h_delete_task tid s)
      | RGetLists => finish (sc_get_lists d) (h_get_lists s)
      | RCreateList =>
          with_body validate_ListModel (req_body r) (λ l s, finish (sc_create_list d) (h_create_list l s)) s
      | RDeleteList n => finish (sc_delete_list d) (h_delete_list n s)
      end
  end.

#[export] Instance fastapi_server {S} `{!Handlers S} : Server S := fastapi_app.

(** [raise HTTPException(status_code=501, detail="Not implemented")] *)
Definition not_implemented {S} (s : S) : hresult * S :=
  (HRaise 501 (JStr "Not implemented"), s).

(** The decorators of [src/Reference_API/api_skeleton.py] (lines 58-92):
    every route declares [status_code=501]. *)
Definition reference_decorators : decorators := mkDecorators 501 501 501 501 501 501 501 501.

(** The decorators of [src/reference_API/api_skeleton.py] (lines 60-94). *)
Definition lower_decorators : decorators := mkDecorators 201 200 200 200 204 200 201 204.

(** The handlers of lines 58-95: each one raises the 501.  The skeleton
    keeps no state. *)
#[export] Instance stub_handlers : Handlers unit := {
  h_decorators := reference_decorators;
  h_create_task _ := not_implemented;
  h_list_tasks _ _ _ := not_implemented;
  h_get_task _ := not_implemented;
  h_update_task _ _ := not_implemented;
  h_delete_task _ := not_implemented;
  h_get_lists := not_implemented;
  h_create_list _ := not_implemented;
  h_delete_list _ := not_implemented
}.

Definition skeleton_app : request → unit → response * unit := @fastapi_app unit stub_handlers.

(** The list models of [src/reference_API/api_skeleton.py] (lines
    52-56): the one field of [ListModel]. *)
Definition ListCreate : Type := ListModel.
Definition ListOut : Type := ListModel.

(** The same handlers under the decorators of
    [src/reference_API/api_skeleton.py]. *)
Definition lower_stub_handlers : Handlers unit := {|
  h_decorators := lower_decorators;
  h_create_task _ := not_implemented;
  h_list_tasks _ _ _ := not_implemented;
  h_get_task _ := not_implemented;
  h_update_task _ _ := not_implemented;
  h_delete_task _ := not_implemented;
  h_get_lists := not_implemented;
  h_create_list _ := not_implemented;
  h_delete_list _ := not_implemented
|}.

Definition lower_skeleton_app : request → unit → response * unit := @fastapi_app unit lower_stub_handlers.

(** ** Facts *)

(** Every answer of the application is a routing or validation error
    (307, 404, 405 or 422) with the state untouched, or the answer of exactly
    one handler on validated parameters. *)
Lemma fastapi_app_dispatch {S} `{!Handlers S} (r : request) (s : S) :
  (snd (fastapi_app r s) = s ∧ status (fst (fastapi_app r s)) ∈ [307; 404; 405; 422]%Z) ∨
  (∃ c, fastapi_app r s = finish (sc_create_task h_decorators) (h_create_task c s)) ∨
  (∃ cf tf lf, fastapi_app r s = finish (sc_list_tasks h_decorators) (h_list_tasks cf tf lf s)) ∨
  (∃ tid, fastapi_app r s = finish (sc_get_task h_decorators) (h_get_task tid s)) ∨
  (∃ tid u, fastapi_app r s = finish (sc_update_task h_decorators) (h_update_task tid u s)) ∨
  (∃ tid, fastapi_app r s = finish (sc_delete_task h_decorators) (h_delete_task tid s)) ∨
  (fastapi_app r s = finish (sc_get_lists h_decorators) (h_get_lists s)) ∨
  (∃ l, fastapi_app r s = finish (sc_create_list h_decorators) (h_create_list l s)) ∨
  (∃ n, fastapi_app r s = finish (sc_delete_list h_decorators) (h_delete_list n s)).
Proof.
  unfold fastapi_app. destruct (route_request _ _) as [rt| |]; [|left; simpl; set_solver|left; destruct (redirects _ _); simpl; set_solver].
  destruct rt as [| |tid|tid|tid| | |n]; cbv zeta; unfold with_body.
  all: repeat match goal with
         | |- context [match ?x with _ => _ end] => destruct x
         end; try (left; simpl; split; [done|set_solver]); naive_solver.
Qed.

(** Case analysis of an application answer along [fastapi_app_dispatch]:
    the routing/validation case is closed by [tac_err], each handler case
    is left with the handler call in the goal. *)
Ltac app_cases r s :=
  let Hd := fresh "Hd" in
  let Hs := fresh "Hs" in
  destruct (fastapi_app_dispatch r s) as [[Hs ?]|Hd];
  [try rewrite Hs|repeat match goal with
         | H : _ ∨ _ |- _ => destruct H as [H|H]
         | H : ∃ _, _ |- _ => destruct H as [? H]
         end;
    match goal with H : fastapi_app _ _ = _ |- _ => rewrite H; clear H end].

(** A request no route matches changes nothing (404 or a redirect). *)
Lemma app_no_route {S} `{!Handlers S} (r : request) (s : S) :
  route_request (req_method r) (req_path r) = NoRoute → snd (fastapi_app r s) = s.
Proof. intros H. unfold fastapi_app. rewrite H. by destruct (redirects _ _). Qed.

(** No route ends with a slash. *)
Lemma route_request_slash m p : route_request m (p ++ [""])%list = NoRoute.
Proof.
  unfold route_request. destruct p as [|a [|b p]]; simpl; [done| |];
    repeat (case_match || case_decide); simplify_eq; try done;
    match goal with H : (_ ++ _)%list = [] |- _ => destruct p; discriminate H end.
Qed.

(** A path whose last segment is not empty is never redirected. *)
Lemma redirects_no_trailing m p : last p ≠ Some "" → redirects m p = false.
Proof.
  intros H. unfold redirects, redirect_path. rewrite (bool_decide_eq_false_2 (last p = Some "")) by done.
  rewrite route_request_slash. apply andb_false_r.
Qed.

(** [POST /tasks] validates the body, then calls [create_task]. *)
Lemma app_post_tasks {S} `{!Handlers S} (fs : list (string * json)) (s : S) :
  fastapi_app (http_post ["tasks"] (JObj fs)) s =
    match validate_TaskCreate (JObj fs) with
    | VOk c => finish (sc_create_task h_decorators) (h_create_task c s)
    | VErr e => (validation_error "body" e, s)
    end.
Proof. reflexivity. Qed.

(** A validation failure reports the failing field. *)
Lemma verr_has_VErr {A} k (r : vresult A) : verr_has k r → ∃ e, r = VErr e ∧ k ∈ e.
Proof. destruct r; simpl; naive_solver. Qed.

(** C3. The skeleton never answers a request with success: whatever the
    request, the status is 307 (a redirect), 404, 405, 422 or 501. *)
Theorem skeleton_never_succeeds (r : request) :
  status (fst (skeleton_app r tt)) ∈ [307; 404; 405; 422; 501]%Z.
Proof.
  unfold skeleton_app. app_cases r tt; simpl; set_solver.
Qed.

(** C4. Whatever the handlers, a [POST /tasks] whose body has no [title]
    is answered 422, naming [title], before any handler runs, and the
    state is unchanged. *)
Theorem app_create_task_missing_title {S} `{!Handlers S} (fs : list (string * json)) (s : S) :
  dict_get "title" fs = None →
  ∃ errs, "title" ∈ errs ∧ fastapi_app (http_post ["tasks"] (JObj fs)) s = (validation_error "body" errs, s).
Proof.
  intros Hno.
  assert (verr_has "title" (validate_TaskCreate (JObj fs))) as Hv
    by (unfold validate_TaskCreate; eauto 10 with todo).
  apply verr_has_VErr in Hv as (errs & Hv & Hin).
  exists errs. split; [done|].
  by rewrite app_post_tasks, Hv.
Qed.

(** C5. Whatever the handlers, a [POST /tasks] whose [recurrence] is a
    string other than ["daily"], ["weekly"], ["monthly"] is answered 422,
    naming [recurrence], with the state unchanged. *)
Theorem app_create_task_bad_recurrence {S} `{!Handlers S} (fs : list (string * json)) (v : string) (s : S) :
  dict_get "recurrence" fs = Some (JStr v) → recurrence_of_string v = None →
  ∃ errs, "recurrence" ∈ errs ∧
    fastapi_app (http_post ["tasks"] (JObj fs)) s = (validation_error "body" errs, s).
Proof.
  intros Hr Hv.
  assert (verr_has "recurrence" (validate_TaskCreate (JObj fs))) as Hvh.
  { unfold validate_TaskCreate. apply verr_has_vapp_l, verr_has_vapp_l, verr_has_vapp_r.
    eapply verr_has_opt_bad; [exact Hr|done|exact Hv]. }
  apply verr_has_VErr in Hvh as (errs & Hvh & Hin).
  exists errs. split; [done|].
  by rewrite app_post_tasks, Hvh.
Qed.


(** C35. The two skeleton files answer every request alike: their
    decorators differ, but no handler of either returns normally. *)
Theorem skeletons_agree (r : request) : lower_skeleton_app r tt = skeleton_app r tt.
Proof.
  unfold lower_skeleton_app, skeleton_app, fastapi_app.
  destruct (route_request _ _) as [[]| |]; cbv zeta; unfold with_body; repeat case_match; reflexivity.
Qed.

(** C36. An implementation that keeps the decorators of
    [src/Reference_API/api_skeleton.py] answers 501 whenever a handler
    returns normally: every answer is a routing or validation error, a
    raised [HTTPException], or the returned value under status 501. *)
Theorem reference_decorators_501 {S} `{!Handlers S} (r : request) (s : S) :
  h_decorators = reference_decorators →
  (snd (fastapi_app r s) = s ∧ status (fst (fastapi_app r s)) ∈ [307; 404; 405; 422]%Z) ∨
  (∃ v s', fastapi_app r s = (mkResponse 501 [] (Some v), s')) ∨
  (∃ c d s', fastapi_app r s = (detail_response c d, s')).
Proof.
  intros Hd. app_cases r s; [by left|..]; rewrite Hd; right; unfold finish; simpl;
    repeat case_match; eauto.
Qed.

(** [DELETE /lists/Home/] is redirected to [/lists/Home]. *)
Example trailing_slash_redirect :
  skeleton_app (http_delete ["lists"; "Home"; ""]) tt = (mkResponse 307 [("location", "/lists/Home")] None, tt).
Proof. reflexivity. Qed.

(** ** Witnesses *)

Lemma app_create_task_missing_title_witness :
  dict_get "title" [("description", JStr "No title")] = None ∧
  ∃ errs, "title" ∈ errs ∧
    skeleton_app (http_post ["tasks"] (JObj [("description", JStr "No title")])) tt = (validation_error "body" errs, tt).
Proof.
  assert (dict_get "title" [("description", JStr "No title")] = None) as H by reflexivity.
  split; [exact H|]. exact (app_create_task_missing_title (S:=unit) _ tt H).
Defined.

Lemma app_create_task_bad_recurrence_witness :
  dict_get "recurrence" [("title", JStr "Invalid Recurrence"); ("recurrence", JStr "yearly")] = Some (JStr "yearly") ∧
  recurrence_of_string "yearly" = None ∧
  ∃ errs, "recurrence" ∈ errs ∧
    skeleton_app (http_post ["tasks"] (JObj [("title", JStr "Invalid Recurrence"); ("recurrence", JStr "yearly")])) tt =
      (validation_error "body" errs, tt).
Proof.
  assert (dict_get "recurrence" [("title", JStr "Invalid Recurrence"); ("recurrence", JStr "yearly")] = Some (JStr "yearly"))
    as H1 by reflexivity.
  assert (recurrence_of_string "yearly" = None) as H2 by reflexivity.
  split_and!; [exact H1|exact H2|exact (app_create_task_bad_recurrence (S:=unit) _ _ tt H1 H2)].
Defined.

Lemma reference_decorators_501_witness :
  @h_decorators unit stub_handlers = reference_decorators ∧
  ((snd (skeleton_app (http_get ["lists"] []) tt) = tt ∧
    status (fst (skeleton_app (http_get ["lists"] []) tt)) ∈ [307; 404; 405; 422]%Z) ∨
   (∃ v s', skeleton_app (http_get ["lists"] []) tt = (mkResponse 501 [] (Some v), s')) ∨
   (∃ c d s', skeleton_app (http_get ["lists"] []) tt = (detail_response c d, s'))).
Proof.
  assert (@h_decorators unit stub_handlers = reference_decorators) as H by reflexivity.
  split; [exact H|exact (reference_decorators_501 (S:=unit) _ tt H)].
Defined.
