(* ===== verification/Store.v ===== *)
(** * The task/list store

    No handler of the repository is implemented; the behaviour the test
    suite [src/testing/test_todo_api.py] demands of them is the store of
    the spec (sections 3-4).  This file models that store: its state (a
    dict of tasks by id in insertion order, the list names in creation
    order, the id counter), its eight operations with their three error
    kinds, the invariant every operation preserves, and the functional
    behaviour of each operation on each branch.  An operation that fails
    leaves the state unchanged: it returns only the error. *)

From S2P Require Import Prelude Json Models.
From Stdlib Require Import ZArith.

(** The error kinds of the spec's section 7. *)
Inductive store_error : Type := ValidationError | ReferenceError | NotFoundError.

#[export] Instance store_error_eq_dec : EqDecision store_error.
Proof. solve_decision. Defined.

Record store : Type := mkStore {
  tasks : list (string * TaskOut);
  lists : list string;
  next_id : N
}.

(** The store at start-up: the two built-in lists, no task. *)
Definition init_store : store := mkStore [] ["Personal"; "Work"] 0.

(** The id of the [n]-th task created: its decimal text. *)
Definition task_id_of (n : N) : string := pretty n.

(** A decimal digit. *)
Definition is_digit (c : ascii) : bool := ((48 <=? nat_of_ascii c) && (nat_of_ascii c <=? 57))%nat.

(** The result of an operation: an error, or a value and the new state. *)
Definition sresult (A : Type) : Type := store_error + (A * store).

Definition with_tasks (st : store) (ts : list (string * TaskOut)) : store :=
  mkStore ts (lists st) (next_id st).

(** [create_task]: title non-empty, the list (default ["Personal"]) must
    exist; a fresh id, [completed = false], [created_at = now]. *)
Definition create_task (c : TaskCreate) (now : string) (st : store) : sresult TaskOut :=
  if decide (title c = "") then inl ValidationError else
  let l := default "Personal" (task_list c) in
  if decide (l ∈ lists st) then
    let tid := task_id_of (next_id st) in
    let t := mkTaskOut
               (mkTaskBase (title c) (description c) (tags c) (due_date c)
                  (recurrence c) (recurrence_end_date c) (Some l))
               tid false now in
    inr (t, mkStore (dict_set tid t (tasks st)) (lists st) (N.succ (next_id st)))
  else inl ReferenceError.

Definition get_task (tid : string) (st : store) : store_error + TaskOut :=
  match dict_get tid (tasks st) with
  | Some t => inr t
  | None => inl NotFoundError
  end.

(** The tag filter: comma-separated, each value stripped. *)
Definition tag_filter (s : string) : list string := map strip (py_split "," s).

(** The three filter dimensions. *)
Definition match_completed (completed_f : option bool) (t : TaskOut) : bool :=
  match completed_f with Some b => Bool.eqb (completed t) b | None => true end.

Definition match_list (list_f : option string) (t : TaskOut) : bool :=
  match list_f with Some l => bool_decide (task_list (out_base t) = Some l) | None => true end.

Definition match_tags (tags_f : option string) (t : TaskOut) : bool :=
  match tags_f with
  | Some s => existsb (λ x, bool_decide (x ∈ tag_filter s)) (tags (out_base t))
  | None => true
  end.

Definition task_matches (completed_f : option bool) (tags_f : option string)
    (list_f : option string) (t : TaskOut) : bool :=
  match_completed completed_f t && match_list list_f t && match_tags tags_f t.

(** [list_tasks]: the matching tasks, in insertion order. *)
Definition list_tasks (completed_f : option bool) (tags_f : option string)
    (list_f : option string) (st : store) : list TaskOut :=
  List.filter (task_matches completed_f tags_f list_f) (dict_values (tasks st)).

(** Was field [f] sent in the update? *)
Definition sent (u : TaskUpdate) (f : string) : bool := bool_decide (f ∈ upd_fields_set u).

(** A sent field replaces the old value; an absent one keeps it. *)
Definition pick {A} (is_sent : bool) (new old : A) : A := if is_sent then new else old.

(** The checks of [update_task], before anything changes: [title],
    [tags] and [completed] cannot be cleared, a title cannot be empty
    (all [ValidationError]); a sent [list] cannot be cleared and must
    name an existing list ([ReferenceError]). *)
Definition title_ok (u : TaskUpdate) : bool :=
  negb (sent u "title") ||
  match upd_title u with Some s => negb (bool_decide (s = "")) | None => false end.

Definition tags_ok (u : TaskUpdate) : bool :=
  negb (sent u "tags") || bool_decide (is_Some (upd_tags u)).

Definition completed_ok (u : TaskUpdate) : bool :=
  negb (sent u "completed") || bool_decide (is_Some (upd_completed u)).

Definition list_check (u : TaskUpdate) (st : store) : option store_error :=
  if sent u "list" then
    match upd_list u with
    | None => Some ValidationError
    | Some l => if decide (l ∈ lists st) then None else Some ReferenceError
    end
  else None.

Definition update_check (u : TaskUpdate) (st : store) : option store_error :=
  if title_ok u && tags_ok u && completed_ok u then list_check u st else Some ValidationError.

(** The task after a (checked) update. *)
Definition apply_update (u : TaskUpdate) (t : TaskOut) : TaskOut :=
  let b := out_base t in
  mkTaskOut
    (mkTaskBase
       (pick (sent u "title") (default (title b) (upd_title u)) (title b))
       (pick (sent u "description") (upd_description u) (description b))
       (pick (sent u "tags") (default (tags b) (upd_tags u)) (tags b))
       (pick (sent u "due_date") (upd_due_date u) (due_date b))
       (pick (sent u "recurrence") (upd_recurrence u) (recurrence b))
       (pick (sent u "recurrence_end_date") (upd_recurrence_end_date u) (recurrence_end_date b))
       (pick (sent u "list") (upd_list u) (task_list b)))
    (id t)
    (pick (sent u "completed") (default (completed t) (upd_completed u)) (completed t))
    (created_at t).

Definition update_task (tid : string) (u : TaskUpdate) (st : store) : sresult TaskOut :=
  match dict_get tid (tasks st) with
  | None => inl NotFoundError
  | Some t =>
      match update_check u st with
      | Some e => inl e
      | None =>
          let t' := apply_update u t in
          inr (t', with_tasks st (dict_set tid t' (tasks st)))
      end
  end.

Definition delete_task (tid : string) (st : store) : sresult unit :=
  match dict_get tid (tasks st) with
  | None => inl NotFoundError
  | Some _ => inr (tt, with_tasks st (dict_del tid (tasks st)))
  end.

Definition list_lists (st : store) : list ListModel := map mkListModel (lists st).

(** [create_list]: the name must not be empty after stripping, and must
    be new. *)
Definition create_list (l : ListModel) (st : store) : sresult ListModel :=
  if decide (strip (name l) = "") then inl ValidationError
  else if decide (name l ∈ lists st) then inl ValidationError
  else inr (l, mkStore (tasks st) (lists st ++ [name l])%list (next_id st)).

(** Does some task belong to list [n]? *)
Definition list_in_use (n : string) (st : store) : bool :=
  existsb (λ t, bool_decide (task_list (out_base t) = Some n)) (dict_values (tasks st)).

(** [delete_list]: unknown names are not found, ["Personal"] and lists
    that own a task cannot be deleted. *)
Definition delete_list (n : string) (st : store) : sresult unit :=
  if decide (n ∈ lists st) then
    if decide (n = "Personal") then inl ValidationError
    else if list_in_use n st then inl ValidationError
    else inr (tt, mkStore (tasks st) (filter (λ l, l ≠ n) (lists st)) (next_id st))
  else inl NotFoundError.

(** ** The invariant *)

(** A stored task: it carries its key as id, a non-empty title, an
    existing list, and an id the counter has already issued. *)
Definition task_wf (st : store) (tid : string) (t : TaskOut) : Prop :=
  id t = tid ∧ title (out_base t) ≠ "" ∧
  (∃ l, task_list (out_base t) = Some l ∧ l ∈ lists st) ∧
  (∃ n, tid = task_id_of n ∧ (n < next_id st)%N).

Record store_wf (st : store) : Prop := {
  wf_lists_nodup : NoDup (lists st);
  wf_personal : "Personal" ∈ lists st;
  wf_keys_nodup : NoDup (dict_keys (tasks st));
  wf_tasks : ∀ tid t, (tid, t) ∈ tasks st → task_wf st tid t
}.

(** ** Reachable states

    Every state a sequence of successful mutating operations can reach
    from [init_store]; reads do not change the state. *)
Inductive step : store → store → Prop :=
| step_create_task c now st t st' :
    create_task c now st = inr (t, st') → step st st'
| step_update_task tid u st t st' :
    update_task tid u st = inr (t, st') → step st st'
| step_delete_task tid st st' :
    delete_task tid st = inr (tt, st') → step st st'
| step_create_list l st l' st' :
    create_list l st = inr (l', st') → step st st'
| step_delete_list n st st' :
    delete_list n st = inr (tt, st') → step st st'.

Definition reachable (st : store) : Prop := rtc step init_store st.

(** ** Task ids *)

Lemma pretty_N_go_digits x s :
  Forall (λ c, is_digit c = true) (chars s) → Forall (λ c, is_digit c = true) (chars (pretty_N_go x s)).
Proof.
  revert s. induction (N.lt_wf_0 x) as [x _ IH]; intros s Hs.
  assert (x = 0 ∨ 0 < x)%N as [->|?] by lia; [by rewrite pretty_N_go_0|].
  rewrite pretty_N_go_step by done. apply IH; [by apply N.div_lt|].
  simpl. constructor; [|done]. unfold pretty_N_char. by repeat case_match.
Qed.

Lemma pretty_N_go_nonempty x s : s ≠ "" → pretty_N_go x s ≠ "".
Proof.
  revert s. induction (N.lt_wf_0 x) as [x _ IH]; intros s Hs.
  assert (x = 0 ∨ 0 < x)%N as [->|?] by lia; [by rewrite pretty_N_go_0|].
  rewrite pretty_N_go_step by done. apply IH; [by apply N.div_lt|done].
Qed.

(** A task id is a non-empty string of decimal digits. *)
Lemma task_id_of_digits n :
  task_id_of n ≠ "" ∧ Forall (λ c, is_digit c = true) (chars (task_id_of n)).
Proof.
  unfold task_id_of, pretty, pretty_N. case_decide; [split; [done|repeat constructor]|].
  split; [|by apply pretty_N_go_digits].
  rewrite pretty_N_go_step by lia. by apply pretty_N_go_nonempty.
Qed.

(** A string with a character that is not a digit (a [uuid4()] text has
    dashes) is never a task id. *)
Lemma not_task_id u c : c ∈ chars u → is_digit c = false → ∀ n, task_id_of n ≠ u.
Proof.
  intros Hc Hd n <-. destruct (task_id_of_digits n) as [_ Hall].
  rewrite Forall_forall in Hall. by rewrite (Hall c) in Hd.
Qed.

(** ** Facts about the invariant *)

Lemma task_wf_mono st st' tid t :
  lists st ⊆ lists st' → (next_id st <= next_id st')%N →
  task_wf st tid t → task_wf st' tid t.
Proof.
  intros Hl Hn (Hid & Hti & (l & Hl1 & Hl2) & (n & Hk & Hlt)).
  split_and!; [done|done| |]; [exists l; set_solver | exists n; split; [done|lia]].
Qed.

(** The id the counter issues next is not yet a key. *)
Lemma fresh_task_id st : store_wf st → dict_get (task_id_of (next_id st)) (tasks st) = None.
Proof.
  intros Hwf. destruct (dict_get _ _) as [t|] eqn:E; [|done].
  apply dict_get_Some_elem, (wf_tasks _ Hwf) in E as (_ & _ & _ & n & Hk & Hlt).
  apply (inj task_id_of) in Hk. lia.
Qed.

Lemma init_store_wf : store_wf init_store.
Proof.
  constructor; simpl; [|set_solver|constructor|set_solver].
  repeat constructor; set_solver.
Qed.

Lemma create_task_wf c now st t st' :
  store_wf st → create_task c now st = inr (t, st') → store_wf st'.
Proof.
  intros Hwf. unfold create_task.
  case_decide as Hti; [done|]. case_decide as Hl; [|done]. intros [= <- <-].
  constructor; simpl; try apply Hwf; [by apply dict_set_NoDup, Hwf|].
  intros tid t' [[-> ->]|Hin]%elem_of_dict_set.
  - split_and!; simpl; [done|done| |]; [eexists; split; [done|done]|exists (next_id st); split; [done|lia]].
  - eapply task_wf_mono, (wf_tasks _ Hwf); [done|simpl; lia|done].
Qed.

Lemma update_check_ok u st :
  update_check u st = None →
  (sent u "title" = true → ∃ s, upd_title u = Some s ∧ s ≠ "") ∧
  (sent u "tags" = true → is_Some (upd_tags u)) ∧
  (sent u "completed" = true → is_Some (upd_completed u)) ∧
  (sent u "list" = true → ∃ l, upd_list u = Some l ∧ l ∈ lists st).
Proof.
  unfold update_check, title_ok, tags_ok, completed_ok, list_check.
  destruct (sent u "title"), (upd_title u) as [s|]; simpl; try case_bool_decide; try done;
    destruct (sent u "tags"), (upd_tags u); simpl; try done;
    destruct (sent u "completed"), (upd_completed u); simpl; try done;
    destruct (sent u "list"), (upd_list u) as [l0|]; try case_decide; naive_solver.
Qed.

Lemma apply_update_wf st tid u t :
  update_check u st = None → task_wf st tid t → task_wf st tid (apply_update u t).
Proof.
  intros (Hti & _ & _ & Hl)%update_check_ok (Hid & Hti0 & Hl0 & Hn).
  unfold apply_update, pick; simpl. split_and!; [done| | |done].
  - destruct (sent u "title"); [|done]. destruct Hti as (s & -> & ?); done.
  - destruct (sent u "list"); [|done]. destruct Hl as (l & -> & ?); eauto.
Qed.

Lemma update_task_wf tid u st t st' :
  store_wf st → update_task tid u st = inr (t, st') → store_wf st'.
Proof.
  intros Hwf. unfold update_task.
  destruct (dict_get tid (tasks st)) as [t0|] eqn:E; [|done].
  destruct (update_check u st) eqn:Hc; [done|]. intros [= <- <-].
  constructor; simpl; try apply Hwf; [by apply dict_set_NoDup, Hwf|].
  intros k t' [[-> ->]|Hin]%elem_of_dict_set.
  - apply apply_update_wf; [done|]. apply (wf_tasks _ Hwf), dict_get_Some_elem, E.
  - apply (wf_tasks _ Hwf _ _ Hin).
Qed.

Lemma delete_task_wf tid st st' :
  store_wf st → delete_task tid st = inr (tt, st') → store_wf st'.
Proof.
  intros Hwf. unfold delete_task. destruct (dict_get tid (tasks st)) as [t0|]; [|done].
  intros [= <-]. constructor; simpl; try apply Hwf; [by apply dict_del_NoDup, Hwf|].
  intros k t1 Hin%elem_of_dict_del. apply (wf_tasks _ Hwf _ _ Hin).
Qed.

Lemma create_list_wf l st l' st' :
  store_wf st → create_list l st = inr (l', st') → store_wf st'.
Proof.
  intros Hwf. unfold create_list.
  case_decide; [done|]. case_decide as Hnew; [done|]. intros [= <- <-].
  constructor; simpl; [| | apply Hwf |].
  - apply NoDup_app. split; [apply Hwf|split; [set_solver|apply NoDup_singleton]].
  - pose proof (wf_personal _ Hwf). set_solver.
  - intros tid t Hin. eapply task_wf_mono, (wf_tasks _ Hwf _ _ Hin); simpl; [set_solver|lia].
Qed.

Lemma list_in_use_false n st tid t :
  list_in_use n st = false → (tid, t) ∈ tasks st → task_list (out_base t) ≠ Some n.
Proof.
  unfold list_in_use. intros Hu Hin Heq.
  assert (t ∈ dict_values (tasks st)) as Hv%list_elem_of_In by (apply elem_of_dict_values; eauto).
  assert (existsb (λ t, bool_decide (task_list (out_base t) = Some n)) (dict_values (tasks st)) = true)
    as Ht by (apply existsb_exists; exists t; split; [done|by case_bool_decide]).
  congruence.
Qed.

Lemma delete_list_wf n st st' :
  store_wf st → delete_list n st = inr (tt, st') → store_wf st'.
Proof.
  intros Hwf. unfold delete_list.
  case_decide; [|done]. case_decide as Hp; [done|].
  destruct (list_in_use n st) eqn:Hu; [done|]. intros [= <-].
  constructor; simpl; [| | apply Hwf |].
  - apply NoDup_filter, Hwf.
  - apply list_elem_of_filter. split; [done|apply Hwf].
  - intros tid t Hin. pose proof (list_in_use_false _ _ _ _ Hu Hin) as Hne.
    destruct (wf_tasks _ Hwf _ _ Hin) as (Hid & Hti & (l & Hl & Hli) & Hn).
    split_and!; [done|done| |done]. exists l. split; [done|].
    apply list_elem_of_filter. split; [congruence|done].
Qed.

#[export] Hint Resolve create_task_wf update_task_wf delete_task_wf create_list_wf
  delete_list_wf init_store_wf : todo.

Lemma step_wf st st' : store_wf st → step st st' → store_wf st'.
Proof.
  intros Hwf Hs. inversion Hs as [c now ? t ? H|tid u ? t ? H|tid ? ? H|l ? l' ? H|n ? ? H]; subst;
    [eapply create_task_wf|eapply update_task_wf|eapply delete_task_wf
    |eapply create_list_wf|eapply delete_list_wf]; eauto.
Qed.

(** Every state reachable from [init_store] by successful operations
    satisfies the store invariant: list names are unique and include
    ["Personal"], task ids are unique, and every task has its key as id,
    a non-empty title, an existing list and an id the counter issued. *)
Lemma reachable_wf st : reachable st → store_wf st.
Proof.
  unfold reachable. intros Hr. cut (store_wf init_store); [|apply init_store_wf].
  induction Hr as [|x y z Hxy Hyz IH]; [done|]. intros Hx. apply IH, (step_wf x); done.
Qed.

(** ** Functional behaviour of each operation *)

(** [create_task] succeeds exactly when the title is non-empty and the
    list (default ["Personal"]) exists; the new task carries the payload,
    [completed = false], the list filled in, and the next id. *)
Lemma create_task_spec c now st :
  create_task c now st =
    if decide (title c = "") then inl ValidationError
    else if decide (default "Personal" (task_list c) ∈ lists st) then
      inr (mkTaskOut (mkTaskBase (title c) (description c) (tags c) (due_date c)
                        (recurrence c) (recurrence_end_date c)
                        (Some (default "Personal" (task_list c))))
                     (task_id_of (next_id st)) false now,
           mkStore (dict_set (task_id_of (next_id st))
                      (mkTaskOut (mkTaskBase (title c) (description c) (tags c) (due_date c)
                                    (recurrence c) (recurrence_end_date c)
                                    (Some (default "Personal" (task_list c))))
                                 (task_id_of (next_id st)) false now) (tasks st))
                   (lists st) (N.succ (next_id st)))
    else inl ReferenceError.
Proof. reflexivity. Qed.

(** A task returned by [create_task] is found by [get_task] under its id
    in the new state. *)
Lemma create_task_get c now st t st' :
  create_task c now st = inr (t, st') → get_task (id t) st' = inr t.
Proof.
  unfold create_task. case_decide; [done|]. case_decide; [|done].
  intros [= <- <-]. unfold get_task; simpl. by rewrite dict_get_set_eq.
Qed.

Lemma create_task_fields c now st t st' :
  create_task c now st = inr (t, st') →
  completed t = false ∧ created_at t = now ∧ title (out_base t) = title c ∧
  description (out_base t) = description c ∧ tags (out_base t) = tags c ∧
  due_date (out_base t) = due_date c ∧ recurrence (out_base t) = recurrence c ∧
  recurrence_end_date (out_base t) = recurrence_end_date c ∧
  task_list (out_base t) = Some (default "Personal" (task_list c)).
Proof. unfold create_task. case_decide; [done|]. case_decide; [|done]. by intros [= <- <-]. Qed.

(** After [delete_task] succeeds the id is gone: reading it or
    deleting it again fails with [NotFoundError]. *)
Lemma delete_task_gone tid st u st' :
  store_wf st → delete_task tid st = inr (u, st') →
  get_task tid st' = inl NotFoundError ∧ delete_task tid st' = inl NotFoundError.
Proof.
  intros Hwf. unfold delete_task. destruct (dict_get tid (tasks st)); [|done].
  intros [= <- <-]. unfold get_task; simpl.
  rewrite dict_get_del_eq by apply Hwf. done.
Qed.

Lemma get_task_missing tid st :
  dict_get tid (tasks st) = None →
  get_task tid st = inl NotFoundError ∧ delete_task tid st = inl NotFoundError ∧
  ∀ u, update_task tid u st = inl NotFoundError.
Proof. intros H. unfold get_task, delete_task, update_task. by rewrite H. Qed.

(** Deleting ["Personal"] always fails with [ValidationError], whatever
    the tasks, in every well-formed store. *)
Lemma delete_list_personal st :
  store_wf st → delete_list "Personal" st = inl ValidationError.
Proof.
  intros Hwf. unfold delete_list. rewrite decide_True by apply Hwf. done.
Qed.

(** Deleting an existing list that owns at least one task fails with
    [ValidationError]. *)
Lemma delete_list_in_use n st :
  n ∈ lists st → list_in_use n st = true → delete_list n st = inl ValidationError.
Proof. intros Hn Hu. unfold delete_list. rewrite decide_True by done. case_decide; [done|]. by rewrite Hu. Qed.

(** A list that exists, is not ["Personal"] and owns no task is
    deleted, the tasks untouched; deleting it again is [NotFoundError]. *)
Lemma delete_list_ok n st :
  n ∈ lists st → n ≠ "Personal" → list_in_use n st = false →
  ∃ st', delete_list n st = inr (tt, st') ∧ n ∉ lists st' ∧ tasks st' = tasks st ∧
         delete_list n st' = inl NotFoundError.
Proof.
  intros Hn Hp Hu.
  assert (n ∉ filter (λ l, l ≠ n) (lists st)) as Hgone by (rewrite list_elem_of_filter; naive_solver).
  unfold delete_list. rewrite decide_True, decide_False, Hu by done.
  eexists. split; [done|]. simpl. split_and!; [done|done|]. by rewrite decide_False.
Qed.

Lemma delete_list_unknown n st : n ∉ lists st → delete_list n st = inl NotFoundError.
Proof. intros Hn. unfold delete_list. by rewrite decide_False. Qed.

Lemma match_completed_spec cf t : match_completed cf t = true ↔ ∀ b, cf = Some b → completed t = b.
Proof. destruct cf; simpl; [rewrite Bool.eqb_true_iff|]; naive_solver. Qed.

Lemma match_list_spec lf t :
  match_list lf t = true ↔ ∀ l, lf = Some l → task_list (out_base t) = Some l.
Proof. destruct lf; simpl; [rewrite bool_decide_eq_true|]; naive_solver. Qed.

Lemma match_tags_spec tf t :
  match_tags tf t = true ↔ ∀ s, tf = Some s → ∃ x, x ∈ tags (out_base t) ∧ x ∈ tag_filter s.
Proof.
  destruct tf as [s|]; simpl; [|naive_solver]. rewrite existsb_exists. split.
  - intros (x & Hx & Hf) ? [= <-]. exists x. rewrite list_elem_of_In. by rewrite bool_decide_eq_true in Hf.
  - intros H. destruct (H s eq_refl) as (x & Hx & Hf). exists x.
    rewrite <- list_elem_of_In, bool_decide_eq_true. done.
Qed.

(** [list_tasks] answers exactly the stored tasks that meet every given
    filter: [completed] and [list] by equality, [tags] when one of the
    task's tags is among the stripped comma-separated values. *)
Lemma list_tasks_spec cf tf lf st t :
  t ∈ list_tasks cf tf lf st ↔
    t ∈ dict_values (tasks st) ∧
    (∀ b, cf = Some b → completed t = b) ∧
    (∀ l, lf = Some l → task_list (out_base t) = Some l) ∧
    (∀ s, tf = Some s → ∃ x, x ∈ tags (out_base t) ∧ x ∈ tag_filter s).
Proof.
  unfold list_tasks. rewrite list_elem_of_In, filter_In, <- list_elem_of_In.
  unfold task_matches. rewrite !andb_true_iff, match_completed_spec, match_list_spec, match_tags_spec.
  naive_solver.
Qed.

(** Whitespace around the values of the [tags] filter is ignored. *)
Lemma tag_filter_py_join xs :
  xs ≠ [] → Forall (λ x, ","%char ∉ chars x) xs → tag_filter (py_join "," xs) = map strip xs.
Proof. intros Hne Hall. unfold tag_filter. by rewrite py_split_join. Qed.

(** [update_task] on an existing task: it fails with the first failing
    check and changes nothing, or it replaces exactly the fields sent. *)
Lemma update_task_existing tid u st t :
  dict_get tid (tasks st) = Some t →
  update_task tid u st =
    match update_check u st with
    | Some e => inl e
    | None => inr (apply_update u t, with_tasks st (dict_set tid (apply_update u t) (tasks st)))
    end.
Proof. intros H. unfold update_task. by rewrite H. Qed.

(** [update_task]: a field not sent keeps its value; [recurrence_end_date],
    [recurrence], [due_date] and [description] sent as [null] are
    cleared; the id and creation time never change. *)
Lemma update_task_fields tid u st t' st' :
  update_task tid u st = inr (t', st') →
  ∃ t, dict_get tid (tasks st) = Some t ∧ dict_get tid (tasks st') = Some t' ∧
    id t' = id t ∧ created_at t' = created_at t ∧
    (sent u "title" = false → title (out_base t') = title (out_base t)) ∧
    (sent u "description" = false → description (out_base t') = description (out_base t)) ∧
    (sent u "tags" = false → tags (out_base t') = tags (out_base t)) ∧
    (sent u "completed" = false → completed t' = completed t) ∧
    (sent u "due_date" = false → due_date (out_base t') = due_date (out_base t)) ∧
    (sent u "recurrence" = false → recurrence (out_base t') = recurrence (out_base t)) ∧
    (sent u "recurrence_end_date" = false →
       recurrence_end_date (out_base t') = recurrence_end_date (out_base t)) ∧
    (sent u "list" = false → task_list (out_base t') = task_list (out_base t)) ∧
    (sent u "due_date" = true → due_date (out_base t') = upd_due_date u) ∧
    (sent u "recurrence" = true → recurrence (out_base t') = upd_recurrence u) ∧
    (sent u "recurrence_end_date" = true → recurrence_end_date (out_base t') = upd_recurrence_end_date u) ∧
    (sent u "description" = true → description (out_base t') = upd_description u) ∧
    (∀ b, upd_completed u = Some b → sent u "completed" = true → completed t' = b).
Proof.
  unfold update_task. destruct (dict_get tid (tasks st)) as [t|] eqn:E; [|done].
  destruct (update_check u st); [done|]. intros [= <- <-].
  exists t. simpl. rewrite dict_get_set_eq. unfold apply_update, pick; simpl.
  split_and!; try done; intros;
    repeat match goal with H : sent _ _ = _ |- _ => rewrite H; clear H end; simpl; try done.
  match goal with H : upd_completed _ = Some _ |- _ => by rewrite H end.
Qed.

(** An update naming a list that does not exist fails with
    [ReferenceError] when every other check passes. *)
Lemma update_task_unknown_list tid u st t l :
  dict_get tid (tasks st) = Some t → title_ok u && tags_ok u && completed_ok u = true →
  sent u "list" = true → upd_list u = Some l → l ∉ lists st →
  update_task tid u st = inl ReferenceError.
Proof.
  intros Ht Hok Hs Hl Hn. rewrite (update_task_existing _ _ _ t) by done.
  unfold update_check, list_check. rewrite Hok, Hs, Hl, decide_False by done. done.
Qed.

(** [create_list] rejects empty or whitespace-only names and
    duplicates with [ValidationError], and otherwise appends the name. *)
Lemma create_list_spec l st :
  create_list l st =
    if decide (all_space (name l) = true) then inl ValidationError
    else if decide (name l ∈ lists st) then inl ValidationError
    else inr (l, mkStore (tasks st) (lists st ++ [name l])%list (next_id st)).
Proof.
  unfold create_list. destruct (decide (all_space (name l) = true)) as [H|H];
    rewrite <- strip_empty_iff in H; [by rewrite decide_True|by rewrite decide_False].
Qed.

Lemma create_list_then_listed l st l' st' :
  create_list l st = inr (l', st') → l' = l ∧ l ∈ list_lists st' ∧ lists st ⊆ lists st'.
Proof.
  unfold create_list. case_decide; [done|]. case_decide; [done|]. intros [= <- <-].
  unfold list_lists; simpl. split_and!; [done| |set_solver].
  destruct l as [n]. apply list_elem_of_fmap_2. set_solver.
Qed.

(** ** Witnesses: the theorems at concrete stores *)

Lemma update_task_fields_witness :
  let t0 := mkTaskOut (mkTaskBase "T" (Some "") [] None (Some weekly) (Some "2025-07-01") (Some "Personal"))
              "0" false "t0" in
  let st := mkStore [("0", t0)] ["Personal"; "Work"] 1 in
  let u := mkTaskUpdate None None None None None None None None ["recurrence_end_date"] in
  ∃ t' st', update_task "0" u st = inr (t', st') ∧
  ∃ t, dict_get "0" (tasks st) = Some t ∧ dict_get "0" (tasks st') = Some t' ∧
    id t' = id t ∧ created_at t' = created_at t ∧
    (sent u "title" = false → title (out_base t') = title (out_base t)) ∧
    (sent u "description" = false → description (out_base t') = description (out_base t)) ∧
    (sent u "tags" = false → tags (out_base t') = tags (out_base t)) ∧
    (sent u "completed" = false → completed t' = completed t) ∧
    (sent u "due_date" = false → due_date (out_base t') = due_date (out_base t)) ∧
    (sent u "recurrence" = false → recurrence (out_base t') = recurrence (out_base t)) ∧
    (sent u "recurrence_end_date" = false →
       recurrence_end_date (out_base t') = recurrence_end_date (out_base t)) ∧
    (sent u "list" = false → task_list (out_base t') = task_list (out_base t)) ∧
    (sent u "due_date" = true → due_date (out_base t') = upd_due_date u) ∧
    (sent u "recurrence" = true → recurrence (out_base t') = upd_recurrence u) ∧
    (sent u "recurrence_end_date" = true → recurrence_end_date (out_base t') = upd_recurrence_end_date u) ∧
    (sent u "description" = true → description (out_base t') = upd_description u) ∧
    (∀ b, upd_completed u = Some b → sent u "completed" = true → completed t' = b).
Proof.
  intros t0 st u. do 2 eexists.
  assert (update_task "0" u st = inr (_, _)) as H by reflexivity.
  split; [exact H|]. exact (update_task_fields "0" u st _ _ H).
Defined.

Lemma tag_filter_py_join_witness :
  ["project"; " important"] ≠ [] ∧ Forall (λ x, ","%char ∉ chars x) ["project"; " important"] ∧
  tag_filter (py_join "," ["project"; " important"]) = map strip ["project"; " important"].
Proof.
  assert (["project"; " important"] ≠ []) as H1 by done.
  assert (Forall (λ x, ","%char ∉ chars x) ["project"; " important"]) as H2
    by (repeat constructor; simpl; set_solver).
  split_and!; [exact H1|exact H2|exact (tag_filter_py_join _ H1 H2)].
Defined.
