(* ===== verification/Service.v ===== *)
(** * The store served through the application's routes

    The handlers the skeleton leaves unimplemented, written against the
    store of [Store]: each returns the operation's result or raises the
    error status of the spec's section 6, under the decorators of
    [src/reference_API/api_skeleton.py] (201 for creations, 204 for
    deletions), plugged into the same FastAPI application ([fastapi_app]
    of [Skeleton]: the source's routing and validation).
    The service state is the store and the current time the environment
    provides for [created_at]. *)

From S2P Require Import Prelude Json Models Http Skeleton Store.
From Stdlib Require Import ZArith.

Record svc : Type := mkSvc {
  svc_store : store;
  svc_now : string
}.

Definition set_store (s : svc) (st : store) : svc := mkSvc st (svc_now s).

(** Status of a failed task operation: 422, 400, 404. *)
Definition task_error_status (e : store_error) : Z :=
  match e with ValidationError => 422 | ReferenceError => 400 | NotFoundError => 404 end.

(** Status of a failed list operation: 400 or 404. *)
Definition list_error_status (e : store_error) : Z :=
  match e with NotFoundError => 404 | _ => 400 end.

Definition error_message (e : store_error) : string :=
  match e with
  | ValidationError => "Validation error"
  | ReferenceError => "List does not exist"
  | NotFoundError => "Not found"
  end.

Definition error_response (code : Z) (e : store_error) : response :=
  detail_response code (JStr (error_message e)).

Definition ok_response (code : Z) (j : json) : response := mkResponse code [] (Some j).

Definition no_content : response := mkResponse 204 [] None.

(** Answer a store result: success with [ok], or the error with the
    state left as it was. *)
Definition answer {A} (status_of : store_error → Z) (ok : A → response)
    (r : sresult A) (s : svc) : response * svc :=
  match r with
  | inr (a, st') => (ok a, set_store s st')
  | inl e => (error_response (status_of e) e, s)
  end.

(** A handler's outcome for a store result: return [ok a], or raise
    the error's status with its message, the state left as it was. *)
Definition hanswer {A} (status_of : store_error → Z) (ok : A → json)
    (r : sresult A) (s : svc) : hresult * svc :=
  match r with
  | inr (a, st') => (HReturn (ok a), set_store s st')
  | inl e => (HRaise (status_of e) (JStr (error_message e)), s)
  end.

(** The handlers of [src/reference_API/api_skeleton.py] implemented over
    the store, under that file's decorators. *)
#[export] Instance store_handlers : Handlers svc := {
  h_decorators := lower_decorators;
  h_create_task c s := hanswer task_error_status TaskOut_to_json (create_task c (svc_now s) (svc_store s)) s;
  h_list_tasks cf tf lf s := (HReturn (JArr (map TaskOut_to_json (list_tasks cf tf lf (svc_store s)))), s);
  h_get_task tid s :=
    match get_task tid (svc_store s) with
    | inr t => (HReturn (TaskOut_to_json t), s)
    | inl e => (HRaise (task_error_status e) (JStr (error_message e)), s)
    end;
  h_update_task tid u s := hanswer task_error_status TaskOut_to_json (update_task tid u (svc_store s)) s;
  h_delete_task tid s := hanswer task_error_status (λ _, JNull) (delete_task tid (svc_store s)) s;
  h_get_lists s := (HReturn (JArr (map ListModel_to_json (list_lists (svc_store s)))), s);
  h_create_list l s := hanswer list_error_status ListModel_to_json (create_list l (svc_store s)) s;
  h_delete_list n s := hanswer list_error_status (λ _, JNull) (delete_list n (svc_store s)) s
}.

(** The service at start-up. *)
Definition init_svc (now : string) : svc := mkSvc init_store now.

(** States reachable by any sequence of HTTP requests. *)
Definition http_step (s s' : svc) : Prop := ∃ r, snd (fastapi_app r s) = s'.

Definition svc_reachable (now : string) (s : svc) : Prop := rtc http_step (init_svc now) s.

(** ** Facts *)

(** FastAPI's answer to [hanswer]: [answer] with the decorator's status. *)
Lemma finish_hanswer {A} (code : Z) (f : store_error → Z) (ok : A → json) (r : sresult A) (s : svc) :
  finish code (hanswer f ok r s) =
    answer f (λ a, if Z.eqb code 204 then mkResponse 204 [] None else ok_response code (ok a)) r s.
Proof. destruct r as [e|[a st']]; simpl; [done|]. by destruct (Z.eqb code 204) eqn:E; [apply Z.eqb_eq in E as ->|]. Qed.

(** [app_cases] for the service: each handler case is left with the
    store result it answers. *)
Ltac svc_cases r s :=
  app_cases r s;
  cbn [h_decorators h_create_task h_list_tasks h_get_task h_update_task h_delete_task
       h_get_lists h_create_list h_delete_list store_handlers];
  rewrite ?finish_hanswer.

Lemma answer_cases {A} (f : store_error → Z) (ok : A → response) (r : sresult A) (s : svc) :
  (∃ e, r = inl e ∧ answer f ok r s = (error_response (f e) e, s)) ∨
  (∃ a st', r = inr (a, st') ∧ answer f ok r s = (ok a, set_store s st')).
Proof. destruct r as [e|[a st']]; [left|right]; eauto. Qed.

(** One request moves the store by at most one store step, and never
    changes the clock. *)
Lemma app_step (r : request) (s : svc) :
  svc_now (snd (fastapi_app r s)) = svc_now s ∧
  (svc_store (snd (fastapi_app r s)) = svc_store s ∨
   step (svc_store s) (svc_store (snd (fastapi_app r s)))).
Proof.
  svc_cases r s; [auto|..]; simpl; auto.
  all: try (destruct (get_task _ _); simpl; auto; fail).
  all: match goal with
  | |- context [answer ?f ?ok ?res ?s0] =>
      destruct (answer_cases f ok res s0) as [(e & He & ->)|(a & st' & Hr & ->)]; simpl; [auto|]
  end;
  split; [done|right]; try destruct a;
  first [ eapply step_create_task; exact Hr | eapply step_update_task; exact Hr
        | eapply step_delete_task; exact Hr | eapply step_create_list; exact Hr
        | eapply step_delete_list; exact Hr ].
Qed.

(** C1. Every state the service reaches by any sequence of HTTP requests
    from start-up satisfies the store invariant: list names unique and
    including ["Personal"], task ids unique, every task stored under its
    own id with a non-empty title in an existing list. *)
Theorem svc_reachable_wf (now : string) (s : svc) :
  svc_reachable now s → store_wf (svc_store s).
Proof.
  unfold svc_reachable. intros Hr. cut (store_wf (svc_store (init_svc now))); [|apply init_store_wf].
  induction Hr as [|x y z [r <-] Hyz IH]; [done|]. intros Hx. apply IH.
  destruct (app_step r x) as [_ [->|Hs]]; [done|]. by apply (step_wf _ _ Hx).
Qed.

(** C2. A request answered with an error status (400 or more) leaves the
    service state exactly as it was: every operation is atomic. *)
Theorem app_error_no_change (r : request) (s : svc) :
  (400 <= status (fst (fastapi_app r s)))%Z → snd (fastapi_app r s) = s.
Proof.
  svc_cases r s; [done|..]; simpl; try done;
  try (destruct (get_task _ _); simpl; done);
  match goal with
  | |- context [answer ?f ?ok ?res ?s0] =>
      destruct (answer_cases f ok res s0) as [(e & He & ->)|(a & st' & Hr & ->)]; simpl; [done|lia]
  end.
Qed.

(** ** The routes as store operations *)

Lemma app_post_task fs c s :
  validate_TaskCreate (JObj fs) = VOk c →
  fastapi_app (http_post ["tasks"] (JObj fs)) s =
    answer task_error_status (λ t, ok_response 201 (TaskOut_to_json t))
      (create_task c (svc_now s) (svc_store s)) s.
Proof.
  intros H. rewrite app_post_tasks, H. cbn [h_create_task store_handlers]. rewrite finish_hanswer. reflexivity.
Qed.

Lemma app_get_task tid q s :
  tid ≠ "" →
  fastapi_app (http_get ["tasks"; tid] q) s =
    match get_task tid (svc_store s) with
    | inr t => (ok_response 200 (TaskOut_to_json t), s)
    | inl e => (error_response (task_error_status e) e, s)
    end.
Proof. intros H. unfold fastapi_app. simpl. rewrite decide_False by done. simpl. by destruct (get_task _ _). Qed.

Lemma app_put_task tid fs u s :
  tid ≠ "" → validate_TaskUpdate (JObj fs) = VOk u →
  fastapi_app (http_put ["tasks"; tid] (JObj fs)) s =
    answer task_error_status (λ t, ok_response 200 (TaskOut_to_json t))
      (update_task tid u (svc_store s)) s.
Proof.
  intros Ht H. unfold fastapi_app. cbn [route_request req_method req_path req_body http_put].
  rewrite decide_False by done. unfold with_body. rewrite H.
  cbn [h_update_task store_handlers]. rewrite finish_hanswer. reflexivity.
Qed.

Lemma app_delete_task tid s :
  tid ≠ "" →
  fastapi_app (http_delete ["tasks"; tid]) s =
    answer task_error_status (λ _, no_content) (delete_task tid (svc_store s)) s.
Proof.
  intros H. unfold fastapi_app. simpl. rewrite decide_False by done.
  cbn [h_delete_task store_handlers]. rewrite finish_hanswer. reflexivity.
Qed.

Lemma app_delete_list n s :
  n ≠ "" →
  fastapi_app (http_delete ["lists"; n]) s =
    answer list_error_status (λ _, no_content) (delete_list n (svc_store s)) s.
Proof.
  intros H. unfold fastapi_app. simpl. rewrite decide_False by done.
  cbn [h_delete_list store_handlers]. rewrite finish_hanswer. reflexivity.
Qed.

Lemma app_post_list n s :
  fastapi_app (http_post ["lists"] (JObj [("name", JStr n)])) s =
    answer list_error_status (λ l', ok_response 201 (ListModel_to_json l'))
      (create_list (mkListModel n) (svc_store s)) s.
Proof.
  unfold fastapi_app. simpl. cbn [h_create_list store_handlers]. rewrite finish_hanswer. reflexivity.
Qed.

Lemma task_id_nonempty n : task_id_of n ≠ "".
Proof. apply task_id_of_digits. Qed.

#[export] Hint Resolve task_id_nonempty : todo.

(** ** The spec's behaviours, over HTTP *)

(** C8. [DELETE /lists/Personal] is always answered 400, with the state
    unchanged, whatever the tasks. *)
Theorem app_delete_personal (s : svc) :
  store_wf (svc_store s) →
  fastapi_app (http_delete ["lists"; "Personal"]) s = (error_response 400 ValidationError, s).
Proof. intros Hwf. rewrite app_delete_list by done. by rewrite delete_list_personal. Qed.

(** C9. [POST /tasks] with only a title creates the task in ["Personal"],
    not completed, with an empty description and no tags, under the next
    id, answered 201 with its JSON; the task is appended to the store. *)
Theorem app_create_defaults (t : string) (s : svc) :
  store_wf (svc_store s) → t ≠ "" →
  let tid := task_id_of (next_id (svc_store s)) in
  let o := mkTaskOut (mkTaskBase t (Some "") [] None None None (Some "Personal")) tid false (svc_now s) in
  fastapi_app (http_post ["tasks"] (JObj [("title", JStr t)])) s =
    (ok_response 201 (TaskOut_to_json o),
     set_store s (mkStore (tasks (svc_store s) ++ [(tid, o)])%list (lists (svc_store s))
                          (N.succ (next_id (svc_store s))))).
Proof.
  intros Hwf Ht tid o. rewrite (app_post_task _ (mkTaskBase t (Some "") [] None None None (Some "Personal"))) by done.
  unfold create_task; simpl. rewrite decide_False, decide_True by (done || apply Hwf).
  simpl. by rewrite dict_set_fresh by (apply fresh_task_id, Hwf).
Qed.

(** C10. A task created by [POST /tasks] (answered 201) is read back by
    [GET /tasks/{id}], with the id of the response, as the very same JSON. *)
Theorem app_create_then_get (fs : list (string * json)) (s : svc) (resp : response) (s' : svc) :
  fastapi_app (http_post ["tasks"] (JObj fs)) s = (resp, s') → status resp = 201%Z →
  ∃ tid j, resp_body resp = Some j ∧ jget "id" j = Some (JStr tid) ∧
           fastapi_app (http_get ["tasks"; tid] []) s' = (ok_response 200 j, s').
Proof.
  rewrite app_post_tasks. destruct (validate_TaskCreate (JObj fs)) as [c|errs]; [|by intros [= <- _]].
  cbn [h_create_task store_handlers]. rewrite finish_hanswer. simpl. destruct (create_task c (svc_now s) (svc_store s)) as [e|[t st']] eqn:Hc.
  - intros [= <- _]. by destruct e.
  - intros [= <- <-] _. exists (id t), (TaskOut_to_json t). split_and!; [done|done|].
    assert (id t = task_id_of (next_id (svc_store s))) as Hid.
    { revert Hc. unfold create_task. case_decide; [done|]. case_decide; [|done]. by intros [= <- _]. }
    rewrite app_get_task by (rewrite Hid; apply task_id_nonempty).
    simpl. by rewrite (create_task_get _ _ _ _ _ Hc).
Qed.

(** [DELETE /tasks/{id}] of a stored task is answered 204; then
    [GET] and a second [DELETE] of the same id are answered 404. *)
Theorem app_delete_task_twice (tid : string) (t : TaskOut) (s : svc) :
  store_wf (svc_store s) → dict_get tid (tasks (svc_store s)) = Some t → tid ≠ "" →
  let s' := snd (fastapi_app (http_delete ["tasks"; tid]) s) in
  status (fst (fastapi_app (http_delete ["tasks"; tid]) s)) = 204%Z ∧
  fastapi_app (http_get ["tasks"; tid] []) s' = (error_response 404 NotFoundError, s') ∧
  fastapi_app (http_delete ["tasks"; tid]) s' = (error_response 404 NotFoundError, s').
Proof.
  intros Hwf Ht Hne s'.
  destruct (delete_task tid (svc_store s)) as [e|[[] st']] eqn:Hd.
  { unfold delete_task in Hd. by rewrite Ht in Hd. }
  assert (fastapi_app (http_delete ["tasks"; tid]) s = (no_content, set_store s st')) as HD
    by (rewrite app_delete_task, Hd by done; done).
  destruct (delete_task_gone _ _ _ _ Hwf Hd) as [Hg Hd'].
  unfold s'. rewrite HD. simpl. rewrite app_get_task, app_delete_task by done. simpl. by rewrite Hg, Hd'.
Qed.

(** C14. [PUT /tasks/{id}] naming a list that does not exist is answered
    400 and changes nothing. *)
Theorem app_put_unknown_list (tid l : string) (t : TaskOut) (s : svc) :
  dict_get tid (tasks (svc_store s)) = Some t → tid ≠ "" → l ∉ lists (svc_store s) →
  fastapi_app (http_put ["tasks"; tid] (JObj [("list", JStr l)])) s = (error_response 400 ReferenceError, s).
Proof.
  intros Ht Hne Hl. rewrite (app_put_task _ _ (mkTaskUpdate None None None None None None None (Some l) ["list"]))
    by (done || reflexivity).
  by rewrite (update_task_unknown_list _ _ _ t l).
Qed.

(** C15. [PUT /tasks/{id}] with [{"recurrence_end_date": null}] is
    answered 200 with the task whose end date is cleared and every other
    field, the recurrence included, unchanged. *)
Theorem app_put_clear_end_date (tid : string) (t : TaskOut) (s : svc) :
  dict_get tid (tasks (svc_store s)) = Some t → tid ≠ "" →
  let b := out_base t in
  let t' := mkTaskOut (mkTaskBase (title b) (description b) (tags b) (due_date b) (recurrence b) None
                         (task_list b)) (id t) (completed t) (created_at t) in
  fastapi_app (http_put ["tasks"; tid] (JObj [("recurrence_end_date", JNull)])) s =
    (ok_response 200 (TaskOut_to_json t'), set_store s (with_tasks (svc_store s) (dict_set tid t' (tasks (svc_store s))))).
Proof.
  intros Ht Hne b t'.
  rewrite (app_put_task _ _ (mkTaskUpdate None None None None None None None None ["recurrence_end_date"]))
    by (done || reflexivity).
  by rewrite (update_task_existing _ _ _ t).
Qed.

(** No task of a well-formed store belongs to a list the store does not
    have. *)
Lemma list_in_use_absent n st : store_wf st → n ∉ lists st → list_in_use n st = false.
Proof.
  intros Hwf Hn. unfold list_in_use. apply not_true_iff_false. rewrite existsb_exists.
  intros (t & Hin%list_elem_of_In & Ht%bool_decide_eq_true).
  apply elem_of_dict_values in Hin as [k Hin].
  destruct (wf_tasks _ Hwf _ _ Hin) as (_ & _ & (l & Hl & Hli) & _). congruence.
Qed.

(** C16. The spec's end-to-end scenario, from any well-formed state
    without a list ["Projects"]: create the list (201), create a task in
    it (201), deleting the list is refused (400), delete the task (204),
    and now deleting the list succeeds (204). *)
Theorem app_projects_scenario (s0 : svc) :
  store_wf (svc_store s0) → "Projects" ∉ lists (svc_store s0) →
  let tid := task_id_of (next_id (svc_store s0)) in
  let '(r1, s1) := fastapi_app (http_post ["lists"] (JObj [("name", JStr "Projects")])) s0 in
  let '(r2, s2) := fastapi_app (http_post ["tasks"] (JObj [("title", JStr "T"); ("list", JStr "Projects")])) s1 in
  let '(r3, s3) := fastapi_app (http_delete ["lists"; "Projects"]) s2 in
  let '(r4, s4) := fastapi_app (http_delete ["tasks"; tid]) s3 in
  let '(r5, s5) := fastapi_app (http_delete ["lists"; "Projects"]) s4 in
  status r1 = 201%Z ∧ status r2 = 201%Z ∧ status r3 = 400%Z ∧ status r4 = 204%Z ∧ status r5 = 204%Z.
Proof.
  intros Hwf Hp tid. destruct s0 as [st now]; simpl in *.
  set (c := mkTaskBase "T" (Some "") [] None None None (Some "Projects")).
  set (t := mkTaskOut c tid false now).
  set (st1 := mkStore (tasks st) (lists st ++ ["Projects"])%list (next_id st)).
  set (st2 := mkStore (tasks st ++ [(tid, t)])%list (lists st1) (N.succ (next_id st))).
  assert (dict_get tid (tasks st) = None) as Hfresh by (apply fresh_task_id, Hwf).
  assert (fastapi_app (http_post ["lists"] (JObj [("name", JStr "Projects")])) (mkSvc st now) =
          (ok_response 201 (ListModel_to_json (mkListModel "Projects")), mkSvc st1 now)) as H1.
  { rewrite app_post_list. unfold create_list; simpl. by rewrite decide_False. }
  assert (fastapi_app (http_post ["tasks"] (JObj [("title", JStr "T"); ("list", JStr "Projects")])) (mkSvc st1 now) =
          (ok_response 201 (TaskOut_to_json t), mkSvc st2 now)) as H2.
  { rewrite (app_post_task _ c) by reflexivity. unfold create_task; simpl.
    rewrite decide_True by set_solver. simpl. by rewrite dict_set_fresh. }
  assert (list_in_use "Projects" st2 = true) as Hu.
  { unfold list_in_use, dict_values; simpl. rewrite map_app, existsb_app. simpl. by rewrite orb_true_r. }
  assert (fastapi_app (http_delete ["lists"; "Projects"]) (mkSvc st2 now) =
          (error_response 400 ValidationError, mkSvc st2 now)) as H3.
  { rewrite app_delete_list by done. cbn [svc_store]. unfold delete_list. rewrite decide_True by (simpl; set_solver).
    rewrite decide_False by done. by rewrite Hu. }
  set (st4 := mkStore (tasks st) (lists st1) (N.succ (next_id st))).
  assert (fastapi_app (http_delete ["tasks"; tid]) (mkSvc st2 now) = (no_content, mkSvc st4 now)) as H4.
  { rewrite app_delete_task by apply task_id_nonempty. unfold delete_task; simpl.
    rewrite dict_get_app_last by done. simpl. unfold with_tasks. simpl. by rewrite dict_del_fresh_app. }
  assert (fastapi_app (http_delete ["lists"; "Projects"]) (mkSvc st4 now) =
          (no_content, mkSvc (mkStore (tasks st) (filter (λ l, l ≠ "Projects") (lists st1)) (N.succ (next_id st))) now)) as H5.
  { rewrite app_delete_list by done. cbn [svc_store]. unfold delete_list. rewrite decide_True by (simpl; set_solver).
    rewrite decide_False by done.
    assert (list_in_use "Projects" st4 = false) as ->; [|done].
    unfold list_in_use. change (dict_values (tasks st4)) with (dict_values (tasks st)).
    apply (list_in_use_absent _ _ Hwf Hp). }
  rewrite H1, H2, H3, H4, H5. simpl. done.
Qed.

(** The query of [GET /tasks] as FastAPI parses it (lines 63-67). *)
Lemma list_tasks_query_ok (q : list (string * string)) :
  (∀ v, query_get "completed" q = Some v → is_Some (bool_of_string v)) →
  ∃ cf, list_tasks_query q = VOk (cf, query_get "tags" q, query_get "list" q) ∧
    ∀ b, cf = Some b ↔ ∃ v, query_get "completed" q = Some v ∧ bool_of_string v = Some b.
Proof.
  intros Hq. unfold list_tasks_query. destruct (query_get "completed" q) as [v|] eqn:E.
  - destruct (Hq v eq_refl) as [b Hb]. rewrite Hb. exists (Some b). split; [done|naive_solver].
  - exists None. split; [done|naive_solver].
Qed.

Lemma list_filter_sublist {A} (f : A → bool) (l : list A) : List.filter f l `sublist_of` l.
Proof. induction l as [|x l IH]; simpl; [done|]. destruct (f x); by constructor. Qed.

(** C18. [GET /tasks] with any query whose [completed] FastAPI can parse
    answers 200 with the JSON of the stored tasks, in store order, that
    meet every filter given: the parsed [completed] value, the [list]
    name, and for [tags] one of the task's tags among the stripped
    comma-separated values; the last value of a repeated parameter
    counts, and the state is unchanged. *)
Theorem app_list_tasks_filters (q : list (string * string)) (s : svc) :
  (∀ v, query_get "completed" q = Some v → is_Some (bool_of_string v)) →
  ∃ ts, fastapi_app (http_get ["tasks"] q) s = (ok_response 200 (JArr (map TaskOut_to_json ts)), s) ∧
    ts `sublist_of` dict_values (tasks (svc_store s)) ∧
    ∀ t, t ∈ dict_values (tasks (svc_store s)) →
      (t ∈ ts ↔
        (∀ v, query_get "completed" q = Some v → bool_of_string v = Some (completed t)) ∧
        (∀ l, query_get "list" q = Some l → task_list (out_base t) = Some l) ∧
        (∀ g, query_get "tags" q = Some g → ∃ x, x ∈ tags (out_base t) ∧ x ∈ map strip (py_split "," g))).
Proof.
  intros Hq. destruct (list_tasks_query_ok q Hq) as (cf & Hlq & Hcf).
  exists (list_tasks cf (query_get "tags" q) (query_get "list" q) (svc_store s)). split_and!.
  - unfold fastapi_app. cbn [route_request req_method req_path http_get req_query]. by rewrite Hlq.
  - apply list_filter_sublist.
  - intros t Ht. rewrite list_tasks_spec. split.
    + intros (_ & Hc & Hl & Htg). split_and!; [|exact Hl|exact Htg].
      intros v Hv. destruct (bool_of_string v) as [b|] eqn:Hb; [|destruct (Hq v Hv); congruence].
      rewrite (Hc b); [done|]. apply Hcf. by exists v.
    + intros (Hc & Hl & Htg). split_and!; [exact Ht| |exact Hl|exact Htg].
      intros b Hb. apply Hcf in Hb as (v & Hv & Hb). rewrite (Hc v Hv) in Hb. congruence.
Qed.

(** ** Witnesses: the theorems at concrete states *)

(** The state after [POST /tasks {"title": "Minimal Task"}] at start-up
    is well formed. *)
Lemma one_task_wf now :
  store_wf (svc_store (snd (fastapi_app (http_post ["tasks"] (JObj [("title", JStr "Minimal Task")])) (init_svc now)))).
Proof.
  destruct (app_step (http_post ["tasks"] (JObj [("title", JStr "Minimal Task")])) (init_svc now)) as [_ [->|Hs]];
    [apply init_store_wf|apply (step_wf _ _ init_store_wf Hs)].
Qed.

Lemma svc_reachable_wf_witness :
  let s := snd (fastapi_app (http_post ["tasks"] (JObj [("title", JStr "Minimal Task")])) (init_svc "t0")) in
  svc_reachable "t0" s ∧ store_wf (svc_store s).
Proof.
  intros s. assert (svc_reachable "t0" s) as Hr by (apply rtc_once; eexists; reflexivity).
  split; [exact Hr|]. apply (svc_reachable_wf "t0" s Hr).
Defined.

Lemma app_error_no_change_witness :
  let r := http_delete ["lists"; "Personal"] in
  (400 <= status (fst (fastapi_app r (init_svc "t0"))))%Z ∧ snd (fastapi_app r (init_svc "t0")) = init_svc "t0".
Proof.
  intros r. assert ((400 <= status (fst (fastapi_app r (init_svc "t0"))))%Z) as H by (vm_compute; congruence).
  split; [exact H|]. apply (app_error_no_change r _ H).
Defined.

Lemma app_delete_personal_witness :
  store_wf (svc_store (init_svc "t0")) ∧
  fastapi_app (http_delete ["lists"; "Personal"]) (init_svc "t0") = (error_response 400 ValidationError, init_svc "t0").
Proof. split; [apply init_store_wf|apply (app_delete_personal (init_svc "t0")), init_store_wf]. Defined.

Lemma app_create_defaults_witness :
  store_wf (svc_store (init_svc "t0")) ∧ "Minimal Task" ≠ "" ∧
  fastapi_app (http_post ["tasks"] (JObj [("title", JStr "Minimal Task")])) (init_svc "t0") =
    (ok_response 201 (TaskOut_to_json
       (mkTaskOut (mkTaskBase "Minimal Task" (Some "") [] None None None (Some "Personal")) "0" false "t0")),
     set_store (init_svc "t0")
       (mkStore [("0", mkTaskOut (mkTaskBase "Minimal Task" (Some "") [] None None None (Some "Personal")) "0" false "t0")]
          ["Personal"; "Work"] 1)).
Proof.
  assert ("Minimal Task" ≠ "") as Ht by done.
  split_and!; [apply init_store_wf|exact Ht|].
  exact (app_create_defaults "Minimal Task" (init_svc "t0") init_store_wf Ht).
Defined.

Lemma app_create_then_get_witness :
  ∃ resp s', fastapi_app (http_post ["tasks"] (JObj [("title", JStr "Minimal Task")])) (init_svc "t0") = (resp, s') ∧
    status resp = 201%Z ∧
    ∃ tid j, resp_body resp = Some j ∧ jget "id" j = Some (JStr tid) ∧
             fastapi_app (http_get ["tasks"; tid] []) s' = (ok_response 200 j, s').
Proof.
  do 2 eexists. split; [reflexivity|]. split; [reflexivity|].
  apply (app_create_then_get [("title", JStr "Minimal Task")] (init_svc "t0")); reflexivity.
Defined.

Lemma app_delete_task_twice_witness :
  let s := snd (fastapi_app (http_post ["tasks"] (JObj [("title", JStr "Minimal Task")])) (init_svc "t0")) in
  ∃ t, store_wf (svc_store s) ∧ dict_get "0" (tasks (svc_store s)) = Some t ∧ "0" ≠ "" ∧
    status (fst (fastapi_app (http_delete ["tasks"; "0"]) s)) = 204%Z ∧
    fastapi_app (http_get ["tasks"; "0"] []) (snd (fastapi_app (http_delete ["tasks"; "0"]) s)) =
      (error_response 404 NotFoundError, snd (fastapi_app (http_delete ["tasks"; "0"]) s)) ∧
    fastapi_app (http_delete ["tasks"; "0"]) (snd (fastapi_app (http_delete ["tasks"; "0"]) s)) =
      (error_response 404 NotFoundError, snd (fastapi_app (http_delete ["tasks"; "0"]) s)).
Proof.
  intros s. eexists.
  assert (dict_get "0" (tasks (svc_store s)) = Some _) as Ht by reflexivity.
  assert ("0" ≠ "") as Hne by done.
  pose proof (app_delete_task_twice "0" _ s (one_task_wf "t0") Ht Hne) as H.
  split_and!; [apply one_task_wf|exact Ht|exact Hne|apply H..].
Defined.

Lemma app_put_unknown_list_witness :
  let s := snd (fastapi_app (http_post ["tasks"] (JObj [("title", JStr "Minimal Task")])) (init_svc "t0")) in
  ∃ t, dict_get "0" (tasks (svc_store s)) = Some t ∧ "0" ≠ "" ∧ "NonExistent" ∉ lists (svc_store s) ∧
    fastapi_app (http_put ["tasks"; "0"] (JObj [("list", JStr "NonExistent")])) s = (error_response 400 ReferenceError, s).
Proof.
  intros s. eexists.
  assert (dict_get "0" (tasks (svc_store s)) = Some _) as Ht by reflexivity.
  assert ("NonExistent" ∉ lists (svc_store s)) as Hl by (vm_compute; set_solver).
  split_and!; [exact Ht|done|exact Hl|]. apply (app_put_unknown_list "0" "NonExistent" _ s Ht); done.
Defined.

Lemma app_put_clear_end_date_witness :
  let s := snd (fastapi_app (http_post ["tasks"] (JObj [("title", JStr "Minimal Task")])) (init_svc "t0")) in
  ∃ t, dict_get "0" (tasks (svc_store s)) = Some t ∧ "0" ≠ "" ∧
    fastapi_app (http_put ["tasks"; "0"] (JObj [("recurrence_end_date", JNull)])) s =
      (ok_response 200 (TaskOut_to_json
         (mkTaskOut (mkTaskBase (title (out_base t)) (description (out_base t)) (tags (out_base t))
                       (due_date (out_base t)) (recurrence (out_base t)) None (task_list (out_base t)))
                    (id t) (completed t) (created_at t))),
       set_store s (with_tasks (svc_store s) (dict_set "0"
         (mkTaskOut (mkTaskBase (title (out_base t)) (description (out_base t)) (tags (out_base t))
                       (due_date (out_base t)) (recurrence (out_base t)) None (task_list (out_base t)))
                    (id t) (completed t) (created_at t)) (tasks (svc_store s))))).
Proof.
  intros s. eexists.
  assert (dict_get "0" (tasks (svc_store s)) = Some _) as Ht by reflexivity.
  split_and!; [exact Ht|done|]. apply (app_put_clear_end_date "0" _ s Ht). done.
Defined.

Lemma app_projects_scenario_witness :
  store_wf (svc_store (init_svc "t0")) ∧ "Projects" ∉ lists (svc_store (init_svc "t0")) ∧
  let s0 := init_svc "t0" in
  let tid := task_id_of (next_id (svc_store s0)) in
  let '(r1, s1) := fastapi_app (http_post ["lists"] (JObj [("name", JStr "Projects")])) s0 in
  let '(r2, s2) := fastapi_app (http_post ["tasks"] (JObj [("title", JStr "T"); ("list", JStr "Projects")])) s1 in
  let '(r3, s3) := fastapi_app (http_delete ["lists"; "Projects"]) s2 in
  let '(r4, s4) := fastapi_app (http_delete ["tasks"; tid]) s3 in
  let '(r5, s5) := fastapi_app (http_delete ["lists"; "Projects"]) s4 in
  status r1 = 201%Z ∧ status r2 = 201%Z ∧ status r3 = 400%Z ∧ status r4 = 204%Z ∧ status r5 = 204%Z.
Proof.
  assert ("Projects" ∉ lists (svc_store (init_svc "t0"))) as Hp by (simpl; set_solver).
  split_and!; [apply init_store_wf|exact Hp|].
  exact (app_projects_scenario (init_svc "t0") init_store_wf Hp).
Defined.

Lemma app_list_tasks_filters_witness :
  let q := [("completed", "no"); ("tags", "home, work"); ("list", "Personal")] in
  (∀ v, query_get "completed" q = Some v → is_Some (bool_of_string v)) ∧
  ∃ ts, fastapi_app (http_get ["tasks"] q) (init_svc "t0") = (ok_response 200 (JArr (map TaskOut_to_json ts)), init_svc "t0") ∧
    ts `sublist_of` dict_values (tasks (svc_store (init_svc "t0"))) ∧
    ∀ t, t ∈ dict_values (tasks (svc_store (init_svc "t0"))) →
      (t ∈ ts ↔
        (∀ v, query_get "completed" q = Some v → bool_of_string v = Some (completed t)) ∧
        (∀ l, query_get "list" q = Some l → task_list (out_base t) = Some l) ∧
        (∀ g, query_get "tags" q = Some g → ∃ x, x ∈ tags (out_base t) ∧ x ∈ map strip (py_split "," g))).
Proof.
  intros q. assert (∀ v, query_get "completed" q = Some v → is_Some (bool_of_string v)) as H
    by (intros v Hv; vm_compute in Hv; injection Hv as <-; by eexists).
  split; [exact H|exact (app_list_tasks_filters q _ H)].
Defined.
