(* ===== verification/Abstract.v ===== *)
(** * An abstract specification of the task/list store, and its refinement

    What the API promises about its state, without the choices of the
    store of [Store.v]: tasks form a finite map from ids to tasks, lists a
    finite set of names, and each mutating request is one of five
    abstract steps ([astep]), with any fresh id for a new task.  The
    store keeps its tasks in an insertion-ordered dictionary and issues
    ids from a counter; [abs] forgets both.  The refinement theorem says
    that every request the service of [Service.v] answers, through the
    source's routing and validation, either leaves the abstract state
    unchanged or makes one abstract step; the invariant of the abstract
    specification then holds in every reachable service state. *)

From S2P Require Import Prelude Json Models Http Skeleton Store Service.
From stdpp Require Import gmap.

(** ** The specification *)

Record astate : Type := mkAState {
  a_tasks : gmap string TaskOut;
  a_lists : gset string
}.

(** A task the specification allows in a state: a non-empty title and
    a list that exists. *)
Definition a_task_ok (σ : astate) (t : TaskOut) : Prop :=
  title (out_base t) ≠ "" ∧ ∃ l, task_list (out_base t) = Some l ∧ l ∈ a_lists σ.

(** The five state changes of the API (spec §4, §5). *)
Inductive astep : astate → astate → Prop :=
| astep_create_task σ tid t :
    a_tasks σ !! tid = None → id t = tid → completed t = false → a_task_ok σ t →
    astep σ (mkAState (<[tid := t]> (a_tasks σ)) (a_lists σ))
| astep_update_task σ tid t t' :
    a_tasks σ !! tid = Some t → id t' = id t → created_at t' = created_at t → a_task_ok σ t' →
    astep σ (mkAState (<[tid := t']> (a_tasks σ)) (a_lists σ))
| astep_delete_task σ tid t :
    a_tasks σ !! tid = Some t →
    astep σ (mkAState (delete tid (a_tasks σ)) (a_lists σ))
| astep_create_list σ n :
    n ∉ a_lists σ → strip n ≠ "" →
    astep σ (mkAState (a_tasks σ) (a_lists σ ∪ {[n]}))
| astep_delete_list σ n :
    n ∈ a_lists σ → n ≠ "Personal" →
    (∀ tid t, a_tasks σ !! tid = Some t → task_list (out_base t) ≠ Some n) →
    astep σ (mkAState (a_tasks σ) (a_lists σ ∖ {[n]})).

(** The invariant of the specification: ["Personal"] exists, every task
    is stored under its id and is allowed. *)
Definition a_wf (σ : astate) : Prop :=
  "Personal" ∈ a_lists σ ∧ ∀ tid t, a_tasks σ !! tid = Some t → id t = tid ∧ a_task_ok σ t.

(** ** The abstraction of the store *)

Definition abs (st : store) : astate :=
  mkAState (list_to_map (tasks st)) (list_to_set (lists st)).

(** ** Dictionaries as finite maps *)

Section DictMap.
Context {V : Type}.
Implicit Types d : list (string * V).

Lemma dict_get_lookup d k : dict_get k d = (list_to_map d : gmap string V) !! k.
Proof.
  induction d as [|[k' v'] d IH]; [done|]. rewrite list_to_map_cons. cbn [dict_get]. case_decide as Hk.
  - subst. by rewrite lookup_insert_eq.
  - by rewrite lookup_insert_ne, IH by congruence.
Qed.

Lemma list_to_map_dict_set d k v :
  (list_to_map (dict_set k v d) : gmap string V) = <[k := v]> (list_to_map d).
Proof.
  apply map_eq. intros i. rewrite <- !dict_get_lookup.
  destruct (decide (i = k)) as [->|Hne].
  - by rewrite dict_get_set_eq, lookup_insert_eq.
  - by rewrite dict_get_set_ne, lookup_insert_ne, dict_get_lookup by congruence.
Qed.

Lemma list_to_map_dict_del d k :
  NoDup (dict_keys d) → (list_to_map (dict_del k d) : gmap string V) = delete k (list_to_map d).
Proof.
  intros Hnd. apply map_eq. intros i. rewrite <- !dict_get_lookup.
  destruct (decide (i = k)) as [->|Hne].
  - by rewrite dict_get_del_eq, lookup_delete_eq.
  - by rewrite dict_get_del_ne, lookup_delete_ne, dict_get_lookup by congruence.
Qed.
End DictMap.

Lemma list_to_set_filter_ne (ls : list string) (n : string) :
  list_to_set (filter (λ l, l ≠ n) ls) = (list_to_set ls ∖ {[n]} : gset string).
Proof. apply set_eq. intros x. rewrite elem_of_difference, !elem_of_list_to_set, list_elem_of_filter. set_solver. Qed.

Lemma list_to_set_snoc (ls : list string) (n : string) :
  list_to_set (ls ++ [n]) = (list_to_set ls ∪ {[n]} : gset string).
Proof. apply set_eq. intros x. rewrite elem_of_union, !elem_of_list_to_set, elem_of_app. set_solver. Qed.

Lemma abs_lookup st tid : a_tasks (abs st) !! tid = dict_get tid (tasks st).
Proof. by rewrite dict_get_lookup. Qed.

Lemma abs_task_ok st tid t : task_wf st tid t → a_task_ok (abs st) t.
Proof.
  intros (_ & Hti & (l & Hl & Hin) & _). split; [done|]. exists l. split; [done|].
  by apply elem_of_list_to_set.
Qed.

(** ** Each store step is an abstract step *)

Lemma step_refines st st' : store_wf st → step st st' → astep (abs st) (abs st').
Proof.
  intros Hwf Hs. destruct Hs as [c now ? t ? H|tid u ? t ? H|tid ? ? H|l ? l' ? H|n ? ? H].
  - revert H. unfold create_task. case_decide; [done|]. case_decide; [|done].
    intros [= <- <-]. unfold abs; simpl. rewrite list_to_map_dict_set.
    apply astep_create_task; simpl; [rewrite <- dict_get_lookup; by apply fresh_task_id|done|done|].
    split; [done|]. eexists. split; [done|]. by apply elem_of_list_to_set.
  - revert H. unfold update_task.
    destruct (dict_get tid (tasks st)) as [t0|] eqn:E; [|done].
    destruct (update_check u st) eqn:Hc; [done|]. intros [= <- <-].
    unfold abs, with_tasks; simpl. rewrite list_to_map_dict_set.
    eapply astep_update_task; [simpl; rewrite <- dict_get_lookup; exact E|done|done|].
    eapply (abs_task_ok _ tid), apply_update_wf, (wf_tasks _ Hwf); [done|].
    by apply dict_get_Some_elem.
  - revert H. unfold delete_task. destruct (dict_get tid (tasks st)) as [t0|] eqn:E; [|done].
    intros [= <-]. unfold abs, with_tasks; simpl. rewrite list_to_map_dict_del by apply Hwf.
    eapply astep_delete_task. simpl. rewrite <- dict_get_lookup. exact E.
  - revert H. unfold create_list. case_decide; [done|]. case_decide; [done|].
    intros [= <- <-]. unfold abs; simpl. rewrite list_to_set_snoc.
    apply astep_create_list; [simpl; by rewrite elem_of_list_to_set|done].
  - revert H. unfold delete_list. case_decide; [|done]. case_decide; [done|].
    destruct (list_in_use n st) eqn:Hu; [done|]. intros [= <-].
    unfold abs; simpl. rewrite list_to_set_filter_ne.
    apply astep_delete_list; [simpl; by rewrite elem_of_list_to_set|done|].
    intros tid t Ht. simpl in Ht. rewrite <- dict_get_lookup in Ht.
    eapply list_in_use_false; [exact Hu|]. by apply dict_get_Some_elem.
Qed.

(** ** The invariant of the specification *)

Lemma a_task_ok_mono σ σ' t : a_lists σ ⊆ a_lists σ' → a_task_ok σ t → a_task_ok σ' t.
Proof. intros Hs (Hti & l & Hl & Hin). split; [done|]. exists l. set_solver. Qed.

Lemma astep_wf σ σ' : a_wf σ → astep σ σ' → a_wf σ'.
Proof.
  intros [Hp Ht] Hs. destruct Hs as [σ tid t Hn Hid Hc Hok|σ tid t t' Hl Hid Hca Hok|σ tid t Hl|σ n Hn Hsp|σ n Hn Hnp Hu];
    split; simpl; try set_solver.
  - intros tid' t'' [[<- <-]|[_ H]]%lookup_insert_Some; [done|by apply Ht].
  - intros tid' t'' [[<- <-]|[_ H]]%lookup_insert_Some; [|by apply Ht].
    split; [by rewrite Hid; apply Ht|done].
  - intros tid' t'' [_ H]%lookup_delete_Some. by apply Ht.
  - intros tid' t'' H. destruct (Ht _ _ H) as [? Hok]. split; [done|]. eapply a_task_ok_mono; [|done]. simpl. set_solver.
  - intros tid' t'' H. destruct (Ht _ _ H) as [? (Hti & l & Hl & Hin)]. split; [done|].
    split; [done|]. exists l. split; [done|]. apply elem_of_difference. split; [done|].
    apply not_elem_of_singleton. intros ->. by apply (Hu tid' t'').
Qed.

Lemma abs_wf st : store_wf st → a_wf (abs st).
Proof.
  intros Hwf. split; [apply elem_of_list_to_set, Hwf|].
  intros tid t Ht. simpl in Ht. rewrite <- dict_get_lookup in Ht.
  apply dict_get_Some_elem, (wf_tasks _ Hwf) in Ht as Hw.
  split; [apply Hw|]. by eapply abs_task_ok.
Qed.

(** Every state the specification reaches from the start-up state
    satisfies its invariant. *)
Lemma areachable_wf σ : rtc astep (abs init_store) σ → a_wf σ.
Proof.
  intros Hr. cut (a_wf (abs init_store)); [|apply abs_wf, init_store_wf].
  induction Hr as [|x y z Hxy Hyz IH]; [done|]. intros Hx. by apply IH, (astep_wf x).
Qed.

(** ** The service refines the specification *)

(** C33. Every request the service answers, through the routing and
    validation of [api_skeleton.py], either leaves the abstract state
    unchanged or makes one step the specification allows. *)
Theorem service_refines_spec (r : request) (s : svc) :
  store_wf (svc_store s) →
  abs (svc_store (snd (fastapi_app r s))) = abs (svc_store s) ∨
  astep (abs (svc_store s)) (abs (svc_store (snd (fastapi_app r s)))).
Proof.
  intros Hwf. destruct (app_step r s) as [_ [->|Hs]]; [by left|right]. by apply step_refines.
Qed.

(** C34. Every state the service reaches from start-up by any sequence of
    HTTP requests is, abstracted, a state the specification reaches from
    start-up, so it satisfies the specification's invariant. *)
Theorem service_reachable_spec (now : string) (s : svc) :
  svc_reachable now s → rtc astep (abs init_store) (abs (svc_store s)) ∧ a_wf (abs (svc_store s)).
Proof.
  intros Hr. assert (rtc astep (abs init_store) (abs (svc_store s))) as Ha; [|split; [done|by apply areachable_wf]].
  cut (store_wf (svc_store (init_svc now)) ∧ rtc astep (abs init_store) (abs (svc_store (init_svc now))));
    [|split; [apply init_store_wf|done]].
  unfold svc_reachable in Hr. induction Hr as [|x y z [r <-] Hyz IH]; [naive_solver|].
  intros [Hx Hax]. apply IH. destruct (app_step r x) as [_ [->|Hs]]; [done|].
  split; [by apply (step_wf _ _ Hx)|]. eapply rtc_r; [exact Hax|by apply step_refines].
Qed.

(** Reads agree with the specification: [GET /tasks/{id}] answers
    the task the abstract map holds under the id, or 404. *)
Theorem get_task_refines (tid : string) (q : list (string * string)) (s : svc) :
  tid ≠ "" →
  fastapi_app (http_get ["tasks"; tid] q) s =
    match a_tasks (abs (svc_store s)) !! tid with
    | Some t => (ok_response 200 (TaskOut_to_json t), s)
    | None => (error_response 404 NotFoundError, s)
    end.
Proof.
  intros Htid. rewrite app_get_task by done. simpl. rewrite <- dict_get_lookup.
  unfold get_task. by destruct (dict_get tid (tasks (svc_store s))).
Qed.

(** ** Witnesses *)

Lemma service_refines_spec_witness :
  store_wf (svc_store (init_svc "2025-06-01T09:00:00")) ∧
  (abs (svc_store (snd (fastapi_app (http_post ["tasks"] (JObj [("title", JStr "Buy milk")]))
                         (init_svc "2025-06-01T09:00:00")))) = abs (svc_store (init_svc "2025-06-01T09:00:00")) ∨
   astep (abs (svc_store (init_svc "2025-06-01T09:00:00")))
         (abs (svc_store (snd (fastapi_app (http_post ["tasks"] (JObj [("title", JStr "Buy milk")]))
                                (init_svc "2025-06-01T09:00:00")))))).
Proof.
  split; [exact init_store_wf|]. exact (service_refines_spec _ (init_svc "2025-06-01T09:00:00") init_store_wf).
Defined.

Lemma service_reachable_spec_witness :
  let s := snd (fastapi_app (http_post ["tasks"] (JObj [("title", JStr "Buy milk")])) (init_svc "t0")) in
  svc_reachable "t0" s ∧ rtc astep (abs init_store) (abs (svc_store s)) ∧ a_wf (abs (svc_store s)).
Proof.
  intros s. assert (svc_reachable "t0" s) as Hr by (apply rtc_once; eexists; reflexivity).
  split; [exact Hr|]. exact (service_reachable_spec "t0" s Hr).
Defined.

Lemma get_task_refines_witness :
  let s := snd (fastapi_app (http_post ["tasks"] (JObj [("title", JStr "Buy milk")])) (init_svc "t0")) in
  "0" ≠ "" ∧
  fastapi_app (http_get ["tasks"; "0"] []) s =
    match a_tasks (abs (svc_store s)) !! "0" with
    | Some t => (ok_response 200 (TaskOut_to_json t), s)
    | None => (error_response 404 NotFoundError, s)
    end.
Proof.
  intros s. assert ("0" ≠ "") as H by discriminate.
  split; [exact H|exact (get_task_refines "0" [] s H)].
Defined.
