(* ===== verification/Cors.v ===== *)
(** * The CORS middleware of the two applications

    Both [api_skeleton.py] files wrap their application in Starlette's
    [CORSMiddleware] with [allow_origins=["*"]], [allow_credentials=True],
    [allow_methods=["*"]] and [allow_headers=["*"]] (lines 11-17 of
    [src/Reference_API/api_skeleton.py], 9-15 of
    [src/reference_API/api_skeleton.py]).  The middleware is a library
    the sources only configure; its behaviour is modelled from Starlette's
    [starlette/middleware/cors.py]: a request without an [Origin] header
    goes to the application untouched; a preflight ([OPTIONS] with
    [Access-Control-Request-Method]) is answered by the middleware alone;
    any other request goes to the application and its response gets the
    CORS headers.  Header names are compared lower-cased, as the ASGI
    server delivers them and as Starlette stores them.  A plain-text body
    (["OK"], ["Disallowed CORS ..."]) is not JSON: [resp_body] is [None].
    The [content-length] and [content-type] headers are not modelled, as
    elsewhere in the development. *)

From S2P Require Import Prelude Json Models Http Skeleton Store Service.
From Stdlib Require Import ZArith.

Local Open Scope client_scope.

(** ** Header names *)

(** Names are lower-cased with [Models.str_lower] ([str.lower]). *)

(** Starlette's [Headers.get(key)] on the request: the first value whose
    name is [key] up to case. *)
Fixpoint header_get (k : string) (hs : list (string * string)) : option string :=
  match hs with
  | [] => None
  | (k', v) :: hs' => if String.eqb (str_lower k') (str_lower k) then Some v else header_get k hs'
  end.

(** [MutableHeaders.__setitem__]: the first header of that name gets the
    value, the later ones are removed; a new name is appended. *)
Fixpoint set_header (k v : string) (hs : list (string * string)) : list (string * string) :=
  match hs with
  | [] => [(str_lower k, v)]
  | (k', v') :: hs' =>
      if String.eqb k' (str_lower k)
      then (str_lower k, v) :: List.filter (λ h, negb (String.eqb h.1 (str_lower k))) hs'
      else (k', v') :: set_header k v hs'
  end.

(** [httpx.Headers.get(key)] on the response: every value of that name
    joined with [", "], or [None]. *)
Definition resp_header_get (k : string) (hs : list (string * string)) : option string :=
  match List.filter (λ h, String.eqb (str_lower h.1) (str_lower k)) hs with
  | [] => None
  | vs => Some (py_join ", " (map snd vs))
  end.

(** [sorted(...)] of a list of distinct ASCII strings. *)
Fixpoint insert_sorted (x : string) (l : list string) : list string :=
  match l with
  | [] => [x]
  | y :: l' => if String.ltb y x then y :: insert_sorted x l' else x :: l
  end.
Definition str_sort (l : list string) : list string := fold_right insert_sorted [] l.

(** ** The middleware's configuration and derived tables *)

Record cors_config : Type := mkCorsConfig {
  allow_origins : list string;
  allow_methods : list string;
  allow_headers : list string;
  allow_credentials : bool;
  expose_headers : list string;
  max_age : Z
}.

(** [app.add_middleware(CORSMiddleware, ...)], lines 11-17; [expose_headers]
    and [max_age] keep their defaults [()] and [600]. *)
Definition app_cors : cors_config := mkCorsConfig ["*"] ["*"] ["*"] true [] 600.

(** Starlette's [ALL_METHODS] and [SAFELISTED_HEADERS]. *)
Definition ALL_METHODS : list string := ["DELETE"; "GET"; "HEAD"; "OPTIONS"; "PATCH"; "POST"; "PUT"].
Definition SAFELISTED_HEADERS : list string := ["Accept"; "Accept-Language"; "Content-Language"; "Content-Type"].

Section Config.
Variable cfg : cors_config.

Definition cors_methods : list string :=
  if bool_decide ("*" ∈ allow_methods cfg) then ALL_METHODS else allow_methods cfg.
Definition allow_all_origins : bool := bool_decide ("*" ∈ allow_origins cfg).
Definition allow_all_headers : bool := bool_decide ("*" ∈ allow_headers cfg).
Definition preflight_explicit_allow_origin : bool := negb allow_all_origins || allow_credentials cfg.

(** [sorted(SAFELISTED_HEADERS | set(allow_headers))] *)
Definition sorted_allow_headers : list string :=
  str_sort (remove_dups (SAFELISTED_HEADERS ++ allow_headers cfg)).

(** [self.simple_headers] *)
Definition simple_headers : list (string * string) :=
  (if allow_all_origins then [("Access-Control-Allow-Origin", "*")] else []) ++
  (if allow_credentials cfg then [("Access-Control-Allow-Credentials", "true")] else []) ++
  (match expose_headers cfg with
   | [] => []
   | es => [("Access-Control-Expose-Headers", py_join ", " es)]
   end).

(** [self.preflight_headers], a dict in insertion order. *)
Definition preflight_headers : list (string * string) :=
  (if preflight_explicit_allow_origin then [("Vary", "Origin")]
   else [("Access-Control-Allow-Origin", "*")]) ++
  [("Access-Control-Allow-Methods", py_join ", " cors_methods);
   ("Access-Control-Max-Age", pretty (max_age cfg))] ++
  (if negb allow_all_headers then [("Access-Control-Allow-Headers", py_join ", " sorted_allow_headers)]
   else []) ++
  (if allow_credentials cfg then [("Access-Control-Allow-Credentials", "true")] else []).

(** [is_allowed_origin] (no [allow_origin_regex]) *)
Definition is_allowed_origin (origin : string) : bool :=
  allow_all_origins || bool_decide (origin ∈ allow_origins cfg).

(** The requested headers a non-wildcard configuration refuses: the loop
    over [requested_headers.split(",")], lower-cased and stripped. *)
Definition headers_refused (requested : string) : bool :=
  existsb (λ h, negb (bool_decide (strip (str_lower h) ∈ map str_lower sorted_allow_headers)))
          (py_split "," requested).

(** [preflight_response(request_headers)] *)
Definition preflight_response (origin : string) (hs : list (string * string)) : response :=
  let requested_method := default "" (header_get "access-control-request-method" hs) in
  let requested_headers := header_get "access-control-request-headers" hs in
  let '(headers, f_origin) :=
    if is_allowed_origin origin
    then ((if preflight_explicit_allow_origin
           then dict_set "Access-Control-Allow-Origin" origin preflight_headers
           else preflight_headers), [])
    else (preflight_headers, ["origin"]) in
  let f_method := if bool_decide (requested_method ∈ cors_methods) then [] else ["method"] in
  let '(headers, f_headers) :=
    match requested_headers with
    | Some rh =>
        if allow_all_headers then (dict_set "Access-Control-Allow-Headers" rh headers, [])
        else (headers, if headers_refused rh then ["headers"] else [])
    | None => (headers, [])
    end in
  let failures := (f_origin ++ f_method ++ f_headers)%list in
  let raw := map (λ h, (str_lower h.1, h.2)) headers in
  match failures with
  | [] => mkResponse 200 raw None
  | _ => mkResponse 400 raw None
  end.

(** [allow_explicit_origin] with [add_vary_header("Origin")] (which reads
    the first [vary] header). *)
Definition allow_explicit_origin (origin : string) (hs : list (string * string)) : list (string * string) :=
  let hs := set_header "Access-Control-Allow-Origin" origin hs in
  match header_get "vary" hs with
  | Some v => set_header "vary" (v ++ ", Origin") hs
  | None => set_header "vary" "Origin" hs
  end.

(** The [send] wrapper of [simple_response]: the response's headers
    updated with [simple_headers], then the explicit origin where a
    cookie was sent or the origins are listed. *)
Definition simple_response (origin : string) (hs : list (string * string)) (resp : response) : response :=
  let headers := fold_left (λ acc h, set_header h.1 h.2 acc) simple_headers (resp_headers resp) in
  let has_cookie := bool_decide (is_Some (header_get "cookie" hs)) in
  let headers :=
    if allow_all_origins && has_cookie then allow_explicit_origin origin headers
    else if negb allow_all_origins && is_allowed_origin origin then allow_explicit_origin origin headers
    else headers in
  mkResponse (status resp) headers (resp_body resp).

(** [CORSMiddleware.__call__] around an application. *)
Definition cors_middleware {S} (app : request → S → response * S) (r : request) (s : S) : response * S :=
  match header_get "origin" (req_headers r) with
  | None => app r s
  | Some origin =>
      if bool_decide (req_method r = OPTIONS) && bool_decide (is_Some (header_get "access-control-request-method" (req_headers r)))
      then (preflight_response origin (req_headers r), s)
      else let '(resp, s') := app r s in (simple_response origin (req_headers r) resp, s')
  end.
End Config.

(** The applications as the two files build them: routes, then the CORS
    middleware. *)
Definition reference_app : request → unit → response * unit := cors_middleware app_cors skeleton_app.
Definition lower_reference_app : request → unit → response * unit := cors_middleware app_cors lower_skeleton_app.

(** An implementation behind the same routes and middleware. *)
Definition cors_server {S} `{!Handlers S} : Server S := cors_middleware app_cors fastapi_app.

(** ** The suite's CORS test (lines 502-511 of [src/testing/test_todo_api.py]) *)

Section CorsTest.
Context {S : Type} `{!Server S}.

Definition test_cors_headers : client S unit :=
  r <- send (mkRequest OPTIONS ["tasks"] [] [("Origin", "http://example.com"); ("Access-Control-Request-Method", "POST")] None) ;;
  assert (bool_decide ("access-control-allow-origin" ∈ map (λ h, str_lower h.1) (resp_headers r))) ;;
  assert (bool_decide (resp_header_get "access-control-allow-origin" (resp_headers r) = Some "*")).
End CorsTest.

(** ** Facts *)

(** The preflight headers of [app_cors], in the order Starlette builds them. *)
Definition app_preflight_headers (origin : string) : list (string * string) :=
  [("vary", "Origin");
   ("access-control-allow-methods", "DELETE, GET, HEAD, OPTIONS, PATCH, POST, PUT");
   ("access-control-max-age", "600");
   ("access-control-allow-credentials", "true");
   ("access-control-allow-origin", origin)].

(** The middleware either keeps the state or moves to the application's. *)
Lemma cors_state {S} cfg (app : request → S → response * S) r s :
  snd (cors_middleware cfg app r s) = s ∨ snd (cors_middleware cfg app r s) = snd (app r s).
Proof.
  unfold cors_middleware. destruct (header_get "origin" _); [|by right].
  destruct (_ && _); [by left|]. right. by destruct (app r s).
Qed.

(** ** Header lists *)

Lemma ascii_lower_idem c : ascii_lower (ascii_lower c) = ascii_lower c.
Proof. destruct c as [[] [] [] [] [] [] [] []]; reflexivity. Qed.

Lemma str_lower_idem x : str_lower (str_lower x) = str_lower x.
Proof. induction x as [|c x IH]; simpl; [done|]. by rewrite ascii_lower_idem, IH. Qed.

(** Header names as the ASGI server delivers them: lower case. *)
Definition lower_names (hs : list (string * string)) : Prop := Forall (λ h, str_lower h.1 = h.1) hs.

Lemma header_get_drop k k' hs :
  String.eqb (str_lower k') (str_lower k) = false →
  header_get k (List.filter (λ h, negb (String.eqb h.1 (str_lower k'))) hs) = header_get k hs.
Proof.
  intros Hk. induction hs as [|[k1 v1] hs IH]; simpl; [done|].
  destruct (String.eqb k1 (str_lower k')) eqn:E; simpl; [|by rewrite IH].
  apply String.eqb_eq in E as ->. by rewrite str_lower_idem, Hk, IH.
Qed.

(** [MutableHeaders.__setitem__] then [Headers.get]. *)
Lemma header_get_set_header k k' v hs :
  lower_names hs →
  header_get k (set_header k' v hs) =
    if String.eqb (str_lower k') (str_lower k) then Some v else header_get k hs.
Proof.
  intros Hl. induction hs as [|[k1 v1] hs IH]; simpl.
  - by rewrite str_lower_idem.
  - apply Forall_cons in Hl as [Hk1 Hl]. simpl in Hk1.
    destruct (String.eqb k1 (str_lower k')) eqn:E; simpl.
    + apply String.eqb_eq in E as ->. rewrite str_lower_idem.
      destruct (String.eqb (str_lower k') (str_lower k)) eqn:E'; [done|]. by rewrite header_get_drop.
    + rewrite IH by done. destruct (String.eqb (str_lower k1) (str_lower k)) eqn:E1; [|done].
      apply String.eqb_eq in E1. rewrite Hk1 in E1. subst k1.
      destruct (String.eqb (str_lower k') (str_lower k)) eqn:E2; [|done].
      apply String.eqb_eq in E2. rewrite E2, String.eqb_refl in E. discriminate.
Qed.

Lemma set_header_lower k v hs : lower_names hs → lower_names (set_header k v hs).
Proof.
  intros Hl. induction hs as [|[k1 v1] hs IH]; simpl.
  - constructor; [apply str_lower_idem|constructor].
  - apply Forall_cons in Hl as [Hk1 Hl]. destruct (String.eqb k1 (str_lower k)).
    + constructor; [apply str_lower_idem|]. apply List.Forall_forall. intros x Hx.
      apply List.filter_In in Hx as [Hx _]. exact (proj1 (List.Forall_forall _ _) Hl x Hx).
    + constructor; [done|by apply IH].
Qed.

(** One request to the service behind the middleware. *)
Definition cors_step (s s' : svc) : Prop := ∃ r, snd (cors_middleware app_cors fastapi_app r s) = s'.

(** Under the applications' configuration, a preflight request with an
    [Origin] and a method Starlette knows, and no requested headers, is
    answered by the middleware itself with 200, whatever the application
    behind it: the allowed origin is echoed back (not ["*"]), because
    [allow_credentials=True]; the state is untouched. *)
Theorem cors_preflight {S} (app : request → S → response * S) (r : request) (s : S) (o m : string) :
  req_method r = OPTIONS →
  header_get "origin" (req_headers r) = Some o →
  header_get "access-control-request-method" (req_headers r) = Some m →
  header_get "access-control-request-headers" (req_headers r) = None →
  m ∈ ALL_METHODS →
  cors_middleware app_cors app r s = (mkResponse 200 (app_preflight_headers o) None, s).
Proof.
  intros Hm Ho Hrm Hrh Hin. unfold cors_middleware. rewrite Ho, Hm, Hrm.
  cbn [bool_decide decide_rel]. rewrite bool_decide_eq_true_2 by done. simpl andb.
  unfold preflight_response. rewrite Hrm, Hrh. cbn [default].
  replace (cors_methods app_cors) with ALL_METHODS by reflexivity.
  rewrite (bool_decide_eq_true_2 (m ∈ ALL_METHODS)) by done.
  reflexivity.
Qed.

(** C20. The suite's [test_cors_headers] fails against every implementation
    behind the applications' routes and middleware: its preflight gets
    [access-control-allow-origin: http://example.com], not ["*"]; the
    request changes nothing. *)
Theorem test_cors_headers_fails {S} `{!Handlers S} (s : S) :
  @test_cors_headers S cors_server s = (Raised AssertionError, s).
Proof. vm_compute. reflexivity. Qed.

(** C21. What the middleware does with each kind of request, under the
    applications' configuration and whatever the application: a request
    without [Origin] goes to the application untouched; a preflight
    ([OPTIONS] with [Access-Control-Request-Method]) never reaches it:
    the answer is the same for every application and the state is kept;
    any other request with [Origin] gets the application's status, body
    and next state, with [access-control-allow-origin] ["*"] (the origin
    itself when a cookie is sent) and [access-control-allow-credentials]
    ["true"] set and every other header of the application kept. *)
Theorem cors_transparent {S} (app : request → S → response * S) (r : request) (s : S) :
  (header_get "origin" (req_headers r) = None → cors_middleware app_cors app r s = app r s) ∧
  (∀ o, header_get "origin" (req_headers r) = Some o →
    (req_method r = OPTIONS → is_Some (header_get "access-control-request-method" (req_headers r)) →
       snd (cors_middleware app_cors app r s) = s ∧
       ∀ app' : request → S → response * S, cors_middleware app_cors app' r s = cors_middleware app_cors app r s) ∧
    ((req_method r = OPTIONS → header_get "access-control-request-method" (req_headers r) = None) →
       lower_names (resp_headers (fst (app r s))) →
       status (fst (cors_middleware app_cors app r s)) = status (fst (app r s)) ∧
       resp_body (fst (cors_middleware app_cors app r s)) = resp_body (fst (app r s)) ∧
       snd (cors_middleware app_cors app r s) = snd (app r s) ∧
       header_get "access-control-allow-origin" (resp_headers (fst (cors_middleware app_cors app r s))) =
         Some (if bool_decide (is_Some (header_get "cookie" (req_headers r))) then o else "*") ∧
       header_get "access-control-allow-credentials" (resp_headers (fst (cors_middleware app_cors app r s))) =
         Some "true" ∧
       ∀ k, str_lower k ∉ ["access-control-allow-origin"; "access-control-allow-credentials"; "vary"] →
         header_get k (resp_headers (fst (cors_middleware app_cors app r s))) =
           header_get k (resp_headers (fst (app r s))))).
Proof.
  unfold cors_middleware. split; [by intros ->|]. intros o Ho. rewrite Ho. split.
  - intros Hm [v Hv]. rewrite Hm, Hv. simpl. by split.
  - intros Hpre. replace (bool_decide (req_method r = OPTIONS) &&
      bool_decide (is_Some (header_get "access-control-request-method" (req_headers r)))) with false
      by (destruct (decide (req_method r = OPTIONS)) as [Hm|Hm];
          [rewrite (Hpre Hm), bool_decide_eq_true_2 by done|rewrite bool_decide_eq_false_2 by done]; done).
    destruct (app r s) as [[st hs b] s']. simpl. intros Hl.
    unfold simple_response. simpl.
    pose proof (set_header_lower "Access-Control-Allow-Credentials" "true" _
                  (set_header_lower "Access-Control-Allow-Origin" "*" _ Hl)) as Hl2.
    split_and!; [done|done|done| | |].
    + destruct (bool_decide _); simpl; unfold allow_explicit_origin;
        [destruct (header_get "vary" _); rewrite header_get_set_header by (by apply set_header_lower)|];
        rewrite !header_get_set_header by (done || by apply set_header_lower); reflexivity.
    + destruct (bool_decide _); simpl; unfold allow_explicit_origin;
        [destruct (header_get "vary" _); rewrite header_get_set_header by (by apply set_header_lower)|];
        rewrite !header_get_set_header by (done || by apply set_header_lower); reflexivity.
    + intros k Hk.
      assert (∀ n, n ∈ ["access-control-allow-origin"; "access-control-allow-credentials"; "vary"] →
                String.eqb n (str_lower k) = false) as Hne
        by (intros n Hn; apply String.eqb_neq; intros ->; done).
      destruct (bool_decide _); simpl; unfold allow_explicit_origin;
        [destruct (header_get "vary" _); rewrite header_get_set_header by (by apply set_header_lower)|];
        rewrite !header_get_set_header by (done || by apply set_header_lower);
        cbn [str_lower ascii_lower]; rewrite ?Hne by set_solver; reflexivity.
Qed.

(** The middleware adds no behaviour to the service's state: every
    state the service reaches through [CORSMiddleware] from start-up is
    one the bare application reaches, so the service's invariant and its
    refinement of the specification carry over. *)
Theorem cors_reachable_refines (now : string) (s : svc) :
  rtc cors_step (init_svc now) s → svc_reachable now s.
Proof.
  unfold svc_reachable. revert s. generalize (init_svc now) as s0. intros s0 s.
  induction 1 as [|x y z [r <-] _ IH]; [done|].
  destruct (cors_state app_cors fastapi_app r x) as [Hs|Hs]; rewrite Hs in IH; [done|].
  apply (rtc_l _ _ (snd (fastapi_app r x))); [by exists r|exact IH].
Qed.

(** ** Witnesses *)

Lemma cors_transparent_witness :
  let r := mkRequest GET ["lists"] [] [("Origin", "http://example.com")] None in
  header_get "origin" (req_headers r) = Some "http://example.com" ∧
  (req_method r = OPTIONS → header_get "access-control-request-method" (req_headers r) = None) ∧
  lower_names (resp_headers (fst (skeleton_app r tt))) ∧
  header_get "access-control-allow-origin" (resp_headers (fst (cors_middleware app_cors skeleton_app r tt))) =
    Some "*".
Proof.
  intros r. destruct (cors_transparent skeleton_app r tt) as [_ H].
  assert (header_get "origin" (req_headers r) = Some "http://example.com") as Ho by reflexivity.
  assert (req_method r = OPTIONS → header_get "access-control-request-method" (req_headers r) = None) as Hm
    by (intros E; discriminate E).
  assert (lower_names (resp_headers (fst (skeleton_app r tt)))) as Hl by constructor.
  destruct (H _ Ho) as [_ H2]. destruct (H2 Hm Hl) as (_ & _ & _ & Ha & _).
  split_and!; [exact Ho|exact Hm|exact Hl|exact Ha].
Defined.
