(* ===== verification/Suite.v ===== *)
(** * The main test suite [src/testing/test_todo_api.py]

    Each test function is a client program over any [Server]: the
    requests it sends, and its assertions as checks that raise
    [AssertionError].  [uuid.uuid4()] and the dates computed from
    [datetime.now()] are parameters of the tests.  [run_test] catches
    every exception, so a test's outcome is pass or fail; [main] runs
    [cleanup] and then every test in the order of lines 613-638 on one
    server, whose state carries over from test to test. *)

From S2P Require Import Prelude Json Models Http.
From Stdlib Require Import ZArith.

Local Open Scope client_scope.

(** ** Python helpers used by the tests *)

(** [str(x)] as an f-string renders it (for ids put in URLs). *)
Definition py_str (x : json) : string :=
  match x with
  | JStr s => s
  | JBool true => "True"
  | JBool false => "False"
  | JNull => "None"
  | JNum z => pretty z
  | _ => ""
  end.

(** Truthiness ([if task["tags"]]). *)
Definition py_truthy (x : json) : bool :=
  match x with
  | JNull => false
  | JBool b => b
  | JNum z => negb (Z.eqb z 0)
  | JStr s => negb (String.eqb s "")
  | JArr xs => negb (Nat.eqb (List.length xs) 0)
  | JObj fs => negb (Nat.eqb (List.length fs) 0)
  end.

(** [set(a) == set(b)] on lists of strings ([TypeError] otherwise, e.g.
    for unhashable elements). *)
Definition jstrs (x : json) : option (list string) :=
  match x with JArr xs => v_strs xs | _ => None end.

Definition set_eq (a b : list string) : bool :=
  bool_decide (a ⊆ b ∧ b ⊆ a).

(** [s.capitalize()] *)
Definition ascii_upper (c : ascii) : ascii :=
  let n := nat_of_ascii c in
  if ((97 <=? n) && (n <=? 122))%nat then ascii_of_nat (n - 32) else c.

Definition py_capitalize (s : string) : string :=
  match s with
  | EmptyString => EmptyString
  | String c r => String (ascii_upper c) (str_lower r)
  end.

(** [tomorrow.split("T")[0]] *)
Definition date_part (dt : string) : string := default "" (head (py_split "T" dt)).

Section Tests.
Context {S : Type} `{!Server S}.
Local Abbreviation client := (client S).

(** [assert r.status_code == code] *)
Definition expect_status (r : response) (code : Z) : client unit :=
  assert (Z.eqb (status r) code).

(** [assert data[k] == v] *)
Definition expect_eq (data : json) (k : string) (v : json) : client unit :=
  x <- sub k data ;; assert (py_eq x v).

(** [assert isinstance(data[k], str)] *)
Definition expect_str (data : json) (k : string) : client unit :=
  x <- sub k data ;; assert (is_str x).

(** [x["title"] == t] as a boolean inside a generator. *)
Definition title_is (t : string) (task : json) : client bool :=
  x <- sub "title" task ;; cret (py_eq x (JStr t)).

(** [httpx.post(f"{BASE_URL}/tasks", json=payload)] *)
Definition post_task (payload : list (string * json)) : client response :=
  send (http_post ["tasks"] (JObj payload)).

(** [task_id = r.json()["id"]] *)
Definition response_id (r : response) : client json :=
  data <- rjson r ;; sub "id" data.

(** *** TaskTests (lines 44-405) *)

(** Lines 46-57: create a task with only a title; returns its id. *)
Definition test_create_minimal_task : client json :=
  r <- post_task [("title", JStr "Minimal Task")] ;;
  expect_status r 201 ;;
  data <- rjson r ;;
  expect_eq data "title" (JStr "Minimal Task") ;;
  expect_eq data "list" (JStr "Personal") ;;
  x <- sub "completed" data ;; assert (is_false x) ;;
  expect_str data "id" ;;
  expect_str data "created_at" ;;
  sub "id" data.

(** Lines 60-90: create a task with every field. *)
Definition test_create_full_task (tomorrow end_date : string) : client json :=
  r <- post_task [("title", JStr "Full Task");
                  ("description", JStr "This is a detailed description");
                  ("tags", JArr [JStr "important"; JStr "work"; JStr "project"]);
                  ("due_date", JStr tomorrow);
                  ("recurrence", JStr "weekly");
                  ("recurrence_end_date", JStr end_date);
                  ("list", JStr "Work")] ;;
  expect_status r 201 ;;
  data <- rjson r ;;
  expect_eq data "title" (JStr "Full Task") ;;
  expect_eq data "description" (JStr "This is a detailed description") ;;
  tg <- sub "tags" data ;;
  tgs <- lift TypeError (jstrs tg) ;;
  assert (set_eq tgs ["important"; "work"; "project"]) ;;
  dd <- sub "due_date" data ;;
  dds <- lift AttributeError (v_str dd) ;;
  assert (startswith dds (date_part tomorrow)) ;;
  expect_eq data "recurrence" (JStr "weekly") ;;
  expect_eq data "recurrence_end_date" (JStr end_date) ;;
  expect_eq data "list" (JStr "Work") ;;
  x <- sub "completed" data ;; assert (is_false x) ;;
  expect_str data "id" ;;
  expect_str data "created_at" ;;
  sub "id" data.

(** Lines 93-105: a missing title and a bad recurrence are 422, an
    unknown list is 400. *)
Definition test_create_task_validation : client unit :=
  r <- post_task [("description", JStr "No title")] ;;
  expect_status r 422 ;;
  r <- post_task [("title", JStr "Invalid Recurrence"); ("recurrence", JStr "yearly")] ;;
  expect_status r 422 ;;
  r <- post_task [("title", JStr "Invalid List"); ("list", JStr "NonExistent")] ;;
  expect_status r 400.

(** Lines 108-122 ([u] is [uuid.uuid4()]). *)
Definition test_get_task_by_id (u : string) : client unit :=
  task_id <- test_create_minimal_task ;;
  r <- send (http_get (url_path "tasks" (py_str task_id)) []) ;;
  expect_status r 200 ;;
  data <- rjson r ;;
  x <- sub "id" data ;; assert (py_eq x task_id) ;;
  expect_eq data "title" (JStr "Minimal Task") ;;
  r <- send (http_get ["tasks"; u] []) ;;
  expect_status r 404.

(** Lines 125-154. *)
Definition test_update_task (u : string) : client unit :=
  task_id <- test_create_minimal_task ;;
  r <- send (http_put (url_path "tasks" (py_str task_id))
               (JObj [("title", JStr "Updated Title"); ("description", JStr "New description")])) ;;
  expect_status r 200 ;;
  data <- rjson r ;;
  expect_eq data "title" (JStr "Updated Title") ;;
  expect_eq data "description" (JStr "New description") ;;
  r <- send (http_put (url_path "tasks" (py_str task_id)) (JObj [("completed", JBool true)])) ;;
  expect_status r 200 ;;
  data <- rjson r ;; x <- sub "completed" data ;; assert (is_true x) ;;
  r <- send (http_put (url_path "tasks" (py_str task_id)) (JObj [("list", JStr "NonExistent")])) ;;
  expect_status r 400 ;;
  r <- send (http_put ["tasks"; u] (JObj [("title", JStr "Won't Work")])) ;;
  expect_status r 404.

(** Lines 157-172. *)
Definition test_delete_task : client unit :=
  task_id <- test_create_minimal_task ;;
  r <- send (http_delete (url_path "tasks" (py_str task_id))) ;;
  expect_status r 204 ;;
  r <- send (http_get (url_path "tasks" (py_str task_id)) []) ;;
  expect_status r 404 ;;
  r <- send (http_delete (url_path "tasks" (py_str task_id))) ;;
  expect_status r 404.

(** Lines 175-188. *)
Definition test_list_tasks_no_filters : client unit :=
  post_task [("title", JStr "Task One")] ;;
  post_task [("title", JStr "Task Two")] ;;
  r <- send (http_get ["tasks"] []) ;;
  expect_status r 200 ;;
  data <- rjson r ;;
  assert (is_list data) ;;
  xs <- elems data ;;
  assert (2 <=? List.length xs)%nat ;;
  b <- call (cin (JStr "id")) xs ;; assert b ;;
  b <- call (cin (JStr "title")) xs ;; assert b.

(** [httpx.get(f"{BASE_URL}/tasks", params=...)] then [r.json()] *)
Definition get_tasks (params : list (string * string)) : client (response * json) :=
  r <- send (http_get ["tasks"] params) ;; data <- rjson r ;; cret (r, data).

(** [all(task[k] is True for task in data)] and its variants. *)
Definition field_is (k : string) (p : json → bool) (task : json) : client bool :=
  x <- sub k task ;; cret (p x).

(** [v in task[k]] *)
Definition field_has (k : string) (v : string) (task : json) : client bool :=
  x <- sub k task ;; cin (JStr v) x.

(** [f(task) and g(task)], left to right, stopping at the first false. *)
Definition cand (f g : json → client bool) (task : json) : client bool :=
  b <- f task ;; if b then g task else cret false.

(** Lines 191-212. *)
Definition test_filter_tasks_by_completion : client unit :=
  r1 <- post_task [("title", JStr "Completed Task")] ;;
  completed_id <- response_id r1 ;;
  send (http_put (url_path "tasks" (py_str completed_id)) (JObj [("completed", JBool true)])) ;;
  post_task [("title", JStr "Not Completed Task")] ;;
  '(r, data) <- get_tasks [("completed", "true")] ;;
  expect_status r 200 ;;
  xs <- elems data ;;
  b <- call (field_is "completed" is_true) xs ;; assert b ;;
  b <- cany (title_is "Completed Task") xs ;; assert b ;;
  '(r, data) <- get_tasks [("completed", "false")] ;;
  expect_status r 200 ;;
  xs <- elems data ;;
  b <- call (field_is "completed" is_false) xs ;; assert b ;;
  b <- cany (title_is "Not Completed Task") xs ;; assert b.

(** Lines 215-233. *)
Definition test_filter_tasks_by_list : client unit :=
  post_task [("title", JStr "Personal Task"); ("list", JStr "Personal")] ;;
  post_task [("title", JStr "Work Task"); ("list", JStr "Work")] ;;
  '(r, data) <- get_tasks [("list", "Personal")] ;;
  expect_status r 200 ;;
  xs <- elems data ;;
  b <- call (field_is "list" (py_eq (JStr "Personal"))) xs ;; assert b ;;
  b <- cany (title_is "Personal Task") xs ;; assert b ;;
  '(r, data) <- get_tasks [("list", "Work")] ;;
  expect_status r 200 ;;
  xs <- elems data ;;
  b <- call (field_is "list" (py_eq (JStr "Work"))) xs ;; assert b ;;
  b <- cany (title_is "Work Task") xs ;; assert b.

(** The generator of line 247: [if "tags" in task and task["tags"]]. *)
Definition has_tags (task : json) : client bool :=
  b <- cin (JStr "tags") task ;;
  if b then x <- sub "tags" task ;; cret (py_truthy x) else cret false.

Fixpoint cfilter (p : json → client bool) (xs : list json) : client (list json) :=
  match xs with
  | [] => cret []
  | x :: xs' => b <- p x ;; ys <- cfilter p xs' ;; cret (if b then x :: ys else ys)
  end.

(** Lines 236-264. *)
Definition test_filter_tasks_by_tags : client unit :=
  post_task [("title", JStr "Project Task"); ("tags", JArr [JStr "project"; JStr "important"])] ;;
  post_task [("title", JStr "Meeting Task"); ("tags", JArr [JStr "meeting"; JStr "important"])] ;;
  post_task [("title", JStr "No Tags Task")] ;;
  '(r, data) <- get_tasks [("tags", "project")] ;;
  expect_status r 200 ;;
  xs <- elems data ;;
  tagged <- cfilter has_tags xs ;;
  b <- call (field_has "tags" "project") tagged ;; assert b ;;
  b <- cany (title_is "Project Task") xs ;; assert b ;;
  b <- cany (title_is "Meeting Task") xs ;; assert (negb b) ;;
  '(r, data) <- get_tasks [("tags", "project,meeting")] ;;
  expect_status r 200 ;;
  xs <- elems data ;;
  b <- cany (title_is "Project Task") xs ;; assert b ;;
  b <- cany (title_is "Meeting Task") xs ;; assert b ;;
  b <- cany (title_is "No Tags Task") xs ;; assert (negb b) ;;
  '(r, data) <- get_tasks [("tags", "project, important")] ;;
  expect_status r 200 ;;
  xs <- elems data ;;
  b <- cany (title_is "Project Task") xs ;; assert b.

(** Lines 267-318. *)
Definition test_combined_filters : client unit :=
  post_task [("title", JStr "Important Work Meeting");
             ("tags", JArr [JStr "meeting"; JStr "important"]); ("list", JStr "Work")] ;;
  r1 <- post_task [("title", JStr "Completed Personal Task");
                   ("tags", JArr [JStr "important"]); ("list", JStr "Personal")] ;;
  completed_id <- response_id r1 ;;
  send (http_put (url_path "tasks" (py_str completed_id)) (JObj [("completed", JBool true)])) ;;
  '(r, data) <- get_tasks [("list", "Work"); ("tags", "meeting")] ;;
  expect_status r 200 ;;
  xs <- elems data ;;
  b <- call (cand (field_is "list" (py_eq (JStr "Work"))) (field_has "tags" "meeting")) xs ;;
  assert b ;;
  b <- cany (title_is "Important Work Meeting") xs ;; assert b ;;
  '(r, data) <- get_tasks [("list", "Personal"); ("completed", "true")] ;;
  expect_status r 200 ;;
  xs <- elems data ;;
  b <- call (cand (field_is "list" (py_eq (JStr "Personal"))) (field_is "completed" is_true)) xs ;;
  assert b ;;
  b <- cany (title_is "Completed Personal Task") xs ;; assert b ;;
  '(r, data) <- get_tasks [("tags", "important"); ("completed", "true")] ;;
  expect_status r 200 ;;
  xs <- elems data ;;
  b <- call (cand (field_has "tags" "important") (field_is "completed" is_true)) xs ;;
  assert b ;;
  '(r, data) <- get_tasks [("list", "Personal"); ("tags", "important"); ("completed", "true")] ;;
  expect_status r 200 ;;
  xs <- elems data ;;
  b <- call (cand (field_is "list" (py_eq (JStr "Personal")))
               (cand (field_has "tags" "important") (field_is "completed" is_true))) xs ;;
  assert b ;;
  b <- cany (title_is "Completed Personal Task") xs ;; assert b.

(** [for x in xs: f(x)] *)
Fixpoint cfor {A} (xs : list A) (f : A → client unit) : client unit :=
  match xs with
  | [] => cret tt
  | x :: xs' => f x ;; cfor xs' f
  end.

(** Lines 321-349: each recurrence value survives creation and reading. *)
Definition test_recurrence_fields (tomorrow end_date : string) : client unit :=
  cfor ["daily"; "weekly"; "monthly"] (λ rec_type,
    r <- post_task [("title", JStr (py_capitalize rec_type ++ " Recurring Task"));
                    ("recurrence", JStr rec_type);
                    ("recurrence_end_date", JStr end_date);
                    ("due_date", JStr tomorrow)] ;;
    expect_status r 201 ;;
    data <- rjson r ;;
    expect_eq data "recurrence" (JStr rec_type) ;;
    expect_eq data "recurrence_end_date" (JStr end_date) ;;
    dd <- sub "due_date" data ;;
    dds <- lift AttributeError (v_str dd) ;;
    assert (startswith dds (date_part tomorrow)) ;;
    task_id <- sub "id" data ;;
    r <- send (http_get (url_path "tasks" (py_str task_id)) []) ;;
    expect_status r 200 ;;
    data <- rjson r ;;
    expect_eq data "recurrence" (JStr rec_type) ;;
    expect_eq data "recurrence_end_date" (JStr end_date)).

(** Lines 352-405: add, change, clear and restore recurrence fields. *)
Definition test_update_recurrence_fields (tomorrow end_date new_end_date : string) : client unit :=
  r <- post_task [("title", JStr "Regular Task")] ;;
  expect_status r 201 ;;
  task_id <- response_id r ;;
  r <- send (http_put (url_path "tasks" (py_str task_id))
               (JObj [("recurrence", JStr "weekly"); ("recurrence_end_date", JStr end_date);
                      ("due_date", JStr tomorrow)])) ;;
  expect_status r 200 ;;
  data <- rjson r ;;
  expect_eq data "recurrence" (JStr "weekly") ;;
  expect_eq data "recurrence_end_date" (JStr end_date) ;;
  r <- send (http_put (url_path "tasks" (py_str task_id)) (JObj [("recurrence", JStr "monthly")])) ;;
  expect_status r 200 ;;
  data <- rjson r ;;
  expect_eq data "recurrence" (JStr "monthly") ;;
  expect_eq data "recurrence_end_date" (JStr end_date) ;;
  r <- send (http_put (url_path "tasks" (py_str task_id)) (JObj [("recurrence_end_date", JNull)])) ;;
  expect_status r 200 ;;
  data <- rjson r ;;
  expect_eq data "recurrence" (JStr "monthly") ;;
  x <- sub "recurrence_end_date" data ;; assert (is_none x) ;;
  r <- send (http_put (url_path "tasks" (py_str task_id)) (JObj [("recurrence_end_date", JStr new_end_date)])) ;;
  expect_status r 200 ;;
  data <- rjson r ;;
  expect_eq data "recurrence_end_date" (JStr new_end_date) ;;
  r <- send (http_put (url_path "tasks" (py_str task_id)) (JObj [("recurrence", JNull)])) ;;
  expect_status r 200 ;;
  data <- rjson r ;;
  x <- sub "recurrence" data ;; assert (is_none x).

(** *** ListTests (lines 410-496) *)

(** [[list_obj["name"] for list_obj in r.json()]] *)
Fixpoint cmap (f : json → client json) (xs : list json) : client (list json) :=
  match xs with
  | [] => cret []
  | x :: xs' => y <- f x ;; ys <- cmap f xs' ;; cret (y :: ys)
  end.

Definition list_names (r : response) : client (list json) :=
  data <- rjson r ;; xs <- elems data ;; cmap (sub "name") xs.

(** Lines 412-423. *)
Definition test_get_default_lists : client unit :=
  r <- send (http_get ["lists"] []) ;;
  expect_status r 200 ;;
  data <- rjson r ;;
  assert (is_list data) ;;
  xs <- elems data ;;
  b <- call (λ o, if is_dict o then cin (JStr "name") o else cret false) xs ;; assert b ;;
  names <- cmap (sub "name") xs ;;
  assert (existsb (py_eq (JStr "Personal")) names) ;;
  assert (existsb (py_eq (JStr "Work")) names).

(** Lines 426-437. *)
Definition test_create_list : client unit :=
  r <- send (http_post ["lists"] (JObj [("name", JStr "Study")])) ;;
  expect_status r 201 ;;
  data <- rjson r ;;
  expect_eq data "name" (JStr "Study") ;;
  r <- send (http_get ["lists"] []) ;;
  names <- list_names r ;;
  assert (existsb (py_eq (JStr "Study")) names).

(** Lines 440-453. *)
Definition test_create_list_validation : client unit :=
  r <- send (http_post ["lists"] (JObj [("name", JStr "")])) ;;
  expect_status r 400 ;;
  r <- send (http_post ["lists"] (JObj [("name", JStr "  ")])) ;;
  expect_status r 400 ;;
  send (http_post ["lists"] (JObj [("name", JStr "Unique")])) ;;
  r <- send (http_post ["lists"] (JObj [("name", JStr "Unique")])) ;;
  expect_status r 400.

(** Lines 456-472. *)
Definition test_delete_list : client unit :=
  send (http_post ["lists"] (JObj [("name", JStr "ToDelete")])) ;;
  r <- send (http_delete ["lists"; "ToDelete"]) ;;
  expect_status r 204 ;;
  r <- send (http_get ["lists"] []) ;;
  names <- list_names r ;;
  assert (negb (existsb (py_eq (JStr "ToDelete")) names)) ;;
  r <- send (http_delete ["lists"; "ToDelete"]) ;;
  expect_status r 404.

(** Lines 475-496. *)
Definition test_delete_list_restrictions : client unit :=
  r <- send (http_delete ["lists"; "Personal"]) ;;
  expect_status r 400 ;;
  send (http_post ["lists"] (JObj [("name", JStr "ListWithTask")])) ;;
  post_task [("title", JStr "Task in list"); ("list", JStr "ListWithTask")] ;;
  r <- send (http_delete ["lists"; "ListWithTask"]) ;;
  expect_status r 400 ;;
  r <- send (http_get ["tasks"] [("list", "ListWithTask")]) ;;
  data <- rjson r ;; t0 <- nth 0 data ;; task_id <- sub "id" t0 ;;
  send (http_delete (url_path "tasks" (py_str task_id))) ;;
  r <- send (http_delete ["lists"; "ListWithTask"]) ;;
  expect_status r 204.

(** *** GeneralTests (lines 501-553) *)

(** Lines 535-551: the response's fields and their types. *)
Definition check_task_interface (data : json) : client unit :=
  cfor ["id"; "title"; "description"; "tags"; "completed"; "due_date"; "recurrence";
        "recurrence_end_date"; "list"; "created_at"]
    (λ f, b <- cin (JStr f) data ;; assert b) ;;
  expect_str data "id" ;;
  expect_str data "title" ;;
  expect_str data "description" ;;
  x <- sub "tags" data ;; assert (is_list x) ;;
  x <- sub "completed" data ;; assert (is_bool x) ;;
  expect_str data "due_date" ;;
  x <- sub "recurrence" data ;;
  assert (existsb (py_eq x) [JStr "daily"; JStr "weekly"; JStr "monthly"; JNull]) ;;
  x <- sub "recurrence_end_date" data ;; assert (is_str x || is_none x) ;;
  expect_str data "list" ;;
  expect_str data "created_at".

(** Lines 514-553. *)
Definition test_api_interface_consistency (tomorrow end_date : string) : client unit :=
  r <- post_task [("title", JStr "API Interface Test");
                  ("description", JStr "Testing interface consistency");
                  ("tags", JArr [JStr "test"; JStr "api"]);
                  ("due_date", JStr tomorrow);
                  ("recurrence", JStr "weekly");
                  ("recurrence_end_date", JStr end_date);
                  ("list", JStr "Personal")] ;;
  expect_status r 201 ;;
  data <- rjson r ;;
  check_task_interface data.

(** *** The runner (lines 9-39, 605-641) *)

(** [try: ... except Exception: ...]: the state reached before the
    exception stays. *)
Definition ctry (m : client unit) : client unit :=
  λ s, match m s with (_, s') => (Done tt, s') end.

(** Lines 21-39: delete every task, then every list but the defaults. *)
Definition cleanup : client unit :=
  ctry (
    r <- send (http_get ["tasks"] []) ;;
    (if Z.eqb (status r) 200 then
       data <- rjson r ;; xs <- elems data ;;
       cfor xs (λ task, i <- sub "id" task ;; send (http_delete (url_path "tasks" (py_str i))) ;; cret tt)
     else cret tt) ;;
    r <- send (http_get ["lists"] []) ;;
    if Z.eqb (status r) 200 then
      data <- rjson r ;; xs <- elems data ;;
      cfor xs (λ o, n <- sub "name" o ;;
                   if existsb (py_eq n) [JStr "Personal"; JStr "Work"] then cret tt
                   else send (http_delete (url_path "lists" (py_str n))) ;; cret tt)
    else cret tt).

(** Lines 9-19: run one test, catching every exception. *)
Definition run_test {A} (group name : string) (t : client A) : S → (string * string * bool) * S :=
    λ s, match t s with
         | (Done _, s') => ((group, name, true), s')
         | (Raised _, s') => ((group, name, false), s')
         end.
End Tests.

(** The values [datetime.now()] gives a dated test. *)
Record dates : Type := mkDates { tomorrow : string; end_date : string; new_end_date : string }.

(** What the environment supplies to one run of [main]: the dates each
    dated test computes and the two [uuid.uuid4()] values. *)
Record main_env : Type := mkMainEnv {
  d_full : dates; d_rec : dates; d_upd : dates; d_api : dates;
  u_get : string; u_upd : string
}.

Section Main.
Context {S : Type} `{!Server S}.

(** Run a list of tests in order, threading the state. *)
Fixpoint run_all (ts : list (S → (string * string * bool) * S)) (s : S)
    : list (string * string * bool) * S :=
  match ts with
  | [] => ([], s)
  | t :: ts' => let '(res, s') := t s in let '(rest, s'') := run_all ts' s' in (res :: rest, s'')
  end.

(** Lines 605-638 (the CORS test is commented out there). *)
Definition main_tests (env : main_env) : list (S → (string * string * bool) * S) :=
  [run_test "Tasks" "Create minimal task" test_create_minimal_task;
   run_test "Tasks" "Create fully-populated task"
     (test_create_full_task (tomorrow (d_full env)) (end_date (d_full env)));
   run_test "Tasks" "Create task validation" test_create_task_validation;
   run_test "Tasks" "Get task by ID" (test_get_task_by_id (u_get env));
   run_test "Tasks" "Update task" (test_update_task (u_upd env));
   run_test "Tasks" "Delete task" test_delete_task;
   run_test "Tasks" "List tasks (no filters)" test_list_tasks_no_filters;
   run_test "Tasks" "Filter tasks by completion" test_filter_tasks_by_completion;
   run_test "Tasks" "Filter tasks by list" test_filter_tasks_by_list;
   run_test "Tasks" "Filter tasks by tags" test_filter_tasks_by_tags;
   run_test "Tasks" "Combined filters" test_combined_filters;
   run_test "Tasks" "Recurrence fields" (test_recurrence_fields (tomorrow (d_rec env)) (end_date (d_rec env)));
   run_test "Tasks" "Update recurrence fields"
     (test_update_recurrence_fields (tomorrow (d_upd env)) (end_date (d_upd env)) (new_end_date (d_upd env)));
   run_test "Lists" "Get default lists" test_get_default_lists;
   run_test "Lists" "Create list" test_create_list;
   run_test "Lists" "Create list validation" test_create_list_validation;
   run_test "Lists" "Delete list" test_delete_list;
   run_test "Lists" "Delete list restrictions" test_delete_list_restrictions;
   run_test "General" "API interface consistency"
     (test_api_interface_consistency (tomorrow (d_api env)) (end_date (d_api env)))].

(** [main]: clean up, then run the tests; the results list of line 7. *)
Definition main (env : main_env) (s : S) : list (string * string * bool) * S :=
  run_all (main_tests env) (snd (cleanup s)).

(** Did every test pass? *)
Definition all_passed (res : list (string * string * bool)) : bool := forallb (λ r, r.2) res.
End Main.

(** ** Facts *)

(** [[o["name"] for o in data]] on the JSON of a list of [ListModel]s. *)
Lemma cmap_sub_name {St} (ls : list ListModel) (σ : St) :
  cmap (sub "name") (map ListModel_to_json ls) σ = (Done (map (λ l, JStr (name l)) ls), σ).
Proof.
  revert σ. induction ls as [|l ls IH]; intros σ; [done|].
  cbn [cmap map]. unfold cbind at 1. cbn [sub ListModel_to_json dict_get]. rewrite decide_True by done. cbn [lift cret]. unfold cbind. rewrite IH. done.
Qed.

Lemma existsb_py_eq_strs (x : string) (ls : list string) :
  existsb (py_eq (JStr x)) (map JStr ls) = bool_decide (x ∈ ls).
Proof. pose proof (py_in_strs x ls) as H. cbn [py_in] in H. congruence. Qed.
