(* ===== verification/Cost.v ===== *)
(** * Counting the requests of a client program

    Every loop of the clients ([test_todo_api.py], [create_tasks.py]) is
    a Python [for] over a finite list, so every run ends; what a run can
    not promise by construction is how much it asks of the server.  This
    file is a small program logic for that: [sends cnt m b] says that the
    client program [m] makes the counter [cnt] of the state grow by at
    most [b], whatever the server answers, on the normal and on the
    exceptional outcome alike.  With a server that counts the requests it
    handles (a hypothesis of the section), the bound is a bound on the
    requests [m] sends.  The rules follow the combinators of [Http.v]
    and [Suite.v]; [always_raises] lets the cost of a block that ends in
    [raise] (the [exit(0)] of a command of [create_tasks.py]) stop there,
    since nothing after it runs.  [Generator.v] applies the logic to the
    script. *)

From S2P Require Import Prelude Json Http Skeleton Store Service Suite.

Local Open Scope client_scope.
Local Open Scope nat_scope.

Create HintDb sends discriminated.

(** A server that also counts the requests it has handled. *)
Definition counting_server {S} `{!Server S} : Server (S * nat) :=
  λ r '(s, n), let '(resp, s') := handle r s in (resp, (s', n + 1)).

Section Sends.
Context {S : Type} `{!Server S}.
Variable cnt : S → nat.

(** The program adds at most [b] to the counter. *)
Definition sends {A} (m : client S A) (b : nat) : Prop :=
  ∀ σ, cnt (snd (m σ)) ≤ cnt σ + b.

(** The program always ends with an exception. *)
Definition always_raises {A} (m : client S A) : Prop :=
  ∀ σ, ∃ e, fst (m σ) = Raised e.

(** Every value the program returns satisfies [P]. *)
Definition returns {A} (m : client S A) (P : A → Prop) : Prop :=
  ∀ σ a σ', m σ = (Done a, σ') → P a.

Lemma sends_weaken {A} (m : client S A) b b' : sends m b → b ≤ b' → sends m b'.
Proof. intros Hm Hb σ. specialize (Hm σ). lia. Qed.

Lemma sends_frame {A} (m : client S A) : (∀ σ, cnt (snd (m σ)) = cnt σ) → sends m 0.
Proof. intros Hm σ. rewrite Hm. lia. Qed.

Lemma sends_ret {A} (a : A) : sends (cret a) 0.
Proof. intros σ. simpl. lia. Qed.

Lemma sends_raise {A} (e : exc) : sends (raise (A:=A) e) 0.
Proof. intros σ. simpl. lia. Qed.

Lemma sends_lift {A} (e : exc) (o : option A) : sends (lift e o) 0.
Proof. destruct o; [apply sends_ret|apply sends_raise]. Qed.

Lemma sends_assert (b : bool) : sends (assert b) 0.
Proof. destruct b; [apply sends_ret|apply sends_raise]. Qed.

Lemma sends_rjson (r : response) : sends (rjson r) 0.
Proof. apply sends_lift. Qed.

Lemma sends_sub (k : string) (d : json) : sends (sub k d) 0.
Proof. destruct d; try apply sends_raise. apply sends_lift. Qed.

Lemma sends_elems (j : json) : sends (elems j) 0.
Proof. destruct j; try apply sends_raise; apply sends_ret. Qed.

Lemma sends_if {A} (c : bool) (m1 m2 : client S A) b1 b2 :
  sends m1 b1 → sends m2 b2 → sends (if c then m1 else m2) (max b1 b2).
Proof. intros H1 H2. destruct c; eapply sends_weaken; eauto; lia. Qed.

Lemma sends_if0 {A} (c : bool) (m1 m2 : client S A) : sends m1 0 → sends m2 0 → sends (if c then m1 else m2) 0.
Proof. by destruct c. Qed.

Lemma sends_bind {A B} (m : client S A) (k : A → client S B) b1 b2 :
  sends m b1 → (∀ a, sends (k a) b2) → sends (cbind m k) (b1 + b2).
Proof.
  intros Hm Hk σ. specialize (Hm σ). unfold cbind.
  destruct (m σ) as [[a|e] σ'] eqn:E; simpl in *; [specialize (Hk a σ')|]; lia.
Qed.

Lemma sends_bind0 {A B} (m : client S A) (k : A → client S B) :
  sends m 0 → (∀ a, sends (k a) 0) → sends (cbind m k) 0.
Proof. intros Hm Hk. rewrite <- (Nat.add_0_r 0). by apply sends_bind. Qed.

(** The continuation only needs its bound on the values [m] returns. *)
Lemma sends_bind_post {A B} (m : client S A) (P : A → Prop) (k : A → client S B) b1 b2 :
  sends m b1 → returns m P → (∀ a, P a → sends (k a) b2) → sends (cbind m k) (b1 + b2).
Proof.
  intros Hm HP Hk σ. specialize (Hm σ). unfold cbind.
  destruct (m σ) as [[a|e] σ'] eqn:E; simpl in *; [specialize (Hk a (HP _ _ _ E) σ')|]; lia.
Qed.

(** Nothing after a block that always raises runs. *)
Lemma sends_bind_raises {A B} (m : client S A) (k : A → client S B) b :
  sends m b → always_raises m → sends (cbind m k) b.
Proof.
  intros Hm Hr σ. destruct (Hr σ) as [e He]. unfold cbind.
  destruct (m σ) as [[a|e'] σ'] eqn:E; simpl in He; [discriminate|]. specialize (Hm σ). rewrite E in Hm. done.
Qed.

Lemma always_raises_raise {A} (e : exc) : always_raises (raise (A:=A) e).
Proof. intros σ. by exists e. Qed.

Lemma always_raises_bind {A B} (m : client S A) (k : A → client S B) :
  (∀ a, always_raises (k a)) → always_raises (cbind m k).
Proof.
  intros Hk σ. unfold cbind. destruct (m σ) as [[a|e] σ']; [apply Hk|by exists e].
Qed.

Lemma sends_cfor {X} (xs : list X) (f : X → client S unit) b :
  (∀ x, sends (f x) b) → sends (cfor xs f) (List.length xs * b).
Proof.
  intros Hf. induction xs as [|x xs IH]; simpl; [apply sends_ret|].
  by apply sends_bind.
Qed.

Lemma sends_cmap (f : json → client S json) (xs : list json) b :
  (∀ x, sends (f x) b) → sends (cmap f xs) (List.length xs * b).
Proof.
  intros Hf. induction xs as [|x xs IH]; simpl; [apply sends_ret|].
  rewrite <- (Nat.add_0_r (List.length xs * b)). apply sends_bind; [done|]. intros y.
  apply sends_bind; [done|]. intros ys. apply sends_ret.
Qed.

(** [for x in j] yields [len(j)] items. *)
Lemma returns_elems (j : json) : returns (elems j) (λ xs, py_len j = Some (List.length xs)).
Proof.
  intros σ xs σ' H. destruct j; cbn in H; unfold cret in H; simplify_eq/=; by rewrite ?length_map, ?chars_length.
Qed.

(** [r.json()] is the body of the response. *)
Lemma returns_rjson (r : response) : returns (rjson r) (λ d, resp_body r = Some d).
Proof. intros σ d σ'. unfold rjson, lift, cret, raise. destruct (resp_body r); intros H; by simplify_eq. Qed.

(** A loop whose body sends nothing sends nothing, however long the
    list it runs over. *)
Lemma sends_cfor0 {X} (xs : list X) (f : X → client S unit) :
  (∀ x, sends (f x) 0) → sends (cfor xs f) 0.
Proof. intros Hf. rewrite <- (Nat.mul_0_r (List.length xs)). by apply sends_cfor. Qed.

Lemma sends_cmap0 (f : json → client S json) (xs : list json) :
  (∀ x, sends (f x) 0) → sends (cmap f xs) 0.
Proof. intros Hf. rewrite <- (Nat.mul_0_r (List.length xs)). by apply sends_cmap. Qed.

(** A server that adds at most one to the counter per request. *)
Hypothesis handle_cnt : ∀ r σ, cnt (snd (handle r σ)) ≤ cnt σ + 1.

Lemma sends_send (r : request) : sends (send r) 1.
Proof. intros σ. specialize (handle_cnt r σ). unfold send. destruct (handle r σ). done. Qed.
End Sends.

Arguments sends {S} cnt {A} m b.
Arguments always_raises {S A} m.
Arguments returns {S A} m P.

#[export] Hint Resolve sends_ret sends_raise sends_lift sends_assert sends_rjson sends_sub sends_elems
  always_raises_raise : sends.

(** Apply the rules of the logic as far as they go; a [match] on a
    variable of the program is left to the proof. *)
Ltac sends_auto :=
  repeat match goal with
  | |- ∀ _, _ => intros
  | |- sends _ (cbind _ _) 0 => eapply sends_bind0
  | |- sends _ (if _ then _ else _) 0 => apply sends_if0
  | |- sends _ (cbind _ _) _ => eapply sends_bind
  | |- sends _ (if _ then _ else _) _ => eapply sends_if
  | |- sends _ (cfor _ _) _ => first [eapply sends_cfor | eapply sends_cfor0]
  | |- sends _ (cmap _ _) _ => first [eapply sends_cmap | eapply sends_cmap0]
  | |- always_raises (cbind _ _) => apply always_raises_bind
  | |- sends _ (let '(_, _) := ?x in _) _ => destruct x
  | |- _ => solve [eauto with sends]
  end.

(** Prove [sends cnt m b] by the rules, then check the bound they give. *)
Ltac sends_bound := eapply sends_weaken; [sends_auto|simpl; lia].

(** ** The requests of the test suite *)

Section SuiteRequests.
Context {S : Type} `{!Server S}.
#[local] Existing Instance counting_server.
Local Abbreviation cnt := (@snd S nat).

Lemma counting_handle (r : request) (σ : S * nat) : cnt (snd (handle r σ)) ≤ cnt σ + 1.
Proof.
  destruct σ as [s n]. unfold handle at 1, counting_server. repeat case_match; simplify_eq/=. lia.
Qed.

Lemma sends_request (r : request) : sends cnt (send r) 1.
Proof. apply sends_send, counting_handle. Qed.

Lemma sends_call0 (f : json → client (S * nat) bool) (xs : list json) :
  (∀ x, sends cnt (f x) 0) → sends cnt (call f xs) 0.
Proof.
  intros Hf. induction xs as [|x xs IH]; simpl; [apply sends_ret|].
  apply sends_bind0; [done|]. intros []; [done|apply sends_ret].
Qed.

Lemma sends_cany0 (f : json → client (S * nat) bool) (xs : list json) :
  (∀ x, sends cnt (f x) 0) → sends cnt (cany f xs) 0.
Proof.
  intros Hf. induction xs as [|x xs IH]; simpl; [apply sends_ret|].
  apply sends_bind0; [done|]. intros []; [apply sends_ret|done].
Qed.

Lemma sends_cin (x c : json) : sends cnt (cin x c) 0.
Proof. apply sends_lift. Qed.

Lemma sends_nth (i : nat) (d : json) : sends cnt (nth i d) 0.
Proof. apply sends_lift. Qed.

#[local] Hint Resolve sends_request sends_cin sends_nth : sends.

Lemma sends_cand (f g : json → client (S * nat) bool) (task : json) :
  sends cnt (f task) 0 → sends cnt (g task) 0 → sends cnt (cand f g task) 0.
Proof. intros Hf Hg. apply sends_bind0; [done|]. intros []; [done|apply sends_ret]. Qed.

Local Ltac free := intros; repeat match goal with
  | |- sends _ (call _ _) _ => eapply sends_call0
  | |- sends _ (cany _ _) _ => eapply sends_cany0
  | |- sends _ (cand _ _ _) _ => eapply sends_cand
  | |- _ => progress sends_auto
  end.
Local Ltac free_le := intros; eapply sends_weaken; [free|simpl; lia].

Lemma sends_expect_status (r : response) (c : Z) : sends cnt (expect_status r c) 0.
Proof. apply sends_assert. Qed.

Lemma sends_expect_eq (data : json) (k : string) (v : json) : sends cnt (expect_eq data k v) 0.
Proof. unfold expect_eq. free. Qed.

Lemma sends_expect_str (data : json) (k : string) : sends cnt (expect_str data k) 0.
Proof. unfold expect_str. free. Qed.

Lemma sends_title_is (t : string) (task : json) : sends cnt (title_is t task) 0.
Proof. unfold title_is. free. Qed.

Lemma sends_response_id (r : response) : sends cnt (response_id r) 0.
Proof. unfold response_id. free. Qed.

Lemma sends_list_names (r : response) : sends cnt (list_names r) 0.
Proof. unfold list_names. free. Qed.

Lemma sends_field_is (k : string) (p : json → bool) (task : json) : sends cnt (field_is k p task) 0.
Proof. unfold field_is. free. Qed.

Lemma sends_field_has (k v : string) (task : json) : sends cnt (field_has k v task) 0.
Proof. unfold field_has. free. Qed.

#[local] Hint Resolve sends_expect_status sends_expect_eq sends_expect_str sends_title_is
  sends_response_id sends_list_names sends_field_is sends_field_has : sends.

Lemma sends_check_task_interface (data : json) : sends cnt (check_task_interface data) 0.
Proof. unfold check_task_interface. free. Qed.

Lemma sends_post_task (payload : list (string * json)) : sends cnt (post_task payload) 1.
Proof. apply sends_request. Qed.

Lemma sends_get_tasks (params : list (string * string)) : sends cnt (get_tasks params) 1.
Proof. unfold get_tasks. sends_bound. Qed.

#[local] Hint Resolve sends_check_task_interface sends_post_task sends_get_tasks : sends.
Lemma sends_cfilter0 (f : json → client (S * nat) bool) (xs : list json) :
  (∀ x, sends cnt (f x) 0) → sends cnt (cfilter f xs) 0.
Proof.
  intros Hf. induction xs as [|x xs IH]; simpl; [apply sends_ret|].
  apply sends_bind0; [done|]. intros b. apply sends_bind0; [done|]. intros ys. apply sends_ret.
Qed.

Lemma sends_has_tags (task : json) : sends cnt (has_tags task) 0.
Proof. unfold has_tags. free. Qed.

#[local] Hint Resolve sends_has_tags : sends.

(** [try ... except]: the requests sent before the exception count. *)
Lemma sends_ctry (m : client (S * nat) unit) b : sends cnt m b → sends cnt (ctry m) b.
Proof. intros Hm σ. specialize (Hm σ). unfold ctry. by destruct (m σ). Qed.

(** A test run by [run_test] sends what the test sends. *)
Lemma run_test_sends {A} (g nm : string) (t : client (S * nat) A) b :
  sends cnt t b → ∀ σ, cnt (snd (run_test g nm t σ)) ≤ cnt σ + b.
Proof. intros Ht σ. specialize (Ht σ). unfold run_test. by destruct (t σ) as [[] ?]. Qed.

Lemma run_all_sends (ts : list (S * nat → (string * string * bool) * (S * nat))) (bs : list nat) :
  Forall2 (λ t b, ∀ σ, cnt (snd (t σ)) ≤ cnt σ + b) ts bs →
  ∀ σ, cnt (snd (run_all ts σ)) ≤ cnt σ + sum_list bs.
Proof.
  induction 1 as [|t b ts bs Ht _ IH]; intros σ; simpl; [lia|].
  specialize (Ht σ). destruct (t σ) as [res σ'] eqn:E. specialize (IH σ').
  destruct (run_all ts σ') as [rest σ''] eqn:E'. simpl in *. lia.
Qed.

#[local] Hint Resolve sends_cfilter0 : sends.

Lemma sends_test_create_minimal_task : sends cnt test_create_minimal_task 1.
Proof. unfold test_create_minimal_task. sends_bound. Qed.

#[local] Hint Resolve sends_test_create_minimal_task : sends.

(** The nineteen tests of [main] send at most 73 requests together,
    whatever the server answers: no test loops over an answer. *)
Lemma main_tests_sends (env : main_env) (σ : S * nat) :
  cnt (snd (run_all (main_tests env) σ)) ≤ cnt σ + 73.
Proof.
  eapply Nat.le_trans; [apply run_all_sends|].
  - unfold main_tests.
    repeat apply List.Forall2_cons; try apply List.Forall2_nil; apply run_test_sends;
      unfold test_create_full_task, test_create_task_validation, test_get_task_by_id,
        test_update_task, test_delete_task, test_list_tasks_no_filters,
        test_filter_tasks_by_completion, test_filter_tasks_by_list, test_filter_tasks_by_tags,
        test_combined_filters, test_recurrence_fields, test_update_recurrence_fields,
        test_get_default_lists, test_create_list, test_create_list_validation, test_delete_list,
        test_delete_list_restrictions, test_api_interface_consistency;
      free.
  - simpl. lia.
Qed.

Variable k : nat.
(** Every answer of the server lists at most [k] items. *)
Hypothesis answers_len : ∀ r σ j m, resp_body (fst (handle r σ)) = Some j → py_len j = Some m → m ≤ k.

Lemma returns_send_len (r : request) :
  returns (send (S:=S * nat) r) (λ resp, ∀ j m, resp_body resp = Some j → py_len j = Some m → m ≤ k).
Proof.
  intros [s n] resp σ'. unfold send, handle at 1, counting_server. specialize (answers_len r s).
  destruct (handle r s). intros [= <- _]. done.
Qed.

(** A [for] over the items of an answer: at most [k] times the body. *)
Lemma sends_answer_loop (resp : response) (f : json → client (S * nat) unit) b :
  (∀ j m, resp_body resp = Some j → py_len j = Some m → m ≤ k) → (∀ x, sends cnt (f x) b) →
  sends cnt (data <- rjson resp ;; xs <- elems data ;; cfor xs f) (k * b).
Proof.
  intros Hresp Hf. rewrite <- (Nat.add_0_l (k * b)).
  eapply sends_bind_post; [apply sends_rjson|apply returns_rjson|]. intros data Hd.
  rewrite <- (Nat.add_0_l (k * b)).
  eapply sends_bind_post; [apply sends_elems|apply returns_elems|]. intros xs Hxs.
  eapply sends_weaken; [apply sends_cfor, Hf|]. specialize (Hresp _ _ Hd Hxs). nia.
Qed.

(** C12. Whatever the server answers, the suite's [main] (lines 605-641 of
    [src/testing/test_todo_api.py]) ends after at most [75 + 2k]
    requests when no answer lists more than [k] items: [cleanup] lists
    the tasks and the lists and deletes each item at most once, and the
    nineteen tests send at most 73 requests, none in a loop over an
    answer. *)
Theorem suite_requests_bounded (env : main_env) (s : S) : snd (snd (main env (s, 0))) ≤ 75 + 2 * k.
Proof.
  unfold main. eapply Nat.le_trans; [apply main_tests_sends|].
  enough (sends cnt cleanup (2 + 2 * k)) as Hc by (specialize (Hc (s, 0)); simpl in *; lia).
  unfold cleanup. apply sends_ctry. replace (2 + 2 * k) with (1 + (max (k * 1) 0 + (1 + max (k * 1) 0))) by lia.
  eapply sends_bind_post; [apply sends_request|apply returns_send_len|]. intros r Hr.
  apply sends_bind; [apply sends_if; [apply (sends_answer_loop r); [done|free_le]|apply sends_ret]|intros _].
  eapply sends_bind_post; [apply sends_request|apply returns_send_len|]. intros r' Hr'.
  apply sends_if; [apply (sends_answer_loop r'); [done|free_le]|apply sends_ret].
Qed.
End SuiteRequests.

(** ** A server that satisfies the hypothesis *)

(** Every answer of the skeleton is one [{"detail": ...}] object or has
    no body. *)
Lemma skeleton_answers_len (r : request) (σ : unit) j m :
  resp_body (fst (skeleton_app r σ)) = Some j → py_len j = Some m → (m ≤ 1)%nat.
Proof.
  unfold skeleton_app, fastapi_app, with_body, finish.
  repeat case_match; simpl; intros; simplify_eq/=; lia.
Qed.

Definition witness_env : main_env :=
  let d := mkDates "2025-06-02T09:00:00" "2025-07-01" "2025-08-01" in
  mkMainEnv d d d d "6a1f0c2e-0000-4000-8000-000000000001" "6a1f0c2e-0000-4000-8000-000000000002".

Lemma suite_requests_bounded_witness :
  (∀ r σ j m, resp_body (fst (skeleton_app r σ)) = Some j → py_len j = Some m → (m ≤ 1)%nat) ∧
  (snd (snd (@main (unit * nat) counting_server witness_env (tt, 0))) ≤ 75 + 2 * 1)%nat.
Proof.
  split; [exact skeleton_answers_len|exact (suite_requests_bounded 1 skeleton_answers_len witness_env tt)].
Defined.
