(* ===== verification/Conformance.v ===== *)
(** * The two servers against the main test suite

    [main] of [src/testing/test_todo_api.py] run on the skeleton of
    [api_skeleton.py] and on the store-backed service.  The skeleton fails
    every test whatever the dates and uuids of the run; the service passes
    every test on a run from start-up, whatever the dates and for any
    uuids with a non-digit, by symbolic stepping ([run_steps]).  Also: [cleanup] on the service
    from any well-formed state, [test_create_task_validation] against any
    handlers, and the type checks of [test_api_interface_consistency] on
    the JSON of any [TaskOut]; the run from start-up sends 75 requests:
    the 73 the tests may send ([Cost.main_tests_sends]) and the two
    listings of [cleanup], with nothing to delete. *)

From S2P Require Import Prelude Json Models Http Skeleton Store Service Suite Cost.

(** No test passed. *)
Definition none_passed (res : list (string * string * bool)) : bool := forallb (λ r, negb r.2) res.

(** The environment of a run on 2025-06-01: the dates [datetime.now()]
    gives each dated test and two [uuid4()] values. *)
Definition run_dates : dates := mkDates "2025-06-02T09:00:00" "2025-07-01" "2025-07-31".
Definition run_env : main_env :=
  mkMainEnv run_dates run_dates run_dates run_dates
    "f47ac10b-58cc-4372-a567-0e02b2c3d479" "9c5b94b1-35ad-49bb-b118-8e8fc24abf80".

(** ** Running the suite over symbolic dates and uuids

    The service stores the dates a test sends as text and gives them
    back, and looks a uuid up among task ids, which are digit strings;
    so the run of [main] does not depend on the dates and uuids beyond
    three facts: a text equals itself, it starts with its own date part,
    and a text with a non-digit character is no task id.  [run_steps]
    evaluates a test bind by bind ([cbind_assoc], [cbind_Done]), each
    step by [vm_compute] where the step does not look into a date or a
    uuid, and by those three facts where it does. *)

Lemma cbind_assoc {S A B C} (m : client S A) (k1 : A → client S B) (k : B → client S C) (s : S) :
  cbind (cbind m k1) k s = cbind m (λ x, cbind (k1 x) k) s.
Proof. unfold cbind. by destruct (m s) as [[a|e] s']. Qed.

Lemma cfor_cons {S A} `{!Server S} (x : A) (xs : list A) (f : A → client S unit) (s : S) :
  cfor (x :: xs) f s = cbind (f x) (λ _, cfor xs f) s.
Proof. reflexivity. Qed.

Lemma cfor_cons_fun {S A} `{!Server S} (x : A) (xs : list A) (f : A → client S unit) :
  cfor (x :: xs) f = cbind (f x) (λ _, cfor xs f).
Proof. reflexivity. Qed.

Lemma cfor_nil {S A} `{!Server S} (f : A → client S unit) (s : S) : cfor [] f s = (Done tt, s).
Proof. reflexivity. Qed.

Lemma py_eq_JStr_refl x : py_eq (JStr x) (JStr x) = true.
Proof. apply String.eqb_refl. Qed.

Lemma prefix_py_split_head sep x : String.prefix (default "" (head (py_split sep x))) x = true.
Proof.
  induction x as [|c r IH]; [done|]. simpl. destruct (ascii_dec c sep); simpl; [done|].
  destruct (py_split sep r) as [|p ps]; simpl in *; destruct (ascii_dec c c); try congruence; by destruct r.
Qed.

(** [dt.startswith(date_part(dt))], whatever the text [dt]. *)
Lemma startswith_date_part x : startswith x (date_part x) = true.
Proof. apply prefix_py_split_head. Qed.

(** The keys of a task dict are digit strings. *)
Definition digit_keys (ts : list (string * TaskOut)) : bool :=
  forallb (λ kv, forallb is_digit (chars kv.1)) ts.

Lemma dict_get_nondigit (u : string) (ts : list (string * TaskOut)) :
  (∃ c, c ∈ chars u ∧ is_digit c = false) → digit_keys ts = true → dict_get u ts = None.
Proof.
  intros (c & Hc & Hd) Hk. induction ts as [|[k t] ts IH]; [done|].
  apply andb_prop in Hk as [Hk Hks]. simpl. rewrite decide_False; [by apply IH|].
  intros ->. apply forallb_forall with (x := c) in Hk; [congruence|by apply list_elem_of_In].
Qed.

Lemma nondigit_nonempty (u : string) : (∃ c, c ∈ chars u ∧ is_digit c = false) → u ≠ "".
Proof. intros (c & Hc & _) ->. inversion Hc. Qed.

(** [GET /tasks/{u}] and [PUT /tasks/{u}] for a uuid: 404. *)
Lemma send_get_uuid (u : string) (q : list (string * string)) (s : svc) :
  (∃ c, c ∈ chars u ∧ is_digit c = false) → digit_keys (tasks (svc_store s)) = true →
  send (http_get ["tasks"; u] q) s = (Done (error_response (task_error_status NotFoundError) NotFoundError), s).
Proof.
  intros Hu Hk. unfold send, handle, fastapi_server. rewrite app_get_task by (by apply nondigit_nonempty).
  unfold get_task. by rewrite dict_get_nondigit.
Qed.

Lemma send_put_uuid (u : string) (fs : list (string * json)) (upd : TaskUpdate) (s : svc) :
  (∃ c, c ∈ chars u ∧ is_digit c = false) → digit_keys (tasks (svc_store s)) = true →
  validate_TaskUpdate (JObj fs) = VOk upd →
  send (http_put ["tasks"; u] (JObj fs)) s = (Done (error_response (task_error_status NotFoundError) NotFoundError), s).
Proof.
  intros Hu Hk Hv. unfold send, handle, fastapi_server. rewrite (app_put_task u fs upd s) by (done || by apply nondigit_nonempty).
  unfold update_task. by rewrite dict_get_nondigit.
Qed.

(** A test that ends normally lets [run_all] record a pass. *)
Lemma run_all_cons_pass {A} (g nm : string) (t : client svc A) ts (s : svc) a s' :
  t s = (Done a, s') →
  fst (run_all (run_test g nm t :: ts) s) = (g, nm, true) :: fst (run_all ts s').
Proof. intros H. simpl. unfold run_test at 1. rewrite H. by destruct (run_all ts s'). Qed.

(** One step of a test: the first primitive of the program is run. *)
Ltac run_prim m s :=
  let v := eval vm_compute in (m s) in
  lazymatch v with
  | (Done ?a, ?s') => let E := fresh "E" in assert (E : m s = (Done a, s')) by (vm_compute; reflexivity)
  end.

Ltac run_step :=
  rewrite ?py_eq_JStr_refl, ?startswith_date_part;
  lazymatch goal with
  | |- cbind (cbind _ _) _ _ = _ => rewrite cbind_assoc
  | |- cbind (cfor (?x :: ?xs) ?f) _ _ = _ => rewrite (cfor_cons_fun x xs f), cbind_assoc
  | |- cbind (cfor [] _) _ _ = _ => rewrite (cbind_Done (cfor [] _) _ _ tt _ (cfor_nil _ _))
  | |- cfor (_ :: _) _ _ = _ => rewrite cfor_cons
  | |- cbind (send (http_get ["tasks"; ?u] ?q)) ?k ?s = _ =>
      first
        [ rewrite (cbind_Done _ k s _ _ (send_get_uuid u q s ltac:(assumption) ltac:(vm_compute; reflexivity)))
        | run_prim (send (http_get ["tasks"; u] q)) s;
          match goal with E : _ = _ |- _ => rewrite (cbind_Done _ _ _ _ _ E); clear E end ];
      cbv beta
  | |- cbind (send (http_put ["tasks"; ?u] (JObj ?fs))) ?k ?s = _ =>
      first
        [ rewrite (cbind_Done _ k s _ _ (send_put_uuid u fs _ s ltac:(assumption) ltac:(vm_compute; reflexivity)
                                            ltac:(reflexivity)))
        | run_prim (send (http_put ["tasks"; u] (JObj fs))) s;
          match goal with E : _ = _ |- _ => rewrite (cbind_Done _ _ _ _ _ E); clear E end ];
      cbv beta
  | |- cbind ?m ?k ?s = _ =>
      run_prim m s; match goal with E : m s = _ |- _ => rewrite (cbind_Done _ _ _ _ _ E); clear E end;
      cbv beta
  | |- ?m ?s = _ =>
      run_prim m s; match goal with E : m s = _ |- _ => rewrite E; clear E end; reflexivity
  end.

Ltac run_steps := repeat run_step.

(** A test that reads a date or a uuid is stepped; any other runs in one
    evaluation. *)
Ltac run_test_sym :=
  match goal with
  | |- ?t ?s = _ =>
      lazymatch t with
      | test_create_full_task _ _ => idtac
      | test_get_task_by_id _ => idtac
      | test_update_task _ => idtac
      | test_recurrence_fields _ _ => idtac
      | test_update_recurrence_fields _ _ _ => idtac
      | test_api_interface_consistency _ _ => idtac
      end;
      unfold test_create_full_task, test_get_task_by_id, test_update_task, test_recurrence_fields,
        test_update_recurrence_fields, test_api_interface_consistency, test_create_minimal_task,
        post_task, expect_status, expect_eq, expect_str, response_id, check_task_interface;
      run_steps
  | |- ?t ?s = _ => run_prim t s; match goal with E : t s = _ |- _ => rewrite E; clear E end; reflexivity
  end.

(** [run_all] records a pass for the first test of the list. *)
Ltac pass_test :=
  match goal with
  | |- context [fst (run_all (run_test ?g ?nm ?t :: ?ts) ?s)] =>
      let H := fresh "H" in
      eassert (H : t s = (Done _, _)); [solve [run_test_sym]|rewrite (run_all_cons_pass g nm t ts s _ _ H); clear H]
  end.

(** C6. Run against the skeleton of [api_skeleton.py], [main] records a
    failure for each of its nineteen tests, whatever the dates and uuids
    the environment supplies. *)
Theorem skeleton_fails_main (env : main_env) :
  List.length (fst (main (S:=unit) env tt)) = 19%nat ∧ none_passed (fst (main (S:=unit) env tt)) = true.
Proof. split; vm_compute; reflexivity. Qed.

(** C7. Run against the store-backed service from start-up, [main]
    records a pass for each of its nineteen tests, whatever dates
    [datetime.now()] gives the dated tests and whatever the start-up time,
    for any two [uuid4()] texts with a character that is not a digit (the
    hyphens of [str(uuid.uuid4())]). *)
Theorem service_passes_main (env : main_env) (now : string) :
  (∃ c, c ∈ chars (u_get env) ∧ is_digit c = false) →
  (∃ c, c ∈ chars (u_upd env) ∧ is_digit c = false) →
  List.length (fst (main env (init_svc now))) = 19%nat ∧
  all_passed (fst (main env (init_svc now))) = true.
Proof.
  destruct env as [[a1 b1 c1] [a2 b2 c2] [a3 b3 c3] [a4 b4 c4] u1 u2]; simpl.
  intros Hu1 Hu2. unfold main, main_tests.
  cbn [tomorrow end_date new_end_date d_full d_rec d_upd d_api u_get u_upd].
  replace (snd (cleanup (init_svc now))) with (init_svc now) by (vm_compute; reflexivity).
  do 19 pass_test. split; reflexivity.
Qed.

(** Run a second time on the same service, [main] passes again: its
    [cleanup] deletes the tasks and lists the first run left behind. *)
Theorem service_passes_main_again (now : string) :
  all_passed (fst (main run_env (snd (main run_env (init_svc now))))) = true.
Proof. vm_compute. reflexivity. Qed.

(** ** [cleanup] against the service *)

Lemma list_tasks_all st : list_tasks None None None st = dict_values (tasks st).
Proof. unfold list_tasks. induction (dict_values (tasks st)) as [|t ts IH]; simpl; congruence. Qed.

Lemma set_store_set_store s st st' : set_store (set_store s st) st' = set_store s st'.
Proof. reflexivity. Qed.

(** A task id has no slash: it is put in a URL as one segment. *)
Lemma task_id_no_slash n : "/"%char ∉ chars (task_id_of n).
Proof.
  destruct (task_id_of_digits n) as [_ Hd]. rewrite Forall_forall in Hd.
  intros Hin. specialize (Hd _ Hin). done.
Qed.

(** A task id is a plain URL segment. *)
Lemma task_id_plain n : url_plain (task_id_of n) = true.
Proof.
  destruct (task_id_of_digits n) as [_ Hd]. apply url_plain_spec.
  split; [|apply task_id_no_slash]. eapply Forall_impl; [exact Hd|]. intros c Hc.
  unfold ends_path. case_bool_decide as H; [|done]. by destruct H as [-> | ->].
Qed.

Lemma sub_TaskOut_id {St} (t : TaskOut) (σ : St) : sub "id" (TaskOut_to_json t) σ = (Done (JStr (id t)), σ).
Proof. vm_compute. reflexivity. Qed.

(** One round of the first loop of [cleanup] (line 29). *)
Lemma cleanup_task_step {St} `{!Server St} (t : TaskOut) (s : St) :
  (i <- sub "id" (TaskOut_to_json t) ;; send (http_delete (url_path "tasks" (py_str i))) ;; cret tt)%client s =
    (Done tt, snd (handle (http_delete (url_path "tasks" (id t))) s)).
Proof.
  unfold cbind at 1. rewrite sub_TaskOut_id. unfold cbind, send. cbn [py_str].
  by destruct (handle _ s).
Qed.

(** The first loop of [cleanup] deletes every task, one request each. *)
Lemma cleanup_tasks_loop (ts : list (string * TaskOut)) (s : svc) :
  tasks (svc_store s) = ts → NoDup (map fst ts) →
  Forall (λ kt, id kt.2 = kt.1 ∧ kt.1 ≠ "" ∧ url_plain kt.1 = true) ts →
  cfor (map TaskOut_to_json (map snd ts))
    (λ task, i <- sub "id" task ;; send (http_delete (url_path "tasks" (py_str i))) ;; cret tt)%client s =
    (Done tt, set_store s (with_tasks (svc_store s) [])).
Proof.
  revert s. induction ts as [|[k t] ts IH]; intros s Hts Hnd Hall.
  { destruct s as [[ts0 l n] now]. simpl in *. by subst. }
  apply Forall_cons in Hall as [(Hid & Hk & Hsl) Hall]. simpl in Hid, Hk, Hsl.
  apply NoDup_cons in Hnd as [Hnotin Hnd].
  cbn [map cfor]. unfold cbind at 1. rewrite cleanup_task_step.
  change (handle ?r s) with (fastapi_app r s).
  cbn [snd] in *. rewrite Hid, url_path_plain by done. rewrite app_delete_task by done.
  unfold delete_task. rewrite Hts. cbn [dict_get]. rewrite decide_True by done.
  cbn [answer snd dict_del]. rewrite decide_True by done.
  rewrite IH; [done|done|done|done].
Qed.

(** The lists [cleanup] leaves: the two default names, and names with a
    slash, which its unquoted URL cannot reach. *)
Definition cleanup_keeps (l : string) : bool :=
  bool_decide (l = "Personal" ∨ l = "Work" ∨ "/"%char ∈ chars l).

Lemma filter_neq_notin (x : string) (l : list string) : x ∉ l → filter (λ y, y ≠ x) l = l.
Proof.
  induction l as [|y l IH]; [done|]. intros Hx%not_elem_of_cons. rewrite filter_cons.
  rewrite decide_True by naive_solver. f_equal. apply IH. naive_solver.
Qed.

(** One round of the second loop of [cleanup] (lines 36-38). *)
Lemma cleanup_list_step {St} `{!Server St} (x : string) (s : St) :
  (n <- sub "name" (ListModel_to_json (mkListModel x)) ;;
   if existsb (py_eq n) [JStr "Personal"; JStr "Work"] then cret tt
   else send (http_delete (url_path "lists" (py_str n))) ;; cret tt)%client s =
    if bool_decide (x = "Personal" ∨ x = "Work") then (Done tt, s)
    else (Done tt, snd (handle (http_delete (url_path "lists" x)) s)).
Proof.
  unfold cbind at 1. unfold sub, ListModel_to_json. cbn [dict_get]. rewrite decide_True by done.
  cbn [lift cret existsb name py_str]. rewrite !py_eq_str, orb_false_r.
  destruct (decide (x = "Personal")) as [->|Hp]; [vm_compute; done|].
  destruct (decide (x = "Work")) as [->|Hw]; [vm_compute; done|].
  rewrite !bool_decide_eq_false_2 by naive_solver. simpl.
  unfold cbind, send. by destruct (handle _ s).
Qed.

(** [DELETE] of [f"{BASE_URL}/lists/{x}"] on a service without tasks,
    for a name the URL keeps whole: a name with a slash is out of reach
    (no route), any other existing name but ["Personal"] is deleted. *)
Lemma app_delete_list_url (x : string) (s : svc) :
  tasks (svc_store s) = [] → x ∈ lists (svc_store s) → x ≠ "Personal" → x ≠ "" → url_whole x →
  snd (fastapi_app (http_delete (url_path "lists" x)) s) =
    if bool_decide ("/"%char ∈ chars x) then s
    else set_store s (mkStore [] (filter (λ l, l ≠ x) (lists (svc_store s))) (next_id (svc_store s))).
Proof.
  intros Ht Hx Hp He Hw. unfold url_path. rewrite url_cut_id by done. case_bool_decide as Hsl.
  - destruct (py_split_two _ _ Hsl) as (a & b & rest & Hsp). rewrite Hsp. by apply app_no_route.
  - rewrite py_split_no_sep, app_delete_list by done.
    unfold delete_list, list_in_use. rewrite Ht, decide_True, decide_False by done. simpl.
    destruct s as [[] ?]. simpl in *. by subst.
Qed.

(** The second loop of [cleanup] deletes every list it can reach but the
    two defaults ([pre] are the names already visited). *)
Lemma cleanup_lists_loop (xs pre : list string) (s : svc) :
  lists (svc_store s) = (pre ++ xs)%list → NoDup (pre ++ xs) → tasks (svc_store s) = [] →
  Forall (λ n, n ≠ "" ∧ url_whole n) xs →
  cfor (map ListModel_to_json (map mkListModel xs))
    (λ o, n <- sub "name" o ;;
          if existsb (py_eq n) [JStr "Personal"; JStr "Work"] then cret tt
          else send (http_delete (url_path "lists" (py_str n))) ;; cret tt)%client s =
    (Done tt, set_store s (mkStore [] (pre ++ List.filter cleanup_keeps xs)%list (next_id (svc_store s)))).
Proof.
  revert pre s. induction xs as [|x xs IH]; intros pre s Hl Hnd Ht He.
  { destruct s as [[ts0 l n] now]. simpl in *. rewrite app_nil_r in *. by subst. }
  apply Forall_cons in He as [[Hxe Hxw] He].
  cbn [map cfor]. unfold cbind at 1. rewrite cleanup_list_step.
  assert (x ∈ lists (svc_store s)) as Hx by (rewrite Hl; set_solver).
  unfold cleanup_keeps at 1. cbn [List.filter].
  destruct (bool_decide (x = "Personal" ∨ x = "Work")) eqn:Hpw.
  - rewrite bool_decide_eq_true_2 by (apply bool_decide_eq_true in Hpw; tauto).
    rewrite (IH (pre ++ [x])%list) by (rewrite <- ?app_assoc; done).
    by rewrite <- app_assoc.
  - apply bool_decide_eq_false in Hpw.
    change (handle ?r s) with (fastapi_app r s).
    rewrite app_delete_list_url by (done || naive_solver).
    case_bool_decide as Hsl.
    + rewrite bool_decide_eq_true_2 by tauto.
      rewrite (IH (pre ++ [x])%list) by (rewrite <- ?app_assoc; done).
      by rewrite <- app_assoc.
    + rewrite bool_decide_eq_false_2 by tauto.
      apply NoDup_app in Hnd as (Hpre & Hdis & Hnd'). apply NoDup_cons in Hnd' as [Hxs Hnd'].
      assert (x ∉ pre) as Hxp by (intros Hin; by apply (Hdis x Hin); left).
      rewrite Hl, filter_app, filter_cons, decide_False, !filter_neq_notin by (done || naive_solver).
      rewrite (IH pre); [done|done| |done|done].
      apply NoDup_app. split_and!; [done| |done]. intros y Hy Hy'. by apply (Hdis y Hy); right.
Qed.

(** The run of [cleanup] on a well-formed service state, step by step. *)
Lemma cleanup_run (s : svc) :
  store_wf (svc_store s) → Forall (λ n, n ≠ "" ∧ url_whole n) (lists (svc_store s)) →
  cleanup s =
    (Done tt, set_store s (mkStore [] (List.filter cleanup_keeps (lists (svc_store s))) (next_id (svc_store s)))).
Proof.
  intros Hwf He. unfold cleanup, ctry.
  set (st := svc_store s).
  assert (fastapi_app (http_get ["tasks"] []) s =
            (ok_response 200 (JArr (map TaskOut_to_json (map snd (tasks st)))), s)) as Hget.
  { change (fastapi_app _ s) with (finish 200 (h_list_tasks None None None s)). cbn. by rewrite list_tasks_all. }
  unfold cbind at 1, send at 1. change (handle ?r s) with (fastapi_app r s). rewrite Hget.
  cbn [status ok_response Z.eqb Pos.eqb rjson lift resp_body].
  rewrite !cbind_ret. cbn [elems]. rewrite !cbind_ret.
  erewrite cbind_Done.
  2: { apply cleanup_tasks_loop; [done|apply Hwf|].
       apply Forall_forall. intros [k t] Hin.
       destruct (wf_tasks _ Hwf _ _ Hin) as (Hid & _ & _ & n & -> & _). simpl.
       split_and!; [done|apply task_id_of_digits|apply task_id_plain]. }
  set (s1 := set_store s (with_tasks (svc_store s) [])).
  assert (fastapi_app (http_get ["lists"] []) s1 =
            (ok_response 200 (JArr (map ListModel_to_json (map mkListModel (lists st)))), s1)) as Hl
    by reflexivity.
  unfold cbind at 1, send at 1. change (handle ?r s1) with (fastapi_app r s1). rewrite Hl.
  cbn [status ok_response Z.eqb Pos.eqb rjson lift resp_body].
  rewrite !cbind_ret. cbn [elems]. rewrite !cbind_ret.
  rewrite (cleanup_lists_loop (lists st) [] s1); [done|done|apply Hwf|done|done].
Qed.


(** [all(isinstance(o, dict) and "name" in o for o in data)] holds on
    the JSON of a list of [ListModel]s. *)
Lemma call_list_models {St} (ls : list ListModel) (σ : St) :
  call (λ o, if is_dict o then cin (JStr "name") o else cret false) (map ListModel_to_json ls) σ = (Done true, σ).
Proof. revert σ. induction ls as [|l ls IH]; intros σ; [done|]. cbn. apply IH. Qed.

(** On the service, [test_get_default_lists] passes exactly when both
    default lists exist, and changes nothing. *)
Lemma test_get_default_lists_service (s : svc) :
  test_get_default_lists s =
    (if bool_decide ("Personal" ∈ lists (svc_store s)) && bool_decide ("Work" ∈ lists (svc_store s))
     then Done tt else Raised AssertionError, s).
Proof.
  unfold test_get_default_lists. unfold cbind at 1, send at 1.
  change (handle ?r s) with (fastapi_app r s).
  assert (fastapi_app (http_get ["lists"] []) s =
            (ok_response 200 (JArr (map ListModel_to_json (list_lists (svc_store s)))), s)) as Hl
    by reflexivity.
  rewrite Hl. unfold expect_status. cbn [status ok_response Z.eqb Pos.eqb assert].
  rewrite !cbind_ret. cbn [rjson lift resp_body ok_response]. rewrite !cbind_ret.
  cbn [is_list assert]. rewrite !cbind_ret. cbn [elems]. rewrite !cbind_ret.
  erewrite cbind_Done by apply call_list_models. cbn [assert]. rewrite !cbind_ret.
  erewrite cbind_Done by apply cmap_sub_name.
  unfold list_lists. rewrite map_map. cbn [name]. rewrite !existsb_py_eq_strs.
  destruct (bool_decide ("Personal" ∈ _)), (bool_decide ("Work" ∈ _)); done.
Qed.

(** C32. [cleanup] does not restore the default lists: on the service,
    from a well-formed state where ["Work"] was deleted,
    [test_get_default_lists] run after [cleanup] fails. *)
Theorem cleanup_then_default_lists_fails (s : svc) :
  store_wf (svc_store s) → Forall (λ n, n ≠ "" ∧ url_whole n) (lists (svc_store s)) →
  "Work" ∉ lists (svc_store s) →
  fst (test_get_default_lists (snd (cleanup s))) = Raised AssertionError.
Proof.
  intros Hwf He Hw. rewrite cleanup_run by done. rewrite test_get_default_lists_service.
  cbn [svc_store set_store lists]. rewrite (bool_decide_eq_false_2 ("Work" ∈ _)), andb_false_r; [done|].
  intros Hin%list_elem_of_In. apply filter_In in Hin as [Hin%list_elem_of_In _]. done.
Qed.

(** [cleanup] puts list names in URLs unquoted too: a list named
    ["Work?old"] makes it delete ["Work"]. *)
Example cleanup_query_name_deletes_work :
  snd (cleanup (mkSvc (mkStore [] ["Personal"; "Work"; "Work?old"] 0) "2025-06-01T09:00:00")) =
    mkSvc (mkStore [] ["Personal"; "Work?old"] 0) "2025-06-01T09:00:00".
Proof. vm_compute. reflexivity. Qed.

(** ** Witnesses *)

Definition witness_task : TaskOut :=
  mkTaskOut (mkTaskBase "Buy milk" (Some "") [] None None None (Some "Personal")) "0" false "2025-06-01T09:00:00".

Definition witness_svc : svc :=
  mkSvc (mkStore [("0", witness_task)] ["Personal"; "Home/Garden"; "Errands"] 1) "2025-06-01T09:00:00".

Lemma witness_svc_wf : store_wf (svc_store witness_svc).
Proof.
  constructor; simpl; [repeat constructor; set_solver|set_solver|repeat constructor; set_solver|].
  intros tid t Hin. apply list_elem_of_singleton in Hin. injection Hin as -> ->.
  unfold task_wf, witness_task; simpl. split_and!; [done|discriminate|exists "Personal"; split; [done|set_solver]|exists 0%N; split; [done|lia]].
Qed.


Lemma cleanup_then_default_lists_fails_witness :
  store_wf (svc_store witness_svc) ∧ Forall (λ n, n ≠ "" ∧ url_whole n) (lists (svc_store witness_svc)) ∧
  ("Work" ∉ lists (svc_store witness_svc)) ∧
  fst (test_get_default_lists (snd (cleanup witness_svc))) = Raised AssertionError.
Proof.
  assert (Forall (λ n, n ≠ "" ∧ url_whole n) (lists (svc_store witness_svc))) as He
    by (apply (bool_decide_unpack _); vm_compute; reflexivity).
  assert ("Work" ∉ lists (svc_store witness_svc)) as Hw by (apply (bool_decide_unpack _); vm_compute; reflexivity).
  split_and!; [exact witness_svc_wf|exact He|exact Hw|exact (cleanup_then_default_lists_fails _ witness_svc_wf He Hw)].
Defined.

(** ** The validation test against any handlers *)

(** The task the third request of [test_create_task_validation] creates,
    as pydantic validates it. *)
Definition invalid_list_task : TaskCreate :=
  mkTaskBase "Invalid List" (Some "") [] None None None (Some "NonExistent").

(** C37. Whatever the handlers, [test_create_task_validation] passes
    exactly when [create_task] answers the task in the unknown list
    ["NonExistent"] with 400: its first two checks (422 for a missing
    title and for recurrence ["yearly"]) hold by pydantic's validation
    alone. *)
Theorem validation_test_handlers {S} `{!Handlers S} (s : S) :
  fst (test_create_task_validation s) = Done tt ↔
  status (fst (finish (sc_create_task h_decorators) (h_create_task invalid_list_task s))) = 400%Z.
Proof.
  assert (validate_TaskCreate (JObj [("description", JStr "No title")]) = VErr ["title"]) as V1
    by reflexivity.
  assert (validate_TaskCreate (JObj [("title", JStr "Invalid Recurrence"); ("recurrence", JStr "yearly")]) =
            VErr ["recurrence"]) as V2 by reflexivity.
  assert (validate_TaskCreate (JObj [("title", JStr "Invalid List"); ("list", JStr "NonExistent")]) =
            VOk invalid_list_task) as V3 by reflexivity.
  unfold test_create_task_validation, post_task, expect_status.
  rewrite send_then. unfold handle at 1, fastapi_server at 1. rewrite app_post_tasks, V1.
  cbn [fst snd validation_error detail_response status assert Z.eqb Pos.eqb]. rewrite cbind_ret.
  rewrite send_then. unfold handle at 1, fastapi_server at 1. rewrite app_post_tasks, V2.
  cbn [fst snd validation_error detail_response status assert Z.eqb Pos.eqb]. rewrite cbind_ret.
  rewrite send_then. unfold handle at 1, fastapi_server at 1. rewrite app_post_tasks, V3.
  unfold assert. match goal with |- context [if ?b then _ else _] => destruct b eqn:E end;
    [apply Z.eqb_eq in E|apply Z.eqb_neq in E]; simpl; naive_solver.
Qed.

(** ** The response model against the interface test *)

(** C19. Every [TaskOut] serialises to an object with the fields and types
    [test_api_interface_consistency] checks exactly when its description,
    due date and list are set: [Optional[str]] fields left [None] are
    serialised as [null], which fails the test's [isinstance(..., str)]. *)
Theorem task_json_interface {S} `{!Server S} (o : TaskOut) (s : S) :
  check_task_interface (TaskOut_to_json o) s =
    (if bool_decide (is_Some (description (out_base o))) && bool_decide (is_Some (due_date (out_base o)))
        && bool_decide (is_Some (task_list (out_base o)))
     then Done tt else Raised AssertionError, s).
Proof.
  destruct o as [[ti [d|] tg [dd|] [[]|] [re|] [l|]] i c ca]; reflexivity.
Qed.

(** The hyphen of a [uuid4()] text is not a digit. *)
Lemma service_passes_main_witness :
  (∃ c, c ∈ chars (u_get run_env) ∧ is_digit c = false) ∧
  (∃ c, c ∈ chars (u_upd run_env) ∧ is_digit c = false) ∧
  List.length (fst (main run_env (init_svc "2025-06-01T09:00:00"))) = 19%nat ∧
  all_passed (fst (main run_env (init_svc "2025-06-01T09:00:00"))) = true.
Proof.
  assert (Hg : ∃ c, c ∈ chars (u_get run_env) ∧ is_digit c = false)
    by (exists "-"%char; split; [simpl; repeat first [apply list_elem_of_here|apply list_elem_of_further]|reflexivity]).
  assert (Hp : ∃ c, c ∈ chars (u_upd run_env) ∧ is_digit c = false)
    by (exists "-"%char; split; [simpl; repeat first [apply list_elem_of_here|apply list_elem_of_further]|reflexivity]).
  split; [exact Hg|split; [exact Hp|]].
  exact (service_passes_main run_env "2025-06-01T09:00:00" Hg Hp).
Defined.

(** The tests' part of the bound is reached: from start-up the service
    passes every test, so [main] sends the 73 requests of the tests and
    the two listings of [cleanup]. *)
Example suite_requests_service_run :
  snd (snd (@main (svc * nat) counting_server witness_env (init_svc "2025-06-01T09:00:00", 0))) = 75%nat.
Proof. vm_compute. reflexivity. Qed.
