(* ===== verification/Legacy.v ===== *)
(** * The older test suite [src/Testing/test_todo_api.py]

    An earlier version of the suite, with expectations the current code
    and suite contradict: creating a task in an unknown list creates the
    list, [PUT /lists/{name}?new_name=...] renames a list, deleting a list
    deletes its tasks, and [GET /lists] answers plain names.  Its tests
    share three module globals ([task_id_1..3], assigned by
    [test_create_tasks] only once its assertions pass; reading one that
    was never assigned raises [NameError]).  The file models every test
    and [__main__], and shows which expectations no server built on the
    skeleton's routes and response models can meet. *)

From S2P Require Import Prelude Json Models Http Skeleton Store Service Suite.
From Stdlib Require Import ZArith.

Local Open Scope client_scope.

(** The module globals of lines 23 and 33-35. *)
Record legacy_globals : Type := mkGlobals {
  task_id_1 : option json;
  task_id_2 : option json;
  task_id_3 : option json
}.

Definition no_globals : legacy_globals := mkGlobals None None None.

(** The tests, in a module of their own: [test_delete_list] and
    [test_recurrence_fields] are also names of the main suite. *)
Module LegacySuite.

Section LegacyTests.
Context {S : Type} `{!Server S}.
Local Abbreviation client := (client S).

Fixpoint lsend_all (ps : list (list (string * json))) : client (list response) :=
  match ps with
  | [] => cret []
  | p :: ps' => r <- send (http_post ["tasks"] (JObj p)) ;; rs <- lsend_all ps' ;; cret (r :: rs)
  end.

(** [any(task["title"] == t for task in data)] *)
Definition any_title (t : string) (data : json) : client bool :=
  xs <- elems data ;; cany (title_is t) xs.

(** Lines 22-35: three tasks, the third in a list that does not exist;
    the ids are stored in the globals only after every check passed. *)
Definition test_create_tasks : client (json * json * json) :=
  resp <- lsend_all [[("title", JStr "Task in Personal"); ("tags", JArr [JStr "alpha"]); ("list", JStr "Personal")];
                     [("title", JStr "Task in Work"); ("tags", JArr [JStr "beta"]); ("list", JStr "Work")];
                     [("title", JStr "Task in Projects"); ("tags", JArr [JStr "gamma"]); ("list", JStr "Projects")]] ;;
  cfor resp (λ r, assert (Z.eqb (status r) 201)) ;;
  r0 <- lift IndexError (resp !! 0%nat) ;; d0 <- rjson r0 ;; i1 <- sub "id" d0 ;;
  r1 <- lift IndexError (resp !! 1%nat) ;; d1 <- rjson r1 ;; i2 <- sub "id" d1 ;;
  r2 <- lift IndexError (resp !! 2%nat) ;; d2 <- rjson r2 ;; i3 <- sub "id" d2 ;;
  cret (i1, i2, i3).

(** Lines 37-48. *)
Definition test_list_tasks_by_list : client unit :=
  r <- send (http_get ["tasks"] [("list", "Personal")]) ;;
  assert (Z.eqb (status r) 200) ;;
  data <- rjson r ;; b <- any_title "Task in Personal" data ;; assert b ;;
  r2 <- send (http_get ["tasks"] [("list", "Projects")]) ;;
  assert (Z.eqb (status r2) 200) ;;
  data2 <- rjson r2 ;; b <- any_title "Task in Projects" data2 ;; assert b.

(** Lines 50-56: [l in data] compares a name with the list's elements. *)
Definition test_get_all_lists : client unit :=
  r <- send (http_get ["lists"] []) ;;
  assert (Z.eqb (status r) 200) ;;
  data <- rjson r ;;
  cfor ["Personal"; "Work"; "Projects"] (λ l, b <- cin (JStr l) data ;; assert b).

(** Lines 58-69: rename through a query parameter. *)
Definition test_rename_list : client unit :=
  r <- send (mkRequest PUT ["lists"; "Projects"] [("new_name", "SideQuests")] [] None) ;;
  assert (Z.eqb (status r) 200) ;;
  j <- rjson r ;; assert (py_eq j (JStr "SideQuests")) ;;
  r2 <- send (http_get ["lists"] []) ;;
  j2 <- rjson r2 ;; b <- cin (JStr "SideQuests") j2 ;; assert b ;;
  j2 <- rjson r2 ;; b <- cin (JStr "Projects") j2 ;; assert (negb b) ;;
  r3 <- send (http_get ["tasks"] [("list", "SideQuests")]) ;;
  j3 <- rjson r3 ;; b <- any_title "Task in Projects" j3 ;; assert b.

(** Lines 71-83: deleting a list deletes its tasks. *)
Definition test_delete_list : client unit :=
  r <- send (http_delete ["lists"; "SideQuests"]) ;;
  assert (Z.eqb (status r) 204) ;;
  r2 <- send (http_get ["lists"] []) ;;
  j2 <- rjson r2 ;; b <- cin (JStr "SideQuests") j2 ;; assert (negb b) ;;
  r3 <- send (http_get ["tasks"] [("list", "SideQuests")]) ;;
  j3 <- rjson r3 ;; assert (py_eq j3 (JArr [])) ;;
  r4 <- send (http_delete ["lists"; "SideQuests"]) ;;
  assert (Z.eqb (status r4) 404).

(** Lines 85-91 (reads the global [task_id_2]). *)
Definition test_delete_task_and_404 (g : legacy_globals) : client unit :=
  tid <- lift NameError (task_id_2 g) ;;
  r <- send (http_delete (url_path "tasks" (py_str tid))) ;;
  assert (Z.eqb (status r) 204) ;;
  r2 <- send (http_get (url_path "tasks" (py_str tid)) []) ;;
  assert (Z.eqb (status r2) 404).

(** Lines 93-100 (reads [task_id_1]). *)
Definition test_update_and_retrieve_task (g : legacy_globals) : client unit :=
  tid <- lift NameError (task_id_1 g) ;;
  r <- send (http_put (url_path "tasks" (py_str tid)) (JObj [("completed", JBool true)])) ;;
  assert (Z.eqb (status r) 200) ;;
  j <- rjson r ;; c <- sub "completed" j ;; assert (is_true c) ;;
  r2 <- send (http_get (url_path "tasks" (py_str tid)) []) ;;
  j2 <- rjson r2 ;; c2 <- sub "completed" j2 ;; assert (is_true c2).

(** Lines 102-105. *)
Definition test_tag_filtering : client unit :=
  r <- send (http_get ["tasks"] [("tags", "alpha")]) ;;
  assert (Z.eqb (status r) 200) ;;
  j <- rjson r ;; xs <- elems j ;;
  b <- cany (λ t, tg <- sub "tags" t ;; cin (JStr "alpha") tg) xs ;; assert b.

(** Lines 107-119. *)
Definition test_recurrence_fields : client unit :=
  r <- send (http_post ["tasks"] (JObj [("title", JStr "Recurring thing"); ("recurrence", JStr "weekly");
                                       ("recurrence_end_date", JStr "2025-12-31")])) ;;
  assert (Z.eqb (status r) 201) ;;
  j <- rjson r ;; tid <- sub "id" j ;;
  r2 <- send (http_get (url_path "tasks" (py_str tid)) []) ;;
  task <- rjson r2 ;;
  x <- sub "recurrence" task ;; assert (py_eq x (JStr "weekly")) ;;
  y <- sub "recurrence_end_date" task ;; assert (py_eq y (JStr "2025-12-31")).

(** Lines 121-129: [params={"completed": True}] is sent as [completed=true]. *)
Definition test_list_and_filter_completed : client unit :=
  r <- send (http_get ["tasks"] [("completed", "true")]) ;;
  j <- rjson r ;; xs <- elems j ;;
  cfor xs (λ t, c <- sub "completed" t ;; assert (is_true c)) ;;
  r2 <- send (http_get ["tasks"] [("completed", "false")]) ;;
  j2 <- rjson r2 ;; xs2 <- elems j2 ;;
  cfor xs2 (λ t, c <- sub "completed" t ;; assert (is_false c)).

(** [run_test] of lines 8-18 on a test that reads the globals. *)
Definition run_legacy (group name : string) (t : legacy_globals → client unit)
    : S * legacy_globals → (string * string * bool) * (S * legacy_globals) :=
  λ '(s, g), let '(res, s') := run_test group name (t g) s in (res, (s', g)).

(** [test_create_tasks] under [run_test]: it assigns the globals only
    when it returns. *)
Definition run_create_tasks : S * legacy_globals → (string * string * bool) * (S * legacy_globals) :=
  λ '(s, g),
    match test_create_tasks s with
    | (Done (i1, i2, i3), s') => (("Tasks", "Create tasks in lists", true), (s', mkGlobals (Some i1) (Some i2) (Some i3)))
    | (Raised _, s') => (("Tasks", "Create tasks in lists", false), (s', g))
    end.

(** Lines 137-149: the ten tests in order, on one server, no clean-up. *)
Definition legacy_tests : list (S * legacy_globals → (string * string * bool) * (S * legacy_globals)) :=
  [run_create_tasks;
   run_legacy "Tasks" "List tasks by list" (λ _, test_list_tasks_by_list);
   run_legacy "Lists" "Get all lists" (λ _, test_get_all_lists);
   run_legacy "Lists" "Rename list" (λ _, test_rename_list);
   run_legacy "Lists" "Delete list" (λ _, test_delete_list);
   run_legacy "Tasks" "Delete single task, check 404" test_delete_task_and_404;
   run_legacy "Tasks" "Update and retrieve task" test_update_and_retrieve_task;
   run_legacy "Tasks" "Filter by tag" (λ _, test_tag_filtering);
   run_legacy "Tasks" "Check recurrence fields" (λ _, test_recurrence_fields);
   run_legacy "Tasks" "List and filter completed status" (λ _, test_list_and_filter_completed)].

Definition legacy_main (s : S) : list (string * string * bool) * (S * legacy_globals) :=
  run_all legacy_tests (s, no_globals).
End LegacyTests.
End LegacySuite.
Import LegacySuite.

(** ** Facts *)

Section LegacyFacts.
Context {S : Type} `{!Server S}.

(** A loop of assertions fails as soon as one element fails its check. *)
Lemma cfor_assert_fails {A} (f : A → bool) (xs : list A) (s : S) :
  (∃ x, x ∈ xs ∧ f x = false) → cfor xs (λ x, assert (f x)) s = (Raised AssertionError, s).
Proof.
  intros (x & Hx & Hf). induction xs as [|y xs IH]; [set_solver|].
  cbn [cfor]. unfold cbind, assert. apply elem_of_cons in Hx as [->|Hx].
  - by rewrite Hf.
  - destruct (f y); [by apply IH|done].
Qed.
End LegacyFacts.

(** A name is never [==] to the object a [ListModel] is serialised to. *)
Lemma py_in_list_models (n : string) (ls : list ListModel) :
  py_in (JStr n) (JArr (map ListModel_to_json ls)) = Some false.
Proof. cbn [py_in]. f_equal. induction ls; done. Qed.

(** The third payload of [test_create_tasks]. *)
Definition payload_projects : list (string * json) :=
  [("title", JStr "Task in Projects"); ("tags", JArr [JStr "gamma"]); ("list", JStr "Projects")].

Lemma app_post_task_lists (p : list (string * json)) (s : svc) :
  lists (svc_store (snd (fastapi_app (http_post ["tasks"] (JObj p)) s))) = lists (svc_store s).
Proof.
  destruct (validate_TaskCreate (JObj p)) as [c|e] eqn:Hv.
  - rewrite (app_post_task _ c) by done. rewrite create_task_spec.
    by repeat case_decide.
  - by rewrite app_post_tasks, Hv.
Qed.

Lemma app_post_projects (s : svc) :
  "Projects" ∉ lists (svc_store s) →
  fastapi_app (http_post ["tasks"] (JObj payload_projects)) s = (error_response 400 ReferenceError, s).
Proof.
  intros Hn. rewrite (app_post_task _ (mkTaskBase "Task in Projects" (Some "") ["gamma"] None None None (Some "Projects")))
    by reflexivity.
  rewrite create_task_spec. simpl. by rewrite decide_False.
Qed.

(** C22. Whatever the handlers, as long as [GET /lists] answers a list
    of [ListModel] objects (the [response_model] of the route),
    [test_get_all_lists] fails: it looks for the plain names in a list of
    objects (line 56). *)
Theorem legacy_get_all_lists_fails {S} `{!Handlers S} (s : S) (ls : list ListModel) :
  fst (h_get_lists s) = HReturn (JArr (map ListModel_to_json ls)) →
  ∃ s', test_get_all_lists s = (Raised AssertionError, s').
Proof.
  intros Hb. unfold test_get_all_lists, send, cbind, handle, fastapi_server.
  change (fastapi_app (http_get ["lists"] []) s) with (finish (sc_get_lists h_decorators) (h_get_lists s)).
  destruct (h_get_lists s) as [o s'] eqn:E. simpl in Hb. subst o.
  exists s'. unfold finish, assert. cbn [status].
  destruct (Z.eqb (sc_get_lists h_decorators) 200) eqn:Hc; [|done].
  apply Z.eqb_eq in Hc. rewrite Hc. cbn [Z.eqb Pos.eqb].
  unfold rjson, lift. cbn [resp_body cret cfor]. unfold cin.
  rewrite py_in_list_models. reflexivity.
Qed.

(** Whatever the handlers, [test_rename_list] fails on its first
    assertion without changing the state: the application declares no
    [PUT] route on [/lists/{name}], so the rename is answered 405. *)
Theorem legacy_rename_list_fails {S} `{!Handlers S} (s : S) :
  fst (fastapi_app (mkRequest PUT ["lists"; "Projects"] [("new_name", "SideQuests")] [] None) s) =
    detail_response 405 (JStr "Method Not Allowed") ∧
  test_rename_list s = (Raised AssertionError, s).
Proof. split; reflexivity. Qed.

(** C23. On the store-backed service, in any state where no list is
    named ["Projects"], [test_create_tasks] fails: the service refuses a
    task in an unknown list instead of creating the list (line 29). *)
Theorem legacy_create_tasks_fails (s : svc) :
  "Projects" ∉ lists (svc_store s) →
  ∃ s', test_create_tasks s = (Raised AssertionError, s').
Proof.
  intros Hn. unfold test_create_tasks, lsend_all.
  unfold cbind at 1 2 3 4 5 6 7 8, send, cret at 1 2 3 4, handle, fastapi_server.
  match goal with |- context [fastapi_app ?q s] => destruct (fastapi_app q s) as [r1 s1] eqn:E1 end.
  assert (lists (svc_store s1) = lists (svc_store s)) as L1
    by (change s1 with (snd (r1, s1)); rewrite <- E1; apply app_post_task_lists).
  match goal with |- context [fastapi_app ?q s1] => destruct (fastapi_app q s1) as [r2 s2] eqn:E2 end.
  assert (lists (svc_store s2) = lists (svc_store s1)) as L2
    by (change s2 with (snd (r2, s2)); rewrite <- E2; apply app_post_task_lists).
  rewrite app_post_projects by congruence.
  exists s2. cbv beta iota zeta.
  unfold cbind at 1. rewrite cfor_assert_fails; [done|]. exists (error_response 400 ReferenceError). set_solver.
Qed.

(** C24. Run from start-up against the store-backed service, the legacy
    [__main__] records exactly three passes: the tag filter, the
    recurrence fields and the completion filter.  The other seven fail
    on the expectations the service does not share (lists created on
    demand, renaming, names in [GET /lists]) or on the globals
    [test_create_tasks] never assigned. *)
Theorem service_legacy_results (now : string) :
  map (λ r, r.2) (fst (legacy_main (init_svc now))) =
    [false; false; false; false; false; false; false; true; true; true].
Proof. vm_compute. reflexivity. Qed.

(** Run against the skeleton of [api_skeleton.py], the legacy
    [__main__] records a failure for each of its ten tests. *)
Theorem skeleton_fails_legacy :
  List.length (fst (legacy_main (S:=unit) tt)) = 10%nat ∧
  forallb (λ r, negb r.2) (fst (legacy_main (S:=unit) tt)) = true.
Proof. split; vm_compute; reflexivity. Qed.

(** ** Witnesses *)

Lemma legacy_get_all_lists_fails_witness :
  fst (h_get_lists (init_svc "2025-06-01T09:00:00")) =
    HReturn (JArr (map ListModel_to_json (list_lists init_store))) ∧
  ∃ s', test_get_all_lists (init_svc "2025-06-01T09:00:00") = (Raised AssertionError, s').
Proof.
  assert (fst (h_get_lists (init_svc "2025-06-01T09:00:00")) =
            HReturn (JArr (map ListModel_to_json (list_lists init_store)))) as H by reflexivity.
  split; [exact H|exact (legacy_get_all_lists_fails _ _ H)].
Defined.

Lemma legacy_create_tasks_fails_witness :
  "Projects" ∉ lists (svc_store (init_svc "2025-06-01T09:00:00")) ∧
  ∃ s', test_create_tasks (init_svc "2025-06-01T09:00:00") = (Raised AssertionError, s').
Proof.
  assert ("Projects" ∉ lists (svc_store (init_svc "2025-06-01T09:00:00"))) as H by (simpl; set_solver).
  split; [exact H|exact (legacy_create_tasks_fails _ H)].
Defined.
