(* ===== verification/Generator.v ===== *)
(** * The task generator [src/testing/create_tasks.py]

    A command-line client of the API.  It asks a language model for task
    ideas and posts them ([--keywords], [--count], [--list], [--dry-run]),
    or manages lists ([--show-lists], [--create-list], [--delete-list]).
    The model is the client monad of [Http.v] over a state that pairs the
    server's state with the lines the script prints, as [event]s; the
    language model is a section variable [llm]: the parsed reply to a
    prompt, [None] when [json.loads] raises.  [exit(0)] and
    [parser.error] end the run with [SystemExit].  The wall-clock timings
    the script prints are not modelled.  Over a server that counts the
    requests it handles ([counting_server] of [Cost.v]) the section
    [Requests] bounds the requests a run sends, in the program logic of
    [Cost.v].

    The older generator [src/Testing/create_tasks.py] is the same script
    without list management and without the [list] field in the prompt:
    [legacy_generator_main]. *)

From S2P Require Import Prelude Json Models Http Skeleton Store Service Suite Cost.
From Stdlib Require Import ZArith.

Local Open Scope client_scope.

(** What the script prints, by the line that prints it. *)
Inductive event : Type :=
| ParseFailed                             (* lines 41-42 *)
| TaskPosted (i : nat) (title : json)     (* line 52 *)
| TaskFailed (i : nat) (code : Z)         (* line 55 *)
| PostSummary (success total : nat)       (* line 57 *)
| ListsFetchFailed (code : Z)             (* line 66 *)
| ListCreated (name : string)             (* line 74 *)
| ListCreateFailed (code : Z)             (* line 77 *)
| ListDeleted (name : string)             (* line 85 *)
| ListDeleteFailed (code : Z)             (* line 88 *)
| ListShown (name : json)                 (* line 109 *)
| CreateListDone                          (* line 114 *)
| DeleteListDone                          (* line 119 *)
| ListMissing (name : string)             (* line 135 *)
| FallbackToDefault                       (* line 137 *)
| Generating (count : Z) (keywords : list string) (* line 142 *)
| NoTasks                                 (* line 146 *)
| DryRun (tasks : json).                  (* lines 148-149 *)

(** The script's state: the server's and what has been printed. *)
#[export] Instance logged_server {S} `{!Server S} : Server (S * list event) :=
  λ r '(s, out), let '(resp, s') := handle r s in (resp, (s', out)).

(** The number of requests a run over [counting_server] has sent. *)
Definition requests_sent {S} (σ : (S * nat) * list event) : nat := σ.1.2.

(** The parsed command line (lines 93-102); an option not given is
    [None] ([False] for the flags). *)
Record args : Type := mkArgs {
  a_keywords : option string;
  a_count : Z;
  a_dry_run : bool;
  a_list : option string;
  a_create_list : option string;
  a_delete_list : option string;
  a_show_lists : bool
}.

(** Truthiness of an optional string argument. *)
Definition given (o : option string) : option string :=
  match o with Some v => if decide (v = "") then None else Some v | None => None end.

(** [str(n)] of an [int]. *)
Definition py_int_str (n : Z) : string := pretty n.

Definition nl : string := String (ascii_of_nat 10) EmptyString.
Definition dq : string := String (ascii_of_nat 34) EmptyString.

(** One line of the JSON template of the prompt: [  "k": ty\n]. *)
Definition template_line (k ty : string) : string := "  " ++ dq ++ k ++ dq ++ ": " ++ ty ++ nl.

(** The prompt of lines 15-29. *)
Definition build_prompt (keywords : list string) (num_tasks : Z) (list_name : option string) : string :=
  "Generate " ++ py_int_str num_tasks ++ " realistic to-do tasks related to: " ++
    py_join ", " keywords ++ "." ++ nl ++
  "Each task should be in JSON format like:" ++ nl ++
  "{" ++ nl ++
  template_line "title" "string," ++
  template_line "description" "string," ++
  template_line "tags" "[string]," ++
  template_line "list" "string,  // List name (default: 'Personal')" ++
  template_line "recurrence" "string|null,  // allowed values: 'daily', 'weekly', 'monthly', or null" ++
  template_line "recurrence_end_date" "string|null (ISO 8601)," ++
  template_line "due_date" "string|null (ISO 8601)" ++
  "}" ++ nl ++
  "Use the list name: '" ++ default "Personal" (given list_name) ++ "' for all tasks." ++ nl ++
  "Return a JSON array of task objects, not code blocks or explanations.".

(** The prompt of the older script ([src/Testing/create_tasks.py]
    lines 14-26): no [list] field, no list name. *)
Definition build_prompt_legacy (keywords : list string) (num_tasks : Z) : string :=
  "Generate " ++ py_int_str num_tasks ++ " realistic to-do tasks related to: " ++
    py_join ", " keywords ++ "." ++ nl ++
  "Each task should be in JSON format like:" ++ nl ++
  "{" ++ nl ++
  template_line "title" "string," ++
  template_line "description" "string," ++
  template_line "tags" "[string]," ++
  template_line "recurrence" "string|null,  // allowed values: 'daily', 'weekly', 'monthly', or null" ++
  template_line "recurrence_end_date" "string|null (ISO 8601)," ++
  template_line "due_date" "string|null (ISO 8601)" ++
  "}" ++ nl ++
  "Return a JSON array of task objects, not code blocks or explanations.".

(** [httpx.post(url, json=x)]: [json=None] sends no body. *)
Definition post_json (path : list string) (x : json) : request :=
  mkRequest POST path [] [] (match x with JNull => None | _ => Some x end).

(** [f"{API_BASE}/lists/{name}"] *)
Definition list_path (name : string) : list string := url_path "lists" name.

(** [[k.strip() for k in args.keywords.split(",")]] (line 126) *)
Definition parse_keywords (kw : string) : list string := map strip (py_split "," kw).

(** The script's functions, under the script's name: [create_list] and
    [delete_list] are also operations of the store. *)
Module CreateTasks.

Section Generator.
Context {S : Type} `{!Server S}.
Local Abbreviation gen := (client (S * list event)).

(** The language model with [json.loads] (lines 31-39): the parsed
    reply to a prompt, [None] when the reply is not JSON. *)
Variable llm : string → option json.

(** [print(...)] *)
Definition emit (e : event) : gen unit := λ '(s, out), (Done tt, (s, (out ++ [e])%list)).

(** Lines 14-43. *)
Definition generate_task_ideas (keywords : list string) (num_tasks : Z) (list_name : option string) : gen json :=
  match llm (build_prompt keywords num_tasks list_name) with
  | Some j => cret j
  | None => emit ParseFailed ;; cret (JArr [])
  end.

(** The loop of lines 49-55 from the [i]-th task, with [success] tasks
    posted so far; returns the final count. *)
Fixpoint post_loop (i success : nat) (ts : list json) : gen nat :=
  match ts with
  | [] => cret success
  | t :: ts' =>
      res <- send (post_json ["tasks"] t) ;;
      if Z.eqb (status res) 201 then
        title <- sub "title" t ;; emit (TaskPosted (Nat.succ i) title) ;; post_loop (Nat.succ i) (Nat.succ success) ts'
      else
        emit (TaskFailed (Nat.succ i) (status res)) ;; post_loop (Nat.succ i) success ts'
  end.

(** Lines 45-57: [enumerate(tasks)] iterates whatever [tasks] is. *)
Definition post_tasks_to_api (tasks : json) : gen unit :=
  ts <- elems tasks ;;
  success <- post_loop 0 0 ts ;;
  n <- lift TypeError (py_len tasks) ;;
  emit (PostSummary success n).

(** Lines 59-67. *)
Definition get_all_lists : gen json :=
  res <- send (http_get ["lists"] []) ;;
  if Z.eqb (status res) 200 then rjson res
  else emit (ListsFetchFailed (status res)) ;; cret (JArr []).

(** Lines 69-78. *)
Definition create_list (name : string) : gen bool :=
  res <- send (http_post ["lists"] (JObj [("name", JStr name)])) ;;
  if Z.eqb (status res) 201 then emit (ListCreated name) ;; cret true
  else emit (ListCreateFailed (status res)) ;; cret false.

(** Lines 80-89. *)
Definition delete_list (name : string) : gen bool :=
  res <- send (mkRequest DELETE (list_path name) [] [] None) ;;
  if Z.eqb (status res) 204 then emit (ListDeleted name) ;; cret true
  else emit (ListDeleteFailed (status res)) ;; cret false.

(** [if list_name and not args.dry_run:] (lines 131-138): a list the
    API does not report is created; if that fails the tasks go to the
    default list. *)
Definition ensure_list (a : args) : gen (option string) :=
  match given (a_list a) with
  | Some l =>
      if a_dry_run a then cret (Some l) else
      lists <- get_all_lists ;; xs <- elems lists ;;
      names <- cmap (sub "name") xs ;;
      if existsb (py_eq (JStr l)) names then cret (Some l)
      else emit (ListMissing l) ;; b <- create_list l ;;
           if b then cret (Some l) else emit FallbackToDefault ;; cret None
  | None => cret (a_list a)
  end.

(** Lines 140-155. *)
Definition generate_and_post (a : args) (keywords : list string) (list_name : option string) : gen unit :=
  emit (Generating (a_count a) keywords) ;;
  tasks <- generate_task_ideas keywords (a_count a) list_name ;;
  if negb (py_truthy tasks) then emit NoTasks
  else if a_dry_run a then emit (DryRun tasks)
  else post_tasks_to_api tasks.

(** [__main__] (lines 91-155); [Done] is a normal end of the script. *)
Definition main (a : args) : gen unit :=
  (if a_show_lists a then
     lists <- get_all_lists ;; xs <- elems lists ;;
     cfor xs (λ o, n <- sub "name" o ;; emit (ListShown n)) ;;
     raise (SystemExit 0)
   else cret tt) ;;
  (match given (a_create_list a) with
   | Some n => b <- create_list n ;; (if b then emit CreateListDone else cret tt) ;; raise (SystemExit 0)
   | None => cret tt
   end) ;;
  (match given (a_delete_list a) with
   | Some n => b <- delete_list n ;; (if b then emit DeleteListDone else cret tt) ;; raise (SystemExit 0)
   | None => cret tt
   end) ;;
  kw <- lift (SystemExit 2) (given (a_keywords a)) ;;
  list_name <- ensure_list a ;;
  generate_and_post a (parse_keywords kw) list_name.

(** The older script, [src/Testing/create_tasks.py]: lines 13-41 ... *)
Definition generate_task_ideas_legacy (keywords : list string) (num_tasks : Z) : gen json :=
  match llm (build_prompt_legacy keywords num_tasks) with
  | Some j => cret j
  | None => emit ParseFailed ;; cret (JArr [])
  end.

(** ... and lines 55-75: [--keywords] is required (an empty value is
    accepted), and there is no list management. *)
Definition legacy_generator_main (a : args) : gen unit :=
  kw <- lift (SystemExit 2) (a_keywords a) ;;
  let keywords := parse_keywords kw in
  emit (Generating (a_count a) keywords) ;;
  tasks <- generate_task_ideas_legacy keywords (a_count a) ;;
  if negb (py_truthy tasks) then emit NoTasks
  else if a_dry_run a then emit (DryRun tasks)
  else post_tasks_to_api tasks.
End Generator.
End CreateTasks.

(** ** Facts *)

Section LoggedFacts.
Context {S : Type} `{!Server S}.

Lemma send_logged (r : request) (s : S) (out : list event) :
  send r (s, out) = (Done (fst (handle r s)), (snd (handle r s), out)).
Proof. unfold send. cbn. by destruct (handle r s). Qed.

Lemma emit_logged (e : event) (s : S) (out : list event) :
  CreateTasks.emit e (s, out) = (Done tt, (s, (out ++ [e])%list)).
Proof. reflexivity. Qed.
End LoggedFacts.

(** A generated task the service accepts in a store: an object that
    validates as a [TaskCreate], with a non-empty title and a list (by
    default ["Personal"]) among the store's lists [ls]. *)
Definition postable (ls : list string) (t : json) : bool :=
  match t with
  | JObj fs =>
      match validate_TaskCreate (JObj fs) with
      | VOk c => bool_decide (title c ≠ "") && bool_decide (default "Personal" (task_list c) ∈ ls)
      | VErr _ => false
      end
  | _ => false
  end.

Lemma create_task_ok_shape c now st o st' :
  store_wf st → create_task c now st = inr (o, st') →
  lists st' = lists st ∧ List.length (tasks st') = Nat.succ (List.length (tasks st)) ∧ store_wf st'.
Proof.
  intros Hwf Hc. split_and!; [| |by eapply create_task_wf];
    revert Hc; rewrite create_task_spec; repeat case_decide; intros; simplify_eq; simpl; [done|].
  rewrite dict_set_fresh by (by apply fresh_task_id). rewrite length_app, Nat.add_1_r. reflexivity.
Qed.

Lemma app_post_postable (t : json) (s : svc) :
  postable (lists (svc_store s)) t = true →
  ∃ fs c o st', t = JObj fs ∧ dict_get "title" fs = Some (JStr (title c)) ∧
    create_task c (svc_now s) (svc_store s) = inr (o, st') ∧
    fastapi_app (post_json ["tasks"] t) s = (ok_response 201 (TaskOut_to_json o), set_store s st').
Proof.
  destruct t as [| | | | |fs]; try done. unfold postable.
  destruct (validate_TaskCreate (JObj fs)) as [c|] eqn:Hv; [|done].
  rewrite andb_true_iff, !bool_decide_eq_true. intros [Ht Hl].
  pose proof (create_task_spec c (svc_now s) (svc_store s)) as Hc.
  rewrite decide_False in Hc by done. rewrite decide_True in Hc by done.
  eexists fs, c, _, _. split_and!; [done|by apply validate_TaskCreate_title|exact Hc|].
  change (post_json ["tasks"] (JObj fs)) with (http_post ["tasks"] (JObj fs)).
  rewrite (app_post_task _ c) by done. by rewrite Hc.
Qed.

Lemma post_loop_service (i k : nat) (ts : list json) (s : svc) (out : list event) :
  store_wf (svc_store s) → Forall (λ t, postable (lists (svc_store s)) t = true) ts →
  ∃ s' evs, CreateTasks.post_loop i k ts (s, out) = (Done (k + List.length ts)%nat, (s', (out ++ evs)%list)) ∧
    List.length evs = List.length ts ∧
    lists (svc_store s') = lists (svc_store s) ∧
    List.length (tasks (svc_store s')) = (List.length (tasks (svc_store s)) + List.length ts)%nat ∧
    store_wf (svc_store s').
Proof.
  revert i k s out. induction ts as [|t ts IH]; intros i k s out Hwf Hall.
  { exists s, []. rewrite !app_nil_r, Nat.add_0_r. auto. }
  apply Forall_cons in Hall as [Ht Hall].
  destruct (app_post_postable t s Ht) as (fs & c & o & st' & -> & Htitle & Hc & Happ).
  destruct (create_task_ok_shape _ _ _ _ _ Hwf Hc) as (Hls & Hlen & Hwf').
  cbn [CreateTasks.post_loop]. unfold cbind at 1. rewrite send_logged.
  change (handle (post_json ["tasks"] (JObj fs)) s) with (fastapi_app (post_json ["tasks"] (JObj fs)) s).
  rewrite Happ. cbn [fst snd status ok_response]. rewrite Z.eqb_refl.
  unfold cbind at 1. cbn [sub]. rewrite Htitle. cbn [lift cret].
  unfold cbind at 1. rewrite emit_logged.
  destruct (IH (Nat.succ i) (Nat.succ k) (set_store s st') (out ++ [TaskPosted (Nat.succ i) (JStr (title c))])%list)
    as (s'' & evs & Hrun & Hn & Hl'' & Hlen'' & Hwf'').
  { exact Hwf'. }
  { simpl. rewrite Hls. exact Hall. }
  exists s'', (TaskPosted (Nat.succ i) (JStr (title c)) :: evs). rewrite Hrun, <- app_assoc.
  simpl in *. unfold Nat.succ in *. split_and!; [f_equal; f_equal; lia|by rewrite Hn|congruence|lia|done].
Qed.

(** [post_tasks_to_api] on the service, through [post_loop_service]. *)
Lemma post_tasks_run (ts : list json) (s : svc) (out : list event) :
  store_wf (svc_store s) → Forall (λ t, postable (lists (svc_store s)) t = true) ts →
  ∃ s' evs, CreateTasks.post_tasks_to_api (JArr ts) (s, out) =
      (Done tt, (s', (out ++ evs ++ [PostSummary (List.length ts) (List.length ts)])%list)) ∧
    List.length evs = List.length ts ∧
    lists (svc_store s') = lists (svc_store s) ∧
    List.length (tasks (svc_store s')) = (List.length (tasks (svc_store s)) + List.length ts)%nat ∧
    store_wf (svc_store s').
Proof.
  intros Hwf Hall.
  destruct (post_loop_service 0 0 ts s out Hwf Hall) as (s' & evs & Hrun & Hn & Hl & Hlen & Hwf').
  exists s', evs. split; [|done].
  unfold CreateTasks.post_tasks_to_api. cbn [elems cret cbind]. unfold cbind at 1.
  rewrite Hrun. cbn [cbind py_len lift cret]. rewrite emit_logged, <- app_assoc. done.
Qed.

(** C25. On the service, posting generated tasks that are each
    acceptable posts them all: the script reports [n/n] posted, prints one
    success line per task, and the store gains exactly [n] tasks with its
    lists unchanged and its invariant kept. *)
Theorem post_tasks_service (ts : list json) (s : svc) (out : list event) :
  store_wf (svc_store s) → Forall (λ t, postable (lists (svc_store s)) t = true) ts →
  ∃ s' evs, CreateTasks.post_tasks_to_api (JArr ts) (s, out) =
      (Done tt, (s', (out ++ evs ++ [PostSummary (List.length ts) (List.length ts)])%list)) ∧
    List.length evs = List.length ts ∧
    lists (svc_store s') = lists (svc_store s) ∧
    List.length (tasks (svc_store s')) = (List.length (tasks (svc_store s)) + List.length ts)%nat ∧
    store_wf (svc_store s').
Proof. exact (post_tasks_run ts s out). Qed.

(** C27. Whatever the server, a dry run that manages no list sends no
    request: the server's state after the script is the one before. *)
Theorem dry_run_sends_nothing {S} `{!Server S} (llm : string → option json) (a : args) (s : S) (out : list event) :
  a_dry_run a = true → a_show_lists a = false →
  given (a_create_list a) = None → given (a_delete_list a) = None →
  fst (snd (CreateTasks.main llm a (s, out))) = s.
Proof.
  intros Hd Hs Hc Hdl. unfold CreateTasks.main. rewrite Hs, Hc, Hdl.
  cbn [cbind cret]. destruct (given (a_keywords a)) as [kw|]; [|done]. cbn [lift cret cbind].
  unfold CreateTasks.ensure_list. destruct (given (a_list a)); rewrite ?Hd; cbn [cret cbind];
    unfold CreateTasks.generate_and_post, CreateTasks.generate_task_ideas; rewrite ?Hd;
    unfold cbind; rewrite emit_logged;
    destruct (llm _); cbn; rewrite ?Hd; repeat case_match; simplify_eq; done.
Qed.

(** How each store operation moves the list names. *)
Lemma create_task_lists c now st t st' : create_task c now st = inr (t, st') → lists st' = lists st.
Proof. rewrite create_task_spec. repeat case_decide; intros; simplify_eq; done. Qed.

Lemma update_task_lists tid u st t st' : update_task tid u st = inr (t, st') → lists st' = lists st.
Proof. unfold update_task. repeat case_match; intros; simplify_eq; done. Qed.

Lemma delete_task_lists tid st u st' : delete_task tid st = inr (u, st') → lists st' = lists st.
Proof. unfold delete_task. repeat case_match; intros; simplify_eq; done. Qed.

Lemma create_list_lists l st l' st' : create_list l st = inr (l', st') → lists st ⊆ lists st'.
Proof. unfold create_list. repeat case_decide; intros; simplify_eq; simpl; set_solver. Qed.

Lemma delete_list_lists n st u st' m :
  delete_list n st = inr (u, st') → m ≠ n → m ∈ lists st → m ∈ lists st'.
Proof.
  unfold delete_list. repeat (case_decide || case_match); intros; simplify_eq; simpl; [].
  apply list_elem_of_filter. done.
Qed.

(** The only route that deletes a list takes the name from the path. *)
Lemma route_request_delete_list m p n : route_request m p = Matched (RDeleteList n) → p = ["lists"; n].
Proof. unfold route_request. repeat (case_match || case_decide); intros; simplify_eq; done. Qed.


(** C30. On the service, a request whose path segments have no slash
    (every request an HTTP client can send) never removes a list whose
    name contains a slash, although [POST /lists] accepts such names. *)
Theorem slash_list_persists (r : request) (s : svc) (n : string) :
  Forall (λ seg, "/"%char ∉ chars seg) (req_path r) →
  n ∈ lists (svc_store s) → "/"%char ∈ chars n →
  n ∈ lists (svc_store (snd (fastapi_app r s))).
Proof.
  intros Hsegs Hn Hslash. unfold fastapi_app.
  destruct (route_request _ _) as [rt| |] eqn:Hr; [|done|by destruct (redirects _ _)].
  destruct rt as [| |tid|tid|tid| | |n0]; cbv zeta; unfold with_body; cbn [h_create_task h_list_tasks h_get_task
    h_update_task h_delete_task h_get_lists h_create_list h_delete_list store_handlers];
    unfold finish, hanswer; repeat case_match; simplify_eq; cbn [snd svc_store set_store] in *; try done.
  - by erewrite create_task_lists.
  - by erewrite update_task_lists.
  - by erewrite delete_task_lists.
  - by eapply create_list_lists.
  - eapply delete_list_lists; [done| |done]. intros ->.
    apply route_request_delete_list in Hr. rewrite Hr in Hsegs.
    apply Forall_cons in Hsegs as [_ Hsegs]. by apply Forall_cons in Hsegs as [? _].
Qed.

(** C29. The script's [delete_list] puts the name in the URL unquoted, so
    a [?] or [#] in it ends the path: for a name [m ++ "?" ++ rest] it
    deletes the list [m] instead, on the service, whenever [m] can be
    deleted, and reports the name it was given as deleted; the list of
    that name is untouched. *)
Theorem delete_list_query_name (m rest : string) (c : ascii) (s : svc) (out : list event) :
  ends_path c = true → url_plain m = true → m ≠ "" → m ≠ "Personal" →
  m ∈ lists (svc_store s) → list_in_use m (svc_store s) = false →
  CreateTasks.delete_list (m ++ String c rest) (s, out) =
    (Done true,
     (set_store s (mkStore (tasks (svc_store s)) (filter (λ l, l ≠ m) (lists (svc_store s))) (next_id (svc_store s))),
      (out ++ [ListDeleted (m ++ String c rest)])%list)).
Proof.
  intros Hc Hm He Hp Hin Hu. apply url_plain_spec in Hm as [Hw Hsl].
  unfold CreateTasks.delete_list, cbind at 1. rewrite send_logged.
  change (handle ?r s) with (fastapi_app r s).
  replace (list_path (m ++ String c rest)) with ["lists"; m]
    by (unfold list_path, url_path; by rewrite url_cut_app, py_split_no_sep).
  change (mkRequest DELETE ["lists"; m] [] [] None) with (http_delete ["lists"; m]).
  rewrite app_delete_list by done. unfold delete_list.
  rewrite decide_True, decide_False, Hu by done. reflexivity.
Qed.

(** ** The script against the service *)

Lemma get_all_lists_service (s : svc) (out : list event) :
  CreateTasks.get_all_lists (s, out) = (Done (JArr (map ListModel_to_json (list_lists (svc_store s)))), (s, out)).
Proof. reflexivity. Qed.

Lemma create_list_service (l : string) (s : svc) (out : list event) :
  l ∉ lists (svc_store s) → all_space l = false →
  CreateTasks.create_list l (s, out) =
    (Done true,
     (set_store s (mkStore (tasks (svc_store s)) (lists (svc_store s) ++ [l])%list (next_id (svc_store s))),
      (out ++ [ListCreated l])%list)).
Proof.
  intros Hnew Hsp. unfold CreateTasks.create_list, cbind at 1. rewrite send_logged.
  change (handle ?r s) with (fastapi_app r s). rewrite app_post_list, create_list_spec.
  simpl. rewrite decide_False by congruence. rewrite decide_False by done. reflexivity.
Qed.

(** [--list L] naming a list the service does not have, outside a dry
    run: the script creates it and goes on with [L]. *)
Lemma ensure_list_new (a : args) (l : string) (s : svc) (out : list event) :
  given (a_list a) = Some l → a_dry_run a = false →
  l ∉ lists (svc_store s) → all_space l = false →
  CreateTasks.ensure_list a (s, out) =
    (Done (Some l),
     (set_store s (mkStore (tasks (svc_store s)) (lists (svc_store s) ++ [l])%list (next_id (svc_store s))),
      (out ++ [ListMissing l; ListCreated l])%list)).
Proof.
  intros Hl Hd Hnew Hsp. unfold CreateTasks.ensure_list. rewrite Hl, Hd.
  erewrite cbind_Done by apply get_all_lists_service.
  erewrite cbind_Done by reflexivity.
  erewrite cbind_Done by apply cmap_sub_name.
  unfold list_lists. rewrite map_map. cbn [name]. rewrite existsb_py_eq_strs, bool_decide_eq_false_2 by done.
  erewrite cbind_Done by apply emit_logged.
  erewrite cbind_Done by (by apply create_list_service).
  cbn. by rewrite <- app_assoc.
Qed.

(** C26. End to end on the service: [create_tasks.py --keywords K
    --list L] with [L] a new, non-blank list name, and a language model
    that answers the prompt naming [L] with a non-empty list of tasks
    acceptable once [L] exists.  The script reports [L] missing, creates
    it, posts every task and reports [n/n]; the store gains [L] and the
    [n] tasks and keeps its invariant. *)
Theorem main_new_list_posts_all (llm : string → option json) (a : args) (kw l : string)
    (ts : list json) (s : svc) (out : list event) :
  store_wf (svc_store s) →
  a_show_lists a = false → given (a_create_list a) = None → given (a_delete_list a) = None →
  given (a_keywords a) = Some kw → given (a_list a) = Some l → a_dry_run a = false →
  l ∉ lists (svc_store s) → all_space l = false →
  llm (build_prompt (parse_keywords kw) (a_count a) (Some l)) = Some (JArr ts) → ts ≠ [] →
  Forall (λ t, postable (lists (svc_store s) ++ [l])%list t = true) ts →
  ∃ s' evs, CreateTasks.main llm a (s, out) =
      (Done tt, (s', (out ++ [ListMissing l; ListCreated l; Generating (a_count a) (parse_keywords kw)] ++
                      evs ++ [PostSummary (List.length ts) (List.length ts)])%list)) ∧
    lists (svc_store s') = (lists (svc_store s) ++ [l])%list ∧
    List.length (tasks (svc_store s')) = (List.length (tasks (svc_store s)) + List.length ts)%nat ∧
    store_wf (svc_store s').
Proof.
  intros Hwf Hs Hc Hd Hkw Hl Hdry Hnew Hsp Hllm Hne Hall.
  set (s1 := set_store s (mkStore (tasks (svc_store s)) (lists (svc_store s) ++ [l])%list (next_id (svc_store s)))).
  assert (store_wf (svc_store s1)) as Hwf1.
  { eapply (create_list_wf (mkListModel l)); [exact Hwf|]. rewrite create_list_spec.
    simpl. rewrite decide_False by congruence. by rewrite decide_False. }
  destruct (post_tasks_run ts s1 (out ++ [ListMissing l; ListCreated l; Generating (a_count a) (parse_keywords kw)])%list
              Hwf1 Hall) as (s' & evs & Hrun & Hn & Hls & Hlen & Hwf').
  exists s', evs. split_and!; [|done|done|done].
  unfold CreateTasks.main. rewrite Hs, Hc, Hd, Hkw. cbn [cbind cret lift].
  erewrite cbind_Done by (by apply ensure_list_new).
  unfold CreateTasks.generate_and_post. erewrite cbind_Done by apply emit_logged.
  unfold CreateTasks.generate_task_ideas. rewrite Hllm.
  erewrite cbind_Done by reflexivity.
  destruct ts as [|t ts']; [done|]. cbn [py_truthy negb List.length Nat.eqb]. rewrite Hdry.
  rewrite <- !app_assoc in Hrun. rewrite <- !app_assoc. exact Hrun.
Qed.

(** ** Requests the script sends *)

Section Requests.
Context {S : Type} `{!Server S}.
#[local] Existing Instance counting_server.
Local Open Scope nat_scope.
Local Abbreviation cnt := (@requests_sent S).

Lemma logged_counting_handle (r : request) (σ : (S * nat) * list event) :
  requests_sent (snd (handle r σ)) ≤ requests_sent σ + 1.
Proof.
  destruct σ as [[s n] out]. unfold handle at 1, logged_server. unfold handle, counting_server.
  repeat case_match; simplify_eq/=. unfold requests_sent. simpl. lia.
Qed.

Lemma sends_emit (e : event) : sends cnt (CreateTasks.emit e) 0.
Proof. apply sends_frame. by intros [[s n] out]. Qed.

Lemma sends_logged_request (r : request) : sends cnt (send r) 1.
Proof. apply sends_send, logged_counting_handle. Qed.

#[local] Hint Resolve sends_emit sends_logged_request : sends.


Lemma sends_get_all_lists : sends cnt CreateTasks.get_all_lists 1.
Proof. unfold CreateTasks.get_all_lists. sends_bound. Qed.

Lemma sends_create_list (n : string) : sends cnt (CreateTasks.create_list n) 1.
Proof. unfold CreateTasks.create_list. sends_bound. Qed.

Lemma sends_delete_list (n : string) : sends cnt (CreateTasks.delete_list n) 1.
Proof. unfold CreateTasks.delete_list. sends_bound. Qed.

#[local] Hint Resolve sends_get_all_lists sends_create_list sends_delete_list : sends.

(** One request per task, none retried. *)
Lemma sends_post_loop (i k : nat) (ts : list json) : sends cnt (CreateTasks.post_loop i k ts) (List.length ts).
Proof. revert i k. induction ts as [|t ts IH]; intros i k; simpl; sends_bound. Qed.

(** At most two requests: look the list up, create it. *)
Lemma sends_ensure_list (a : args) : sends cnt (CreateTasks.ensure_list a) 2.
Proof.
  unfold CreateTasks.ensure_list. destruct (given (a_list a)); [destruct (a_dry_run a)|]; sends_bound.
Qed.

Variable llm : string → option json.
Variable k : nat.
(** Every reply of the language model has at most [k] items. *)
Hypothesis llm_len : ∀ p j, llm p = Some j → ∀ m, py_len j = Some m → m ≤ k.

Lemma returns_generate_task_ideas kw n l :
  returns (CreateTasks.generate_task_ideas (S:=S * nat) llm kw n l) (λ j, ∀ m, py_len j = Some m → m ≤ k).
Proof.
  intros [[s c] out] j σ'. unfold CreateTasks.generate_task_ideas.
  destruct (llm _) as [j'|] eqn:E; cbn; intros [= <- _]; [by eapply llm_len|intros m [= <-]; lia].
Qed.

Lemma sends_generate_task_ideas kw n l : sends cnt (CreateTasks.generate_task_ideas llm kw n l) 0.
Proof. unfold CreateTasks.generate_task_ideas. destruct (llm _); sends_bound. Qed.

Lemma sends_post_tasks_to_api (j : json) :
  (∀ m, py_len j = Some m → m ≤ k) → sends cnt (CreateTasks.post_tasks_to_api j) k.
Proof.
  intros Hj. unfold CreateTasks.post_tasks_to_api. rewrite <- (Nat.add_0_l k).
  eapply sends_bind_post; [apply sends_elems|apply returns_elems|]. intros xs Hxs.
  specialize (Hj _ Hxs). pose proof (sends_post_loop 0 0 xs). sends_bound.
Qed.

Lemma sends_generate_and_post (a : args) kw l : sends cnt (CreateTasks.generate_and_post llm a kw l) k.
Proof.
  unfold CreateTasks.generate_and_post. rewrite <- (Nat.add_0_l k), <- (Nat.add_0_l (0 + k)).
  apply sends_bind; [apply sends_emit|intros _].
  eapply sends_bind_post; [apply sends_generate_task_ideas|apply returns_generate_task_ideas|].
  intros j Hj. pose proof (sends_post_tasks_to_api j Hj). sends_bound.
Qed.

(** A command ([--show-lists], [--create-list], [--delete-list]) ends
    the run with its [exit(0)]: nothing after it runs. *)
Local Ltac command_exits := eapply sends_weaken; [eapply sends_bind_raises; sends_auto|simpl; lia].

Lemma sends_main (a : args) : sends cnt (CreateTasks.main llm a) (2 + k).
Proof.
  unfold CreateTasks.main.
  destruct (a_show_lists a); [command_exits|]. cbv iota beta. rewrite cbind_ret.
  destruct (given (a_create_list a)); [command_exits|]. cbv iota beta. rewrite cbind_ret.
  destruct (given (a_delete_list a)); [command_exits|]. cbv iota beta. rewrite cbind_ret.
  pose proof (sends_ensure_list a). pose proof (sends_generate_and_post a). sends_bound.
Qed.
End Requests.

(** C13. Whatever the server answers, a run of [create_tasks.py] ends
    having sent at most [k + 2] requests when no reply of the language
    model has more than [k] items: two to look up and create the list of
    [--list], one per generated task, one for [--show-lists],
    [--create-list] or [--delete-list], and none retried. *)
Theorem main_requests_bounded {S} `{!Server S} (llm : string → option json) (k : nat) (a : args) (s : S) (out : list event) :
  (∀ p j, llm p = Some j → ∀ m, py_len j = Some m → (m ≤ k)%nat) →
  (requests_sent (snd (@CreateTasks.main (S * nat) counting_server llm a ((s, 0), out))) ≤ k + 2)%nat.
Proof. intros Hllm. pose proof (sends_main llm k Hllm a ((s, 0%nat), out)) as H. simpl in H. lia. Qed.

(** ** Witnesses *)

Definition witness_tasks : list json :=
  [JObj [("title", JStr "Plant tomatoes"); ("list", JStr "Garden")];
   JObj [("title", JStr "Water the lawn"); ("tags", JArr [JStr "garden"]); ("list", JStr "Garden")]].

Definition witness_llm (_ : string) : option json := Some (JArr witness_tasks).

Definition witness_args : args :=
  mkArgs (Some "gardening, spring") 2 false (Some "Garden") None None false.

Definition witness_store : store := mkStore [] ["Personal"; "Work"; "Garden"] 0.

Lemma post_tasks_service_witness :
  store_wf witness_store ∧
  Forall (λ t, postable (lists (svc_store (mkSvc witness_store "2025-06-01T09:00:00"))) t = true) witness_tasks ∧
  ∃ s' evs, CreateTasks.post_tasks_to_api (JArr witness_tasks) (mkSvc witness_store "2025-06-01T09:00:00", []) =
      (Done tt, (s', ([] ++ evs ++ [PostSummary 2 2])%list)) ∧
    List.length evs = 2%nat ∧
    lists (svc_store s') = lists witness_store ∧
    List.length (tasks (svc_store s')) = 2%nat ∧ store_wf (svc_store s').
Proof.
  assert (store_wf witness_store) as H1.
  { constructor; simpl; [repeat constructor; set_solver|set_solver|constructor|set_solver]. }
  assert (Forall (λ t, postable (lists (svc_store (mkSvc witness_store "2025-06-01T09:00:00"))) t = true)
            witness_tasks) as H2 by (repeat constructor).
  split; [exact H1|]. split; [exact H2|].
  exact (post_tasks_service witness_tasks (mkSvc witness_store "2025-06-01T09:00:00") [] H1 H2).
Defined.

Lemma dry_run_sends_nothing_witness :
  a_dry_run (mkArgs (Some "gardening") 3 true (Some "Garden") None None false) = true ∧
  fst (snd (CreateTasks.main witness_llm (mkArgs (Some "gardening") 3 true (Some "Garden") None None false)
              (init_svc "2025-06-01T09:00:00", []))) = init_svc "2025-06-01T09:00:00".
Proof.
  split; [reflexivity|]. apply dry_run_sends_nothing; reflexivity.
Defined.


Lemma slash_list_persists_witness :
  Forall (λ seg, "/"%char ∉ chars seg) (req_path (http_delete ["lists"; "Home"])) ∧
  "Home/Garden" ∈ lists (svc_store (mkSvc (mkStore [] ["Personal"; "Home/Garden"] 0) "now")) ∧
  "Home/Garden" ∈ lists (svc_store (snd (fastapi_app (http_delete ["lists"; "Home"])
                                          (mkSvc (mkStore [] ["Personal"; "Home/Garden"] 0) "now")))).
Proof.
  assert (Forall (λ seg, "/"%char ∉ chars seg) (req_path (http_delete ["lists"; "Home"]))) as H1
    by (apply (bool_decide_unpack _); vm_compute; reflexivity).
  assert ("Home/Garden" ∈ lists (svc_store (mkSvc (mkStore [] ["Personal"; "Home/Garden"] 0) "now"))) as H2
    by (simpl; set_solver).
  assert ("/"%char ∈ chars "Home/Garden") as H3 by (apply (bool_decide_unpack _); vm_compute; reflexivity).
  split_and!; [exact H1|exact H2|exact (slash_list_persists _ _ _ H1 H2 H3)].
Defined.

Lemma main_new_list_posts_all_witness :
  store_wf (svc_store (init_svc "2025-06-01T09:00:00")) ∧
  ∃ s' evs, CreateTasks.main witness_llm witness_args (init_svc "2025-06-01T09:00:00", []) =
      (Done tt, (s', ([] ++ [ListMissing "Garden"; ListCreated "Garden";
                             Generating 2 (parse_keywords "gardening, spring")] ++
                      evs ++ [PostSummary 2 2])%list)) ∧
    lists (svc_store s') = (["Personal"; "Work"] ++ ["Garden"])%list ∧
    List.length (tasks (svc_store s')) = 2%nat ∧ store_wf (svc_store s').
Proof.
  split; [exact init_store_wf|].
  apply (main_new_list_posts_all witness_llm witness_args "gardening, spring" "Garden" witness_tasks
           (init_svc "2025-06-01T09:00:00") [] init_store_wf);
    try reflexivity; try (repeat constructor); try (apply (bool_decide_unpack _); vm_compute; reflexivity); done.
Defined.

Definition witness_query_svc : svc := mkSvc (mkStore [] ["Personal"; "Work"; "Work?old"] 0) "2025-06-01T09:00:00".

Lemma delete_list_query_name_witness :
  ends_path "?" = true ∧ url_plain "Work" = true ∧ "Work" ≠ "" ∧ "Work" ≠ "Personal" ∧
  "Work" ∈ lists (svc_store witness_query_svc) ∧ list_in_use "Work" (svc_store witness_query_svc) = false ∧
  CreateTasks.delete_list ("Work" ++ String "?" "old") (witness_query_svc, []) =
    (Done true,
     (set_store witness_query_svc
        (mkStore [] (filter (λ l, l ≠ "Work") (lists (svc_store witness_query_svc))) 0),
      [ListDeleted "Work?old"])).
Proof.
  assert ("Work" ∈ lists (svc_store witness_query_svc)) as Hin
    by (apply (bool_decide_unpack _); vm_compute; reflexivity).
  split_and!; [reflexivity|reflexivity|discriminate|discriminate|exact Hin|reflexivity|].
  exact (delete_list_query_name "Work" "old" "?" witness_query_svc [] eq_refl eq_refl
           ltac:(discriminate) ltac:(discriminate) Hin eq_refl).
Defined.

Lemma main_requests_bounded_witness :
  (∀ p j, witness_llm p = Some j → ∀ m, py_len j = Some m → (m ≤ 2)%nat) ∧
  (requests_sent (snd (@CreateTasks.main (svc * nat) counting_server witness_llm witness_args
                        ((init_svc "2025-06-01T09:00:00", 0), []))) ≤ 2 + 2)%nat.
Proof.
  assert (∀ p j, witness_llm p = Some j → ∀ m, py_len j = Some m → (m ≤ 2)%nat) as H
    by (intros p j [= <-] m [= <-]; simpl; lia).
  split; [exact H|exact (main_requests_bounded witness_llm 2 witness_args _ [] H)].
Defined.

(** The bound is reached: from start-up, [--list Garden] with two
    generated tasks looks the lists up, creates [Garden] and posts both. *)
Example main_requests_witness_run :
  requests_sent (snd (@CreateTasks.main (svc * nat) counting_server witness_llm witness_args
                        ((init_svc "2025-06-01T09:00:00", 0%nat), []))) = 4%nat.
Proof. vm_compute. reflexivity. Qed.

(** A reply that parses to a JSON string, not an array, is iterated
    character by character: each character is posted as a task body and
    refused with 422, one request per character. *)
Example string_reply_posts_characters :
  let '(o, ((s, n), out)) :=
    @CreateTasks.main (svc * nat) counting_server (λ _, Some (JStr "abc"))
      (mkArgs (Some "chores") 3 false None None None false) ((init_svc "2025-06-01T09:00:00", 0%nat), []) in
  n = 3%nat ∧ s = init_svc "2025-06-01T09:00:00" ∧
  out = [Generating 3 ["chores"]; TaskFailed 1 422; TaskFailed 2 422; TaskFailed 3 422; PostSummary 0 3].
Proof. vm_compute. split_and!; reflexivity. Qed.
