(* ===== verification/Summary.v ===== *)
(** * The test summaries of the two suites

    [summary()] of [src/testing/test_todo_api.py] (lines 555-603) groups
    the results list by category in first-appearance order (a Python dict),
    counts passes and failures, and prints each category and the overall
    result with a percentage [int((passed / total) * 100)] computed in
    binary64 floating point.  The printed lines are values of
    [summary_line]; the percentage is computed with Rocq's primitive
    IEEE-754 binary64 floats, which are Python's [float], and Python's
    [int()] of a float is read off its [SpecFloat] image.  The legacy
    suite's [summary()] (lines 131-135 of [src/Testing/test_todo_api.py])
    only counts. *)

From S2P Require Import Prelude Json Models Http Skeleton Store Service Suite Conformance Legacy.
From Stdlib Require Import ZArith.
From Stdlib Require PrimFloat SpecFloat FloatOps Uint63.

(** ** Python floats *)

(** [float(n)] of a count.  The conversion is exact below [2^53]; Python's
    [int / int] is the correctly rounded quotient, which for such counts is
    the float division of the two converted counts. *)
Definition py_float (n : nat) : PrimFloat.float :=
  PrimFloat.of_uint63 (Uint63.of_Z (Z.of_nat n)).

(** [int(x)] of a float: truncation towards zero; [int(nan)] raises
    [ValueError] and [int(inf)] [OverflowError] ([None]). *)
Definition py_int (x : PrimFloat.float) : option Z :=
  match FloatOps.Prim2SF x with
  | SpecFloat.S754_zero _ => Some 0%Z
  | SpecFloat.S754_finite sign m e =>
      let q := if (0 <=? e)%Z then Z.shiftl (Zpos m) e else Z.shiftr (Zpos m) (- e) in
      Some (if sign then (- q)%Z else q)
  | _ => None
  end.

(** [int((passed / total) * 100) if total > 0 else 0] (lines 574 and 594) *)
Definition pass_pct (passed total : nat) : option Z :=
  if (0 <? total)%nat
  then py_int (PrimFloat.mul (PrimFloat.div (py_float passed) (py_float total)) (py_float 100))
  else Some 0%Z.

(** ** The main suite's [summary()] *)

(** [{"passed": 0, "failed": 0, "total": 0, "tests": []}] *)
Record cat_stats : Type := mkCatStats {
  c_passed : nat; c_failed : nat; c_total : nat; c_tests : list (string * bool)
}.

Definition empty_stats : cat_stats := mkCatStats 0 0 0 [].

(** One iteration of lines 560-570: create the category on its first
    result, then count the result and append it to the category's tests. *)
Definition add_result (cats : list (string * cat_stats)) (r : string * string * bool)
    : list (string * cat_stats) :=
  let '(group, name, passed) := r in
  let st := default empty_stats (dict_get group cats) in
  dict_set group
    (mkCatStats (if passed then Nat.succ (c_passed st) else c_passed st)
                (if passed then c_failed st else Nat.succ (c_failed st))
                (Nat.succ (c_total st)) (c_tests st ++ [(name, passed)])%list) cats.

(** Lines 559-570: the [categories] dict. *)
Definition categories (results : list (string * string * bool)) : list (string * cat_stats) :=
  fold_left add_result results [].

(** The lines [summary()] prints. *)
Inductive summary_line : Type :=
| SummaryTitle                                   (* "\n📋 Test Summary:" *)
| CategoryHeading (heading : string)             (* "\n== /tasks Endpoint Tests ==" *)
| CategoryResult (cat : string) (passed total : nat) (pct : Z)
| TestResult (passed : bool) (name : string)     (* "  ✅ name" or "  ❌ name" *)
| OverallHeading                                 (* "\n== Overall Results ==" *)
| OverallResult (passed total : nat) (pct : Z)
| FailedHeading                                  (* "\n== Failed Tests ==" *)
| FailedTest (group name : string).              (* "  - group: name" *)

(** Lines 576-581: the heading printed before a known category. *)
Definition category_heading (cat : string) : list summary_line :=
  if String.eqb cat "Tasks" then [CategoryHeading "== /tasks Endpoint Tests =="]
  else if String.eqb cat "Lists" then [CategoryHeading "== /lists Endpoint Tests =="]
  else if String.eqb cat "General" then [CategoryHeading "== General API Tests =="]
  else [].

(** Lines 573-588: one category's block. *)
Definition category_lines (c : string * cat_stats) : option (list summary_line) :=
  let '(cat, st) := c in
  pct ← pass_pct (c_passed st) (c_total st);
  Some (category_heading cat ++
        CategoryResult cat (c_passed st) (c_total st) pct ::
        map (λ t, TestResult t.2 t.1) (c_tests st))%list.

(** [sum(1 for g, n, s, m in results if s is b)] (lines 591-592) *)
Definition count_status (b : bool) (results : list (string * string * bool)) : nat :=
  List.length (List.filter (λ r, Bool.eqb r.2 b) results).

(** Lines 555-603: [summary()]; [None] when an [int()] raises.  The
    results carry no exception message, so a failed test's line omits the
    message printed under it. *)
Definition summary (results : list (string * string * bool)) : option (list summary_line) :=
  blocks ← mapM category_lines (categories results);
  let total_passed := count_status true results in
  let total_failed := count_status false results in
  let total := (total_passed + total_failed)%nat in
  pct ← pass_pct total_passed total;
  Some (SummaryTitle :: List.concat blocks ++
        [OverallHeading; OverallResult total_passed total pct] ++
        (if (0 <? total_failed)%nat
         then FailedHeading :: map (λ r, FailedTest r.1.1 r.1.2) (List.filter (λ r, negb r.2) results)
         else []))%list.

(** ** The legacy suite's [summary()] *)

(** Lines 131-135 of [src/Testing/test_todo_api.py]: the counts printed
    as ["✅ {passed} passed, ❌ {failed} failed"]. *)
Definition legacy_summary (results : list (string * string * bool)) : nat * nat :=
  (count_status true results, count_status false results).

(** ** Facts *)

(** The results of one category, in order. *)
Definition in_group (g : string) (rs : list (string * string * bool)) : list (string * string * bool) :=
  filter (λ r, r.1.1 = g) rs.

(** What the [categories] entry of [g] should hold after [rs]. *)
Definition stats_of (g : string) (rs : list (string * string * bool)) : cat_stats :=
  mkCatStats (count_status true (in_group g rs)) (count_status false (in_group g rs))
             (List.length (in_group g rs)) (map (λ r, (r.1.2, r.2)) (in_group g rs)).

Lemma count_status_app b xs ys :
  count_status b (xs ++ ys) = (count_status b xs + count_status b ys)%nat.
Proof. unfold count_status. by rewrite List.filter_app, length_app. Qed.

Lemma count_status_total rs : (count_status true rs + count_status false rs)%nat = List.length rs.
Proof.
  unfold count_status. induction rs as [|[? []] rs IH]; simpl; [done| |]; lia.
Qed.

Lemma stats_of_snoc g rs r :
  stats_of g (rs ++ [r])%list =
    if decide (r.1.1 = g) then
      let st := stats_of g rs in
      mkCatStats (if r.2 then Nat.succ (c_passed st) else c_passed st)
                 (if r.2 then c_failed st else Nat.succ (c_failed st))
                 (Nat.succ (c_total st)) (c_tests st ++ [(r.1.2, r.2)])%list
    else stats_of g rs.
Proof.
  unfold stats_of, in_group. rewrite filter_app, filter_cons, filter_nil.
  case_decide; simpl; [|by rewrite !app_nil_r].
  rewrite !count_status_app, length_app, map_app.
  destruct r as [[? ?] []]; cbn; f_equal; by rewrite ?Nat.add_1_r, ?Nat.add_0_r.
Qed.

Lemma stats_of_absent g rs : g ∉ map (λ r, r.1.1) rs → stats_of g rs = empty_stats.
Proof.
  intros Hg. unfold stats_of, in_group.
  induction rs as [|r rs IH]; [done|]. rewrite filter_cons. simpl in Hg.
  rewrite decide_False by (intros <-; set_solver). apply IH. set_solver.
Qed.

Section Categories.
Variable rs : list (string * string * bool).
Variable cats : list (string * cat_stats).
Hypothesis Hget : ∀ g, dict_get g cats =
  if decide (g ∈ map (λ r, r.1.1) rs) then Some (stats_of g rs) else None.

(** The entry line 562 creates or line 564 finds is the category's
    statistics so far. *)
Lemma default_stats g : default empty_stats (dict_get g cats) = stats_of g rs.
Proof.
  rewrite Hget. case_decide as Hg; [done|]. simpl. by rewrite stats_of_absent.
Qed.

(** One more result keeps the description of [categories]. *)
Lemma add_result_get r g :
  dict_get g (add_result cats r) =
    if decide (g ∈ map (λ r, r.1.1) (rs ++ [r])%list) then Some (stats_of g (rs ++ [r])%list) else None.
Proof.
  destruct r as [[g0 n] p]. unfold add_result. rewrite map_app. simpl.
  destruct (decide (g = g0)) as [->|Hne].
  - rewrite dict_get_set_eq, decide_True by set_solver. f_equal.
    rewrite stats_of_snoc. simpl. rewrite decide_True by done. rewrite default_stats. reflexivity.
  - rewrite dict_get_set_ne, Hget by done. rewrite stats_of_snoc. simpl. rewrite (decide_False (P:=g0 = g)) by congruence.
    destruct (decide (g ∈ map _ rs)); [rewrite decide_True|rewrite decide_False]; set_solver.
Qed.
End Categories.

Lemma categories_inv rs :
  NoDup (dict_keys (categories rs)) ∧
  ∀ g, dict_get g (categories rs) =
    if decide (g ∈ map (λ r, r.1.1) rs) then Some (stats_of g rs) else None.
Proof.
  unfold categories. induction rs as [|r rs IH] using rev_ind.
  { split; [constructor|]. intros g. by rewrite decide_False by set_solver. }
  rewrite fold_left_app. simpl. destruct IH as [Hnd Hget]. split.
  - destruct r as [[? ?] ?]. by apply dict_set_NoDup.
  - intros g. by apply add_result_get.
Qed.

(** The bounds a percentage should meet, as a check. *)
Definition pct_ok (p t : nat) : bool :=
  match pass_pct p t with
  | Some k =>
      let exact := (100 * Z.of_nat p / Z.of_nat t)%Z in
      (exact - 1 <=? k)%Z && (k <=? exact)%Z && Bool.eqb (k =? 100)%Z (p =? t)%nat
  | None => false
  end.

(** Every percentage with at most 250 tests, computed. *)
Lemma pct_table :
  forallb (λ t, forallb (λ p, pct_ok p t) (seq 0 (S t))) (seq 1 250) = true.
Proof. vm_compute. reflexivity. Qed.

Lemma pct_ok_holds p t : (0 < t ≤ 250)%nat → (p ≤ t)%nat → pct_ok p t = true.
Proof.
  intros Ht Hp. apply (forallb_seq (λ q, pct_ok q t) 0 (S t)); [|lia].
  exact (forallb_seq _ 1 250 pct_table t ltac:(lia)).
Qed.

Lemma pass_pct_some p t : (t ≤ 250)%nat → (p ≤ t)%nat → is_Some (pass_pct p t).
Proof.
  intros Ht Hp. destruct t as [|t]; [by eexists|].
  pose proof (pct_ok_holds p (S t) ltac:(lia) Hp) as H. unfold pct_ok in H.
  destruct (pass_pct _ _); [by eexists|done].
Qed.

(** Each category's block, as line 583 and lines 586-588 print it. *)
Lemma category_lines_ok rs g st :
  (List.length rs ≤ 250)%nat → (g, st) ∈ categories rs →
  ∃ k, category_lines (g, st) = Some (category_heading g ++
         CategoryResult g (count_status true (in_group g rs)) (List.length (in_group g rs)) k ::
         map (λ r, TestResult r.2 r.1.2) (in_group g rs))%list.
Proof.
  intros Hlen Hin. destruct (categories_inv rs) as [Hnd Hget].
  pose proof (dict_elem_get _ _ _ Hnd Hin) as Hg. rewrite Hget in Hg.
  case_decide; [|done]. injection Hg as <-.
  pose proof (length_filter (λ r, r.1.1 = g) rs).
  pose proof (count_status_total (in_group g rs)).
  destruct (pass_pct_some (count_status true (in_group g rs)) (List.length (in_group g rs)))
    as [k Hk]; [unfold in_group in *; lia|lia|].
  exists k. unfold category_lines. cbn [stats_of c_passed c_total c_tests]. rewrite Hk. simpl.
  by rewrite map_map.
Qed.

(** What [pct_ok] checks, as a statement. *)
Lemma pct_ok_sound p t :
  pct_ok p t = true →
  ∃ k, pass_pct p t = Some k ∧
    (100 * Z.of_nat p / Z.of_nat t - 1 ≤ k ≤ 100 * Z.of_nat p / Z.of_nat t)%Z ∧
    (k = 100%Z ↔ p = t).
Proof.
  unfold pct_ok. destruct (pass_pct p t) as [k|]; [|done]. intros H. exists k.
  apply andb_true_iff in H as [[H1 H2]%andb_true_iff H3%eqb_prop].
  apply Z.leb_le in H1, H2. split_and!; [done|lia|lia|].
  by rewrite <- Z.eqb_eq, H3, Nat.eqb_eq.
Qed.

(** The keys of [categories] are the groups of the results. *)
Lemma categories_keys rs g : g ∈ dict_keys (categories rs) ↔ g ∈ map (λ r, r.1.1) rs.
Proof.
  destruct (categories_inv rs) as [_ Hget].
  split; intros Hg.
  - destruct (decide (g ∈ map (λ r, r.1.1) rs)) as [|Hn]; [done|].
    apply dict_get_None_keys in Hg as []. by rewrite Hget, decide_False.
  - destruct (decide (g ∈ dict_keys (categories rs))) as [|Hn]; [done|].
    apply dict_get_None_keys in Hn. by rewrite Hget, decide_True in Hn.
Qed.

(** ** Properties *)

(** C38. Bounds of the printed percentage: for every category or run of at
    most 250 tests, [int((passed / total) * 100)] never raises and is the
    exact percentage rounded down, or one less where the float product
    falls just below an integer; it is 100 exactly when every test passed. *)
Theorem pass_pct_bounds (p t : nat) :
  (0 < t ≤ 250)%nat → (p ≤ t)%nat →
  ∃ k, pass_pct p t = Some k ∧
    (100 * Z.of_nat p / Z.of_nat t - 1 ≤ k ≤ 100 * Z.of_nat p / Z.of_nat t)%Z ∧
    (k = 100%Z ↔ p = t).
Proof. intros Ht Hp. exact (pct_ok_sound p t (pct_ok_holds p t Ht Hp)). Qed.

(** The off-by-one: 29 of 50 tests is 58%, printed as 57%. *)
Example pass_pct_29_50 : pass_pct 29 50 = Some 57%Z ∧ (100 * 29 / 50 = 58)%Z.
Proof. split; vm_compute; reflexivity. Qed.

(** C39. [summary()] on any results list of at most 250 tests raises
    nothing; it prints one block per category, each category once and
    every group of the results a category, with that category's passes,
    total and tests in run order, then the overall line
    [passed/len(results)], then the failed tests if any; the overall
    percentage is 100 exactly when no test failed. *)
Theorem summary_spec (rs : list (string * string * bool)) :
  (List.length rs ≤ 250)%nat →
  ∃ blocks pct,
    summary rs = Some (SummaryTitle :: List.concat blocks ++
      [OverallHeading; OverallResult (count_status true rs) (List.length rs) pct] ++
      (if (0 <? count_status false rs)%nat
       then FailedHeading :: map (λ r, FailedTest r.1.1 r.1.2) (List.filter (λ r, negb r.2) rs)
       else []))%list ∧
    Forall2 (λ g b, ∃ k, b = (category_heading g ++
        CategoryResult g (count_status true (in_group g rs)) (List.length (in_group g rs)) k ::
        map (λ r, TestResult r.2 r.1.2) (in_group g rs))%list)
      (dict_keys (categories rs)) blocks ∧
    NoDup (dict_keys (categories rs)) ∧
    (∀ g, g ∈ dict_keys (categories rs) ↔ g ∈ map (λ r, r.1.1) rs) ∧
    (rs ≠ [] → (pct = 100%Z ↔ count_status false rs = 0%nat)).
Proof.
  intros Hlen.
  destruct (mapM_Some_intro category_lines (λ c b, ∃ k, b = (category_heading c.1 ++
        CategoryResult c.1 (count_status true (in_group c.1 rs)) (List.length (in_group c.1 rs)) k ::
        map (λ r, TestResult r.2 r.1.2) (in_group c.1 rs))%list) (categories rs)) as (bs & Hbs & Hall).
  { intros [g st] Hin. destruct (category_lines_ok rs g st Hlen Hin) as [k Hk]. eauto. }
  pose proof (count_status_total rs) as Htot.
  assert (∃ k, pass_pct (count_status true rs) (List.length rs) = Some k ∧
            (rs ≠ [] → (k = 100%Z ↔ count_status false rs = 0%nat))) as (k & Hk & H100).
  { destruct rs as [|r rs']; [by exists 0%Z|].
    destruct (pct_ok_sound _ _ (pct_ok_holds (count_status true (r :: rs')) (List.length (r :: rs'))
                                  ltac:(simpl in *; lia) ltac:(lia))) as (k & Hk & _ & Hiff).
    exists k. split; [done|]. intros _. rewrite Hiff. lia. }
  exists bs, k. unfold summary. rewrite Hbs. cbn [mbind option_bind]. rewrite Htot, Hk.
  split_and!; [done| |apply categories_inv|apply categories_keys|done].
  unfold dict_keys. by apply Forall2_fmap_l.
Qed.

(** The names [main] gives its tests, by category (lines 613-638). *)
Definition task_test_names : list string :=
  ["Create minimal task"; "Create fully-populated task"; "Create task validation";
   "Get task by ID"; "Update task"; "Delete task"; "List tasks (no filters)";
   "Filter tasks by completion"; "Filter tasks by list"; "Filter tasks by tags";
   "Combined filters"; "Recurrence fields"; "Update recurrence fields"].
Definition list_test_names : list string :=
  ["Get default lists"; "Create list"; "Create list validation"; "Delete list";
   "Delete list restrictions"].

(** The reports of the two runs of [main]: against the store-backed
    service every category and the whole run are at 100% and no failed
    test is listed; against the skeleton every category is at 0% and all
    nineteen tests are listed as failed.  The legacy suite's summary
    counts 3 passed and 7 failed on the service, 0 and 10 on the
    skeleton. *)
Theorem summary_main_runs (now : string) :
  summary (fst (main run_env (init_svc now))) =
    Some ([SummaryTitle; CategoryHeading "== /tasks Endpoint Tests =="; CategoryResult "Tasks" 13 13 100] ++
          map (TestResult true) task_test_names ++
          [CategoryHeading "== /lists Endpoint Tests =="; CategoryResult "Lists" 5 5 100] ++
          map (TestResult true) list_test_names ++
          [CategoryHeading "== General API Tests =="; CategoryResult "General" 1 1 100;
           TestResult true "API interface consistency"; OverallHeading; OverallResult 19 19 100])%list ∧
  summary (fst (main (S:=unit) run_env tt)) =
    Some ([SummaryTitle; CategoryHeading "== /tasks Endpoint Tests =="; CategoryResult "Tasks" 0 13 0] ++
          map (TestResult false) task_test_names ++
          [CategoryHeading "== /lists Endpoint Tests =="; CategoryResult "Lists" 0 5 0] ++
          map (TestResult false) list_test_names ++
          [CategoryHeading "== General API Tests =="; CategoryResult "General" 0 1 0;
           TestResult false "API interface consistency"; OverallHeading; OverallResult 0 19 0;
           FailedHeading] ++
          map (FailedTest "Tasks") task_test_names ++ map (FailedTest "Lists") list_test_names ++
          [FailedTest "General" "API interface consistency"])%list ∧
  legacy_summary (fst (LegacySuite.legacy_main (init_svc now))) = (3, 7)%nat ∧
  legacy_summary (fst (LegacySuite.legacy_main (S:=unit) tt)) = (0, 10)%nat.
Proof. split_and!; vm_compute; reflexivity. Qed.

(** ** Witnesses *)

Lemma pass_pct_bounds_witness :
  (0 < 50 ≤ 250)%nat ∧ (29 ≤ 50)%nat ∧
  ∃ k, pass_pct 29 50 = Some k ∧
    (100 * Z.of_nat 29 / Z.of_nat 50 - 1 ≤ k ≤ 100 * Z.of_nat 29 / Z.of_nat 50)%Z ∧
    (k = 100%Z ↔ 29%nat = 50%nat).
Proof.
  assert (0 < 50 ≤ 250)%nat as H1 by lia. assert (29 ≤ 50)%nat as H2 by lia.
  split; [exact H1|split; [exact H2|exact (pass_pct_bounds 29 50 H1 H2)]].
Defined.

Definition witness_results : list (string * string * bool) :=
  [("Tasks", "Create", true); ("Lists", "Create list", false); ("Tasks", "Delete", true)].

Lemma summary_spec_witness :
  (List.length witness_results ≤ 250)%nat ∧
  ∃ blocks pct,
    summary witness_results = Some (SummaryTitle :: List.concat blocks ++
      [OverallHeading; OverallResult (count_status true witness_results) (List.length witness_results) pct] ++
      (if (0 <? count_status false witness_results)%nat
       then FailedHeading :: map (λ r, FailedTest r.1.1 r.1.2) (List.filter (λ r, negb r.2) witness_results)
       else []))%list ∧
    Forall2 (λ g b, ∃ k, b = (category_heading g ++
        CategoryResult g (count_status true (in_group g witness_results)) (List.length (in_group g witness_results)) k ::
        map (λ r, TestResult r.2 r.1.2) (in_group g witness_results))%list)
      (dict_keys (categories witness_results)) blocks ∧
    NoDup (dict_keys (categories witness_results)) ∧
    (∀ g, g ∈ dict_keys (categories witness_results) ↔ g ∈ map (λ r, r.1.1) witness_results) ∧
    (witness_results ≠ [] → (pct = 100%Z ↔ count_status false witness_results = 0%nat)).
Proof.
  assert (List.length witness_results ≤ 250)%nat as H by (simpl; lia).
  split; [exact H|exact (summary_spec witness_results H)].
Defined.
