(* ===== verification/Liveness.v ===== *)
(** * Recovering the start-up state of the service

    A liveness property of the API behind the source's routing: from any
    well-formed service state, a finite sequence of requests a client can
    send (no path segment with a slash, as a URL built with f-strings
    gives) brings the service back, in the abstract specification of
    [Abstract.v], to its start-up state: no task, and the lists
    ["Personal"] and ["Work"].  The sequence is [cleanup]'s (line 21-38
    of [src/testing/test_todo_api.py]) sent by a client that quotes the
    names it puts in URLs (so a [?] or [#] stays in the segment), completed
    by the creation of ["Work"] when it was deleted, which [cleanup]
    omits.  A list whose name contains a slash is out of reach of every
    such request (Starlette decodes [%2F] before routing), so its absence
    is needed (see [Generator.slash_list_persists]). *)

From S2P Require Import Prelude Json Models Http Skeleton Store Service Abstract Suite Conformance.
From stdpp Require Import gmap.

(** ** Request sequences *)

(** The service state after a sequence of requests. *)
Fixpoint run_requests (rs : list request) (s : svc) : svc :=
  match rs with
  | [] => s
  | r :: rs' => run_requests rs' (snd (fastapi_app r s))
  end.

(** A request a client can send: no path segment contains a slash. *)
Definition url_segments_ok (r : request) : bool :=
  forallb (λ seg, negb (bool_decide ("/"%char ∈ chars seg))) (req_path r).

(** The default lists, which the reset keeps. *)
Definition default_list (n : string) : Prop := n = "Personal" ∨ n = "Work".

(** Delete every task, then every list but the defaults, then create
    ["Work"] if it is missing. *)
Definition reset_requests (st : store) : list request :=
  map (λ kv, http_delete ["tasks"; kv.1]) (tasks st) ++
  map (λ n, http_delete ["lists"; n]) (filter (λ n, ¬ default_list n) (lists st)) ++
  (if bool_decide ("Work" ∈ lists st) then [] else [http_post ["lists"] (JObj [("name", JStr "Work")])]).

(** ** Facts *)

Lemma run_requests_app rs rs' s : run_requests (rs ++ rs') s = run_requests rs' (run_requests rs s).
Proof. revert s. induction rs; intros s; simpl; auto. Qed.

Lemma run_requests_rtc rs s : rtc http_step s (run_requests rs s).
Proof. revert s. induction rs as [|r rs IH]; intros s; [done|]. eapply rtc_l; [by exists r|apply IH]. Qed.

Lemma delete_segments_ok a x :
  "/"%char ∉ chars a → "/"%char ∉ chars x → url_segments_ok (http_delete [a; x]) = true.
Proof. intros Ha Hx. unfold url_segments_ok. simpl. by rewrite !bool_decide_eq_false_2. Qed.

(** The first part deletes every task, one request each. *)
Lemma reset_tasks (ts : list (string * TaskOut)) (s : svc) :
  tasks (svc_store s) = ts → NoDup (map fst ts) →
  Forall (λ kt, kt.1 ≠ "") ts →
  run_requests (map (λ kv, http_delete ["tasks"; kv.1]) ts) s = set_store s (with_tasks (svc_store s) []).
Proof.
  revert s. induction ts as [|[k t] ts IH]; intros s Hts Hnd Hall.
  { destruct s as [[ts0 l n] now]. simpl in *. by subst. }
  apply Forall_cons in Hall as [Hk Hall]. simpl in Hk.
  apply NoDup_cons in Hnd as [Hnotin Hnd].
  cbn [map run_requests]. rewrite app_delete_task by done.
  unfold delete_task. rewrite Hts. cbn [dict_get]. rewrite decide_True by done.
  cbn [answer snd dict_del]. rewrite decide_True by done.
  rewrite IH; [done|done|done|done].
Qed.

(** The second part deletes every list but the defaults ([pre] are the
    names already visited). *)
Lemma reset_lists (xs pre : list string) (s : svc) :
  lists (svc_store s) = (pre ++ xs)%list → NoDup (pre ++ xs) → tasks (svc_store s) = [] →
  Forall (λ n, n ≠ "") xs →
  run_requests (map (λ n, http_delete ["lists"; n]) (filter (λ n, ¬ default_list n) xs)) s =
    set_store s (mkStore [] (pre ++ filter default_list xs)%list (next_id (svc_store s))).
Proof.
  revert pre s. induction xs as [|x xs IH]; intros pre s Hl Hnd Ht Hall.
  { destruct s as [[ts0 l n] now]. simpl in *. rewrite app_nil_r in *. by subst. }
  apply Forall_cons in Hall as [Hxe Hall].
  rewrite !filter_cons. unfold default_list at 1 3.
  destruct (decide (x = "Personal" ∨ x = "Work")) as [Hpw|Hpw].
  - rewrite decide_False by tauto. rewrite decide_True by done.
    rewrite (IH (pre ++ [x])%list) by (rewrite <- ?app_assoc; done). by rewrite <- app_assoc.
  - rewrite decide_True by done. rewrite decide_False by done. cbn [map run_requests].
    rewrite app_delete_list by done. unfold delete_list, list_in_use.
    rewrite decide_True by (rewrite Hl; set_solver). rewrite decide_False by naive_solver.
    replace (dict_values (tasks (svc_store s))) with (@nil TaskOut) by (unfold dict_values; by rewrite Ht).
    cbn [answer snd existsb].
    apply NoDup_app in Hnd as (Hpre & Hdis & Hnd'). apply NoDup_cons in Hnd' as [Hxs Hnd'].
    assert (x ∉ pre) as Hxp by (intros Hin; by apply (Hdis x Hin); left).
    rewrite Hl, filter_app, filter_cons, decide_False, !filter_neq_notin by (done || naive_solver).
    rewrite (IH pre); [by rewrite Ht|done| |done|done].
    apply NoDup_app. split_and!; [done| |done]. intros y Hy Hy'. by apply (Hdis y Hy); right.
Qed.

(** The last request restores ["Work"]. *)
Lemma reset_work (s : svc) :
  "Work" ∉ lists (svc_store s) →
  snd (fastapi_app (http_post ["lists"] (JObj [("name", JStr "Work")])) s) =
    set_store s (mkStore (tasks (svc_store s)) (lists (svc_store s) ++ ["Work"])%list (next_id (svc_store s))).
Proof.
  intros Hw. rewrite app_post_list. unfold create_list.
  rewrite decide_False by (cbv; congruence). rewrite decide_False by done. reflexivity.
Qed.

(** The lists left by the reset, as a set. *)
Lemma reset_lists_set (ls : list string) :
  "Personal" ∈ ls →
  list_to_set (C:=gset string)
    (filter default_list ls ++ (if bool_decide ("Work" ∈ ls) then [] else ["Work"]))%list =
  list_to_set ["Personal"; "Work"].
Proof.
  intros Hp. unfold default_list. apply set_eq. intros x. rewrite !elem_of_list_to_set.
  case_bool_decide as Hw; rewrite ?app_nil_r, ?elem_of_app, list_elem_of_filter; set_solver.
Qed.

(** ** Property *)

(** C11. From every well-formed service state whose lists have non-empty
    names without a slash, some finite sequence of requests a client can
    send brings the service back, abstractly, to its start-up state: no
    task and exactly the lists ["Personal"] and ["Work"]. *)
Theorem service_reset (s : svc) :
  store_wf (svc_store s) → Forall (λ n, n ≠ "" ∧ "/"%char ∉ chars n) (lists (svc_store s)) →
  ∃ rs, Forall (λ r, url_segments_ok r = true) rs ∧
    rtc http_step s (run_requests rs s) ∧
    abs (svc_store (run_requests rs s)) = abs init_store.
Proof.
  intros Hwf Hls. set (st := svc_store s).
  assert (Forall (λ kt, kt.1 ≠ "" ∧ "/"%char ∉ chars kt.1) (tasks st)) as Hids.
  { apply Forall_forall. intros [k t] Hin.
    destruct (wf_tasks _ Hwf _ _ Hin) as (_ & _ & _ & n & -> & _). simpl.
    split; [apply task_id_nonempty|apply task_id_no_slash]. }
  exists (reset_requests st). split_and!; [|apply run_requests_rtc|].
  - unfold reset_requests. rewrite !Forall_app. split_and!.
    + apply Forall_fmap, Forall_forall. intros [k t] Hin. eapply Forall_forall in Hids; [|exact Hin].
      apply delete_segments_ok; [apply (bool_decide_unpack _); vm_compute; reflexivity|apply Hids].
    + apply Forall_fmap, Forall_forall. intros n Hin.
      apply list_elem_of_filter in Hin as [_ Hin]. eapply Forall_forall in Hls; [|exact Hin].
      apply delete_segments_ok; [apply (bool_decide_unpack _); vm_compute; reflexivity|apply Hls].
    + case_bool_decide; repeat constructor.
  - unfold reset_requests. rewrite !run_requests_app.
    rewrite (reset_tasks (tasks st)) by (done || apply Hwf || by eapply Forall_impl; [exact Hids|naive_solver]).
    rewrite (reset_lists (lists st) []) by (done || apply Hwf || by eapply Forall_impl; [exact Hls|naive_solver]).
    cbn [svc_store set_store next_id app]. case_bool_decide as Hw.
    + unfold abs. cbn. f_equal. rewrite <- (app_nil_r (filter _ _)).
      replace (@nil string) with (if bool_decide ("Work" ∈ lists st) then [] else ["Work"])
        by (by rewrite bool_decide_eq_true_2).
      apply reset_lists_set, Hwf.
    + cbn [run_requests]. rewrite reset_work by (simpl; rewrite list_elem_of_filter; tauto).
      unfold abs. cbn. f_equal.
      replace ["Work"] with (if bool_decide ("Work" ∈ lists st) then [] else ["Work"])
        by (by rewrite bool_decide_eq_false_2).
      apply reset_lists_set, Hwf.
Qed.

(** ** Witness *)

(** A state where [Work] was deleted and a task sits in a new list. *)
Definition witness_reset_svc : svc :=
  mkSvc (mkStore [("0", mkTaskOut (mkTaskBase "Plant tomatoes" (Some "") [] None None None (Some "Garden"))
                             "0" false "2025-06-01T09:00:00")]
                 ["Personal"; "Garden"] 1) "2025-06-01T09:00:00".

Lemma witness_reset_svc_wf : store_wf (svc_store witness_reset_svc).
Proof.
  constructor; simpl; [repeat constructor; set_solver|set_solver|repeat constructor; set_solver|].
  intros tid t Hin. apply list_elem_of_singleton in Hin. injection Hin as -> ->.
  unfold task_wf; simpl. split_and!; [done|discriminate|exists "Garden"; split; [done|set_solver]|exists 0%N; split; [done|lia]].
Qed.

Lemma service_reset_witness :
  store_wf (svc_store witness_reset_svc) ∧
  Forall (λ n, n ≠ "" ∧ "/"%char ∉ chars n) (lists (svc_store witness_reset_svc)) ∧
  ∃ rs, Forall (λ r, url_segments_ok r = true) rs ∧
    rtc http_step witness_reset_svc (run_requests rs witness_reset_svc) ∧
    abs (svc_store (run_requests rs witness_reset_svc)) = abs init_store.
Proof.
  assert (Forall (λ n, n ≠ "" ∧ "/"%char ∉ chars n) (lists (svc_store witness_reset_svc))) as H.
  { repeat constructor; try discriminate; apply (bool_decide_unpack _); vm_compute; reflexivity. }
  split; [exact witness_reset_svc_wf|split; [exact H|exact (service_reset _ witness_reset_svc_wf H)]].
Defined.
